(** * gobuy-backend: the request handlers of [server.js], embedded in Rocq

    The server is a thin Express layer over a hosted record store and identity
    provider (the [supabase] client).  Every handler is a sequence of
    validate / call / format steps, so the embedding has three layers:

    - [JsVal] and the JavaScript operators the handlers use (truthiness,
      [===], [+], [<], [||], property access);
    - [Prog], the programs a handler runs: a free monad whose only effects
      are a call to the client ([Call]), a clock read ([Now]) and a thrown
      exception ([Throw]);
    - [exec], which runs a program against a [World] answering the calls,
      and records the requests issued to the client.

    JavaScript numbers are IEEE binary64 values, which is what [PrimFloat]
    provides.  Library functions whose text is not part of the server
    (number parsing and printing, [Date], [URL]) are fields of [Builtins]. *)

From Stdlib Require Import List String Ascii Bool ZArith Lia DecimalString.
From Stdlib Require Import PrimFloat Uint63 FloatAxioms SpecFloat FloatOps.
Import ListNotations.
Local Open Scope list_scope.
Local Open Scope string_scope.

Set Implicit Arguments.
Set Warnings "-register-all".

(** ** JavaScript values *)

(** A string is its sequence of code units, one [ascii] each (the Latin-1
    range); a number is a binary64 value; an object is the list of its own
    properties, the first entry for a name being the one that is read. *)
Inductive JsVal : Type :=
| JUndefined
| JNull
| JBool (b : bool)
| JNum (n : float)
| JStr (s : string)
| JArr (items : list JsVal)
| JObj (fields : list (string * JsVal)).

(** The double quote character, for the message templates. *)
Definition dquote : string := String (ascii_of_nat 34) EmptyString.

(** Array lengths and counts are non-negative integers below 2^32, exactly
    representable as numbers. *)
Definition num_of_nat (n : nat) : float :=
  PrimFloat.of_uint63 (Uint63.of_Z (Z.of_nat n)).

(** The elements of an array: fewer than 2^32 of them. *)
Definition is_array (l : list JsVal) : Prop :=
  (Z.of_nat (List.length l) < 2 ^ 32)%Z.

Definition JZero : JsVal := JNum PrimFloat.zero.
Definition JOne : JsVal := JNum PrimFloat.one.

(** ToBoolean: [undefined], [null], [false], [+0], [-0], [NaN] and the empty
    string are falsy, everything else (objects and arrays included) is
    truthy. *)
Definition truthy (v : JsVal) : bool :=
  match v with
  | JUndefined | JNull => false
  | JBool b => b
  | JNum n => negb (PrimFloat.is_zero n || PrimFloat.is_nan n)
  | JStr s => negb (String.eqb s EmptyString)
  | JArr _ | JObj _ => true
  end.

Definition nullish (v : JsVal) : bool :=
  match v with
  | JUndefined | JNull => true
  | _ => false
  end.

Definition is_undefined (v : JsVal) : bool :=
  match v with
  | JUndefined => true
  | _ => false
  end.

(** [a || b] *)
Definition js_or (a b : JsVal) : JsVal := if truthy a then a else b.

(** [a === b].  Two objects are strictly equal only when they are the same
    reference; the operands of every [===] in the server come from different
    sources (a reply and the resolved identity, a field and a literal), so an
    object operand makes the comparison false. *)
Definition strict_eq (a b : JsVal) : bool :=
  match a, b with
  | JUndefined, JUndefined => true
  | JNull, JNull => true
  | JBool x, JBool y => Bool.eqb x y
  | JNum x, JNum y => PrimFloat.eqb x y
  | JStr x, JStr y => String.eqb x y
  | _, _ => false
  end.

(** Own-property lookup in an object literal or a parsed JSON object. *)
Fixpoint assoc (k : string) (fs : list (string * JsVal)) : JsVal :=
  match fs with
  | [] => JUndefined
  | (k', v) :: rest => if String.eqb k k' then v else assoc k rest
  end.

(** [v.k] for a [v] that is neither [undefined] nor [null]: a property of an
    object, the [length] of an array or string; a missing property reads as
    [undefined]. *)
Definition field (v : JsVal) (k : string) : JsVal :=
  match v with
  | JObj fs => assoc k fs
  | JArr l => if String.eqb k "length" then JNum (num_of_nat (List.length l)) else JUndefined
  | JStr s => if String.eqb k "length" then JNum (num_of_nat (String.length s)) else JUndefined
  | _ => JUndefined
  end.

(** [v?.k] *)
Definition opt_field (v : JsVal) (k : string) : JsVal :=
  if nullish v then JUndefined else field v k.

(** [v[i]]: an element of an array, a character of a string, the property
    named by the digits of [i] of an object. *)
Definition index (v : JsVal) (i : nat) : JsVal :=
  match v with
  | JArr l => nth i l JUndefined
  | JStr s => match String.get i s with
              | Some c => JStr (String c EmptyString)
              | None => JUndefined
              end
  | JObj fs => assoc (NilZero.string_of_uint (Nat.to_uint i)) fs
  | _ => JUndefined
  end.

(** ** Library functions outside the server's text *)

Class Builtins : Type := {
  (** ToNumber on a string (StringToNumber). *)
  StringToNumber : string -> float;
  (** ToString on a number (Number::toString). *)
  NumberToString : float -> string;
  (** [parseFloat] and [parseInt] on the string form of their argument. *)
  parseFloat_string : string -> float;
  parseInt_string : string -> float;
  (** [Date.parse], the time value of a date string (NaN when invalid). *)
  Date_parse : string -> float;
  (** TimeClip, applied by the [Date] constructor to a numeric argument. *)
  TimeClip : float -> float;
  (** [toISOString] of a valid time value. *)
  Date_toISOString : float -> string;
  (** [d.setDate(d.getDate() - n)]: the time value [n] calendar days earlier
      in the local time zone of the process. *)
  Date_minus_days : float -> nat -> float;
  (** [new URL(s).protocol], [None] when the constructor throws. *)
  URL_protocol : string -> option string;
  (** The engine's message for a property read on [undefined] or [null]. *)
  TypeError_message : string -> string;
  (** The engine's message for an object that has no primitive value. *)
  ToPrimitive_message : string
}.

Section Operators.
Context {B : Builtins}.

Definition join_with (sep : string) (parts : list string) : string :=
  match parts with
  | [] => EmptyString
  | p :: rest => fold_left (fun acc q => acc ++ sep ++ q) rest p
  end.

(** The conversions of a value to a primitive, a string or a number can
    fail: they return [None] where JavaScript throws the TypeError
    [conversion_error].  The values at hand are those of parsed JSON, whose
    properties are never functions.  For such an object, [valueOf] is either
    an own property (not callable, skipped) or the inherited one (which
    returns the object, not a primitive), so the conversion rests on
    [toString]: the inherited one gives [[object Object]], an own one is not
    callable and the conversion throws. *)
Definition conversion_error : JsVal :=
  JObj [("name", JStr "TypeError"); ("message", JStr ToPrimitive_message)].

(** [k] is an own property of the object. *)
Definition has_own (k : string) (fs : list (string * JsVal)) : bool :=
  existsb (fun f => String.eqb k (fst f)) fs.

(** ToString.  An array prints as its elements joined by commas ([null]
    and [undefined] elements as the empty string, the others by ToString,
    from left to right). *)
Fixpoint to_string (v : JsVal) : option string :=
  match v with
  | JUndefined => Some "undefined"
  | JNull => Some "null"
  | JBool true => Some "true"
  | JBool false => Some "false"
  | JNum n => Some (NumberToString n)
  | JStr s => Some s
  | JArr l =>
      option_map (join_with ",")
        ((fix elements (l : list JsVal) : option (list string) :=
            match l with
            | [] => Some []
            | x :: rest =>
                match (if nullish x then Some EmptyString else to_string x) with
                | Some sx => option_map (cons sx) (elements rest)
                | None => None
                end
            end) l)
  | JObj fs => if has_own "toString" fs then None else Some "[object Object]"
  end.

(** ToPrimitive: a primitive is left as it is; for an array or an object
    both hints end in [toString]. *)
Definition to_primitive (v : JsVal) : option JsVal :=
  match v with
  | JArr _ | JObj _ => option_map JStr (to_string v)
  | _ => Some v
  end.

(** [c] then [f]: the first failure is the failure of the whole. *)
Definition and_then {A C : Type} (c : option A) (f : A -> option C) : option C :=
  match c with
  | Some a => f a
  | None => None
  end.

(** ToNumber of a primitive. *)
Definition number_of_primitive (p : JsVal) : float :=
  match p with
  | JUndefined => PrimFloat.nan
  | JNull => PrimFloat.zero
  | JBool true => PrimFloat.one
  | JBool false => PrimFloat.zero
  | JNum n => n
  | JStr s => StringToNumber s
  | _ => PrimFloat.nan
  end.

(** ToNumber *)
Definition to_number (v : JsVal) : option float :=
  option_map number_of_primitive (to_primitive v).

(** [a + b]: both operands are made primitive, the left one first; string
    concatenation as soon as one of them is a string, numeric addition
    otherwise. *)
Definition js_add (a b : JsVal) : option JsVal :=
  and_then (to_primitive a) (fun pa =>
  and_then (to_primitive b) (fun pb =>
    match pa, pb with
    | JStr x, _ => option_map (fun y => JStr (x ++ y)) (to_string pb)
    | _, JStr y => option_map (fun x => JStr (x ++ y)) (to_string pa)
    | _, _ => Some (JNum (PrimFloat.add (number_of_primitive pa) (number_of_primitive pb)))
    end)).

Definition js_sub (a b : JsVal) : option JsVal :=
  and_then (to_number a) (fun x =>
  and_then (to_number b) (fun y => Some (JNum (PrimFloat.sub x y)))).

Definition js_mul (a b : JsVal) : option JsVal :=
  and_then (to_number a) (fun x =>
  and_then (to_number b) (fun y => Some (JNum (PrimFloat.mul x y)))).

(** The comparison of two primitives: two strings compare by code units,
    anything else numerically (a comparison with NaN is false). *)
Definition less_than (pa pb : JsVal) : bool :=
  match pa, pb with
  | JStr x, JStr y => String.ltb x y
  | _, _ => PrimFloat.ltb (number_of_primitive pa) (number_of_primitive pb)
  end.

(** [a < b] and [a > b]: in both the left operand is made primitive
    first. *)
Definition js_lt (a b : JsVal) : option bool :=
  and_then (to_primitive a) (fun pa =>
  and_then (to_primitive b) (fun pb => Some (less_than pa pb))).

Definition js_gt (a b : JsVal) : option bool :=
  and_then (to_primitive a) (fun pa =>
  and_then (to_primitive b) (fun pb => Some (less_than pb pa))).

(** [parseFloat(v)] and [parseInt(v)] *)
Definition parseFloat (v : JsVal) : option JsVal :=
  option_map (fun s => JNum (parseFloat_string s)) (to_string v).

Definition parseInt (v : JsVal) : option JsVal :=
  option_map (fun s => JNum (parseInt_string s)) (to_string v).

(** The time value of [new Date(v)]: the argument is made primitive; a
    string is parsed, any other value is converted to a number and
    clipped. *)
Definition Date_of (v : JsVal) : option float :=
  option_map (fun p => match p with
                       | JStr s => Date_parse s
                       | _ => TimeClip (number_of_primitive p)
                       end)
             (to_primitive v).

(** Template literals [`${a}...`]: the parts are converted from left to
    right. *)
Definition template (parts : list JsVal) : option JsVal :=
  option_map JStr
    (fold_left (fun acc p => and_then acc (fun a =>
                             option_map (fun t => a ++ t) (to_string p)))
               parts (Some EmptyString)).

End Operators.

(** ** Requests sent to the hosted platform *)

(** The administrative client [supabase], or the client built with the
    caller's token in its [Authorization] header. *)
Inductive Client : Type :=
| Admin
| WithAuth (token : JsVal).

(** One link of a query chain [supabase.from(t).select(..).eq(..)...]. *)
Inductive Step : Type :=
| select (columns : option string)
| insert (row : JsVal)
| update (fields : JsVal)
| upsert (row : JsVal) (options : JsVal)
| delete
| eq (column : string) (value : JsVal)
| order (column : string) (ascending : bool)
| single.

Inductive Request : Type :=
| auth_getUser (token : JsVal)
| auth_signUp (credentials : JsVal)
| auth_signInWithPassword (credentials : JsVal)
| auth_signInWithOtp (credentials : JsVal)
| auth_signInWithOAuth (credentials : JsVal)
| auth_signOut
| auth_updateUser (attributes : JsVal)
| from (client : Client) (table : string) (chain : list Step).

Definition is_write_step (s : Step) : bool :=
  match s with
  | insert _ | update _ | upsert _ _ | delete => true
  | _ => false
  end.

(** A request that asks the record store to change a table. *)
Definition is_store_write (rq : Request) : bool :=
  match rq with
  | from _ _ chain => existsb is_write_step chain
  | _ => false
  end.

(** ** Handler programs *)

(** What an awaited promise settles to. *)
Inductive Settled : Type :=
| Resolved (v : JsVal)
| Rejected (reason : JsVal).

Inductive Prog (A : Type) : Type :=
| Ret (a : A)
| Throw (e : JsVal)
| Call (rq : Request) (k : Settled -> Prog A)
| Now (k : float -> Prog A).

Arguments Throw {A} e.
Arguments Call {A} rq k.
Arguments Now {A} k.

Fixpoint bind {A B : Type} (p : Prog A) (f : A -> Prog B) : Prog B :=
  match p with
  | Ret a => f a
  | Throw e => Throw e
  | Call rq k => Call rq (fun o => bind (k o) f)
  | Now k => Now (fun t => bind (k t) f)
  end.

(** [try { p } catch (err) { h err }] *)
Fixpoint try_catch {A : Type} (p : Prog A) (h : JsVal -> Prog A) : Prog A :=
  match p with
  | Ret a => Ret a
  | Throw e => h e
  | Call rq k => Call rq (fun o => try_catch (k o) h)
  | Now k => Now (fun t => try_catch (k t) h)
  end.

Declare Scope prog_scope.
Delimit Scope prog_scope with prog.
Notation "x <- p ;; q" := (bind p (fun x => q))
  (at level 61, p at next level, right associativity) : prog_scope.
Notation "'If' c 'Return' r ;; q" := (if c then Ret r else q)
  (at level 61, c at next level, r at next level, right associativity) : prog_scope.
Notation "k ':-' v" := (pair k v) (at level 60, no associativity, only parsing).
Local Open Scope prog_scope.

(** [await] of a client call: a rejected promise throws at the [await]. *)
Definition await (rq : Request) : Prog JsVal :=
  Call rq (fun o => match o with
                    | Resolved v => Ret v
                    | Rejected reason => Throw reason
                    end).

(** [new Date().getTime()] *)
Definition now : Prog float := Now (fun t => Ret t).

(** ** HTTP requests and responses *)

Record HttpRequest : Type := {
  (** [req.headers.authorization], absent when the header was not sent. *)
  authorization : option string;
  (** The properties of [req.body].  The JSON and urlencoded body parsers
      leave an object there (the empty object when no body was sent); an
      array body has none of the named properties the handlers read. *)
  body_fields : list (string * JsVal);
  (** [req.params.id] *)
  params_id : string
}.

Definition body (req : HttpRequest) : JsVal := JObj (body_fields req).

Record Response : Type := {
  status : Z;
  json : JsVal
}.

(** [res.status(code).json(b)] and [res.json(b)] *)
Definition respond (code : Z) (b : JsVal) : Response := {| status := code; json := b |}.
Definition respond_ok (b : JsVal) : Response := respond 200 b.

(** [s.split(' ')] *)
Fixpoint split_on (sep : ascii) (s : string) : list string :=
  match s with
  | EmptyString => [EmptyString]
  | String c rest =>
      if Ascii.eqb c sep then EmptyString :: split_on sep rest
      else match split_on sep rest with
           | seg :: segs => String c seg :: segs
           | [] => [String c EmptyString]
           end
  end.

(** [req.headers.authorization?.split(' ')[1]] *)
Definition bearer (req : HttpRequest) : JsVal :=
  match authorization req with
  | None => JUndefined
  | Some h =>
      match nth_error (split_on " "%char h) 1 with
      | Some t => JStr t
      | None => JUndefined
      end
  end.

(** ** The handlers of [server.js] *)

Section Handlers.
Context {B : Builtins}.

(** [process.env.FRONTEND_URL], [undefined] when the variable is not set. *)
Variable FRONTEND_URL : JsVal.

(** An operator applied by a handler: where the conversion of an operand
    fails, the TypeError is thrown at that point. *)
Definition lift {A : Type} (c : option A) : Prog A :=
  match c with
  | Some a => Ret a
  | None => Throw conversion_error
  end.

Definition type_error (property : string) : JsVal :=
  JObj ["name" :- JStr "TypeError"; "message" :- JStr (TypeError_message property)].

(** [v.k], which throws a TypeError when [v] is [undefined] or [null]. *)
Definition member (v : JsVal) (k : string) : Prog JsVal :=
  if nullish v then Throw (type_error k) else Ret (field v k).

(** [data[0]] *)
Definition first_of (data : JsVal) : Prog JsVal :=
  if nullish data then Throw (type_error "0") else Ret (index data 0).

(** The [catch (err)] clause shared by the handlers:
    [res.status(500).json({ error: label, details: err.message })]. *)
Definition internal_error (label : string) (err : JsVal) : Prog Response :=
  message <- member err "message";;
  Ret (respond 500 (JObj ["error" :- JStr label; "details" :- message])).

(** The two bodies sent when the token does not resolve to a user. *)
Definition invalid_or_expired (authError : JsVal) : JsVal :=
  JObj ["error" :- JStr "Invalid or expired token";
        "details" :- opt_field authError "message"].

Definition invalid_token (authError : JsVal) : JsVal :=
  JObj ["error" :- JStr "Invalid token"].

(** The guard every protected handler starts with:
[[
    const token = req.headers.authorization?.split(' ')[1]
    if (!token) return res.status(401).json({ error: 'No token provided' })
    const { data: { user }, error: authError } = await supabase.auth.getUser(token)
    if (authError || !user) return res.status(401).json(...)
]]
    [k] is the rest of the handler. *)
Definition guard (req : HttpRequest) (invalid : JsVal -> JsVal)
    (k : JsVal -> JsVal -> Prog Response) : Prog Response :=
  let token := bearer req in
  If negb (truthy token) Return respond 401 (JObj ["error" :- JStr "No token provided"]);;
  reply <- await (auth_getUser token);;
  data <- member reply "data";;
  user <- member data "user";;
  authError <- member reply "error";;
  If truthy authError || negb (truthy user) Return respond 401 (invalid authError);;
  k token user.

(** [{ id, email, name: user.user_metadata?.full_name || user.email }] *)
Definition display_name (user : JsVal) : JsVal :=
  js_or (opt_field (field user "user_metadata") "full_name") (field user "email").

(** *** Products *)

(** [app.get('/api/posts')] *)
Definition get_api_posts (req : HttpRequest) : Prog Response :=
  try_catch
    (reply <- await (from Admin "products" [select (Some "*"); order "created_at" false]);;
     data <- member reply "data";;
     error <- member reply "error";;
     If truthy error Return
       respond 400 (JObj ["error" :- JStr "Failed to fetch products";
                          "details" :- field error "message"]);;
     Ret (respond_ok data))
    (internal_error "Internal error").

(** The record [newProduct] built by [app.post('/api/posts')]; the one
    step of it that can throw is [parseFloat(price)]. *)
Definition newProduct (user : JsVal) (b : JsVal) : option JsVal :=
  option_map
    (fun price =>
       JObj ["seller_id" :- field user "id";
             "title" :- field b "title";
             "description" :- field b "description";
             "price" :- price;
             "image_url" :- js_or (field b "image_url") JNull;
             "category" :- js_or (field b "category") JNull;
             "stock_quantity" :- js_or (field b "stock_quantity") JZero;
             "is_active" :- (if negb (is_undefined (field b "is_active"))
                             then field b "is_active" else JBool true)])
    (parseFloat (field b "price")).

(** [app.post('/api/posts')].  The guard and the construction of
    [newProduct] are outside the [try] here. *)
Definition post_api_posts (req : HttpRequest) : Prog Response :=
  guard req invalid_or_expired (fun token user =>
    let b := body req in
    If negb (truthy (field b "title")) || negb (truthy (field b "description"))
       || is_undefined (field b "price")
    Return respond 400 (JObj ["error" :- JStr "Missing required fields: title, description, price"]);;
    let supabaseWithAuth := WithAuth token in
    record <- lift (newProduct user b);;
    try_catch
      (reply <- await (from supabaseWithAuth "products" [insert record; select None]);;
       data <- member reply "data";;
       error <- member reply "error";;
       If truthy error Return
         respond 400 (JObj ["error" :- JStr "Failed to create product";
                            "details" :- field error "message"]);;
       If negb (truthy data) || strict_eq (field data "length") JZero Return
         respond 400 (JObj ["error" :- JStr "Product creation failed - no data returned"]);;
       Ret (respond 201 (JObj ["message" :- JStr "Product created successfully";
                               "product" :- index data 0])))
      (internal_error "Internal server error")).

(** [app.get('/api/my-products')] *)
Definition get_api_my_products (req : HttpRequest) : Prog Response :=
  try_catch
    (guard req invalid_or_expired (fun token user =>
       reply <- await (from Admin "products"
                         [select (Some "*"); eq "seller_id" (field user "id");
                          order "created_at" false]);;
       data <- member reply "data";;
       error <- member reply "error";;
       If truthy error Return
         respond 400 (JObj ["error" :- JStr "Failed to fetch your products";
                            "details" :- field error "message"]);;
       Ret (respond_ok
              (JObj ["products" :- js_or data (JArr []);
                     "count" :- js_or (opt_field data "length") JZero;
                     "seller" :- JObj ["id" :- field user "id";
                                       "email" :- field user "email";
                                       "name" :- display_name user]]))))
    (internal_error "Internal error").

(** The partial update of [app.put('/api/my-products/:id')]: [updated_at],
    then each field of the body that is not [undefined], in the order of the
    source; [parseFloat(price)] and [parseInt(stock_quantity)] can throw. *)
Definition present (b : JsVal) (k : string) : list (string * JsVal) :=
  if negb (is_undefined (field b k)) then [k :- field b k] else [].

Definition parsed (b : JsVal) (k : string) (parse : JsVal -> option JsVal) :
    option (list (string * JsVal)) :=
  if negb (is_undefined (field b k))
  then option_map (fun v => [k :- v]) (parse (field b k))
  else Some [].

Definition product_updates (b : JsVal) (updated_at : JsVal) : option JsVal :=
  and_then (parsed b "price" parseFloat) (fun price =>
  and_then (parsed b "stock_quantity" parseInt) (fun stock_quantity =>
    Some (JObj (["updated_at" :- updated_at]
                ++ present b "title"
                ++ present b "description"
                ++ price
                ++ present b "image_url"
                ++ present b "category"
                ++ stock_quantity
                ++ present b "is_active")%list))).

(** [app.put('/api/my-products/:id')] *)
Definition put_api_my_products (req : HttpRequest) : Prog Response :=
  try_catch
    (guard req invalid_or_expired (fun token user =>
       let productId := JStr (params_id req) in
       let b := body req in
       reply <- await (from Admin "products"
                         [select (Some "seller_id"); eq "id" productId; single]);;
       existingProduct <- member reply "data";;
       checkError <- member reply "error";;
       If truthy checkError || negb (truthy existingProduct) Return
         respond 404 (JObj ["error" :- JStr "Product not found";
                            "details" :- opt_field checkError "message"]);;
       If negb (strict_eq (field existingProduct "seller_id") (field user "id")) Return
         respond 403 (JObj ["error" :- JStr "You can only edit your own products"]);;
       t <- now;;
       updates <- lift (product_updates b (JStr (Date_toISOString t)));;
       reply <- await (from Admin "products"
                         [update updates; eq "id" productId;
                          eq "seller_id" (field user "id"); select None]);;
       data <- member reply "data";;
       error <- member reply "error";;
       If truthy error Return
         respond 400 (JObj ["error" :- JStr "Failed to update product";
                            "details" :- field error "message"]);;
       If negb (truthy data) || strict_eq (field data "length") JZero Return
         respond 404 (JObj ["error" :- JStr "Product not found or update failed"]);;
       Ret (respond_ok (JObj ["message" :- JStr "Product updated successfully";
                              "product" :- index data 0]))))
    (internal_error "Internal server error").

(** [app.delete('/api/my-products/:id')] *)
Definition delete_api_my_products (req : HttpRequest) : Prog Response :=
  try_catch
    (guard req invalid_or_expired (fun token user =>
       let productId := JStr (params_id req) in
       reply <- await (from Admin "products"
                         [select (Some "seller_id, title"); eq "id" productId; single]);;
       existingProduct <- member reply "data";;
       checkError <- member reply "error";;
       If truthy checkError || negb (truthy existingProduct) Return
         respond 404 (JObj ["error" :- JStr "Product not found";
                            "details" :- opt_field checkError "message"]);;
       If negb (strict_eq (field existingProduct "seller_id") (field user "id")) Return
         respond 403 (JObj ["error" :- JStr "You can only delete your own products"]);;
       reply <- await (from Admin "cart_items"
                         [select (Some "id"); eq "product_id" productId]);;
       cartItems <- member reply "data";;
       cartError <- member reply "error";;
       If truthy cartError Return
         respond 400 (JObj ["error" :- JStr "Failed to check cart dependencies";
                            "details" :- field cartError "message"]);;
       inCarts <- (if truthy cartItems
                   then lift (js_gt (field cartItems "length") JZero)
                   else Ret false);;
       If inCarts Return
         respond 400 (JObj ["error" :- JStr "Cannot delete product that is currently in customer carts";
                            "suggestion" :- JStr "Consider marking it as inactive instead"]);;
       reply <- await (from Admin "products"
                         [delete; eq "id" productId; eq "seller_id" (field user "id")]);;
       error <- member reply "error";;
       If truthy error Return
         respond 400 (JObj ["error" :- JStr "Failed to delete product";
                            "details" :- field error "message"]);;
       message <- lift (template [JStr "Product "; JStr dquote;
                                  field existingProduct "title";
                                  JStr dquote; JStr " deleted successfully"]);;
       Ret (respond_ok (JObj ["message" :- message]))))
    (internal_error "Internal server error").

(** [array.filter(f)] and [array.reduce(f, init)], for callbacks that may
    throw, and the TypeError of calling them on something else. *)
Fixpoint filter_p (f : JsVal -> Prog bool) (l : list JsVal) : Prog (list JsVal) :=
  match l with
  | [] => Ret []
  | p :: rest =>
      keep <- f p;;
      kept <- filter_p f rest;;
      Ret (if keep then p :: kept else kept)
  end.

Fixpoint reduce_p (f : JsVal -> JsVal -> Prog JsVal) (l : list JsVal) (acc : JsVal) : Prog JsVal :=
  match l with
  | [] => Ret acc
  | p :: rest => acc' <- f acc p;; reduce_p f rest acc'
  end.

Definition as_array (v : JsVal) (method : string) : Prog (list JsVal) :=
  match v with
  | JArr l => Ret l
  | _ => Throw (type_error method)
  end.

Definition count (l : list JsVal) : JsVal := JNum (num_of_nat (List.length l)).

(** The [statistics] object of [app.get('/api/seller-stats')], computed from
    [products], the [data] of the store's reply. *)
Definition statistics (products : JsVal) : Prog JsVal :=
  totalProducts <- member products "length";;
  rows <- as_array products "filter";;
  active <- filter_p (fun p => a <- member p "is_active";; Ret (truthy a)) rows;;
  let activeProducts := count active in
  inactiveProducts <- lift (js_sub totalProducts activeProducts);;
  outOfStock <- filter_p (fun p => s <- member p "stock_quantity";;
                                   Ret (strict_eq s JZero)) rows;;
  let outOfStockProducts := count outOfStock in
  totalValue <- reduce_p (fun sum p => price <- member p "price";;
                                       stock <- member p "stock_quantity";;
                                       value <- lift (js_mul price stock);;
                                       lift (js_add sum value))
                         rows JZero;;
  t <- now;;
  let weekAgo := Date_minus_days t 7 in
  recent <- filter_p (fun p => created <- member p "created_at";;
                               date <- lift (Date_of created);;
                               Ret (PrimFloat.ltb weekAgo date)) rows;;
  let recentProducts := count recent in
  Ret (JObj ["totalProducts" :- totalProducts;
             "activeProducts" :- activeProducts;
             "inactiveProducts" :- inactiveProducts;
             "outOfStockProducts" :- outOfStockProducts;
             "recentProducts" :- recentProducts;
             "totalInventoryValue" :- totalValue]).

(** [app.get('/api/seller-stats')] *)
Definition get_api_seller_stats (req : HttpRequest) : Prog Response :=
  try_catch
    (guard req invalid_or_expired (fun token user =>
       reply <- await (from Admin "products"
                         [select (Some "id, is_active, stock_quantity, price, created_at");
                          eq "seller_id" (field user "id")]);;
       products <- member reply "data";;
       productsError <- member reply "error";;
       If truthy productsError Return
         respond 400 (JObj ["error" :- JStr "Failed to fetch seller statistics";
                            "details" :- field productsError "message"]);;
       stats <- statistics products;;
       message <- lift (template [JStr "You have "; field stats "totalProducts";
                                  JStr " products, "; field stats "activeProducts";
                                  JStr " active"]);;
       Ret (respond_ok
              (JObj ["seller" :- JObj ["id" :- field user "id";
                                       "email" :- field user "email";
                                       "name" :- display_name user];
                     "statistics" :- stats;
                     "summary" :- JObj ["message" :- message]]))))
    (internal_error "Internal error").

(** *** Cart *)

(** The column lists of the cart listing and of the quantity update: the
    template literals of the source, with their line breaks and
    indentation. *)
Definition cart_columns : string :=
  "
        *,
        products (
          id,
          title,
          description,
          price,
          image_url,
          category,
          stock_quantity,
          is_active
        )
      ".

Definition cart_quantity_columns : string :=
  "
        *,
        products (
          stock_quantity,
          title
        )
      ".

(** [app.get('/api/cart')] *)
Definition get_api_cart (req : HttpRequest) : Prog Response :=
  try_catch
    (guard req invalid_or_expired (fun token user =>
       reply <- await (from Admin "cart_items"
                         [select (Some cart_columns); eq "user_id" (field user "id");
                          order "added_at" false]);;
       data <- member reply "data";;
       error <- member reply "error";;
       If truthy error Return
         respond 400 (JObj ["error" :- JStr "Failed to fetch cart items";
                            "details" :- field error "message"]);;
       Ret (respond_ok (js_or data (JArr [])))))
    (internal_error "Internal error").

(** [const { product_id, quantity = 1 } = req.body] *)
Definition requested_quantity (b : JsVal) : JsVal :=
  if is_undefined (field b "quantity") then JOne else field b "quantity".

(** The tail shared by both branches of [app.post('/api/cart')]. *)
Definition added_to_cart (product result : JsVal) : Prog Response :=
  message <- lift (template [JStr "Added "; JStr dquote; field product "title";
                             JStr dquote; JStr " to cart"]);;
  Ret (respond 201 (JObj ["message" :- message; "cartItem" :- result])).

(** [app.post('/api/cart')] *)
Definition post_api_cart (req : HttpRequest) : Prog Response :=
  try_catch
    (guard req invalid_or_expired (fun token user =>
       let product_id := field (body req) "product_id" in
       let quantity := requested_quantity (body req) in
       If negb (truthy product_id) Return
         respond 400 (JObj ["error" :- JStr "Product ID is required"]);;
       reply <- await (from Admin "products"
                         [select (Some "id, title, stock_quantity, is_active");
                          eq "id" product_id; single]);;
       product <- member reply "data";;
       productError <- member reply "error";;
       If truthy productError || negb (truthy product) Return
         respond 404 (JObj ["error" :- JStr "Product not found";
                            "details" :- opt_field productError "message"]);;
       If negb (truthy (field product "is_active")) Return
         respond 400 (JObj ["error" :- JStr "Product is not active"]);;
       short <- lift (js_lt (field product "stock_quantity") quantity);;
       If short Return
         respond 400 (JObj ["error" :- JStr "Insufficient stock";
                            "available" :- field product "stock_quantity";
                            "requested" :- quantity]);;
       reply <- await (from Admin "cart_items"
                         [select (Some "*"); eq "user_id" (field user "id");
                          eq "product_id" product_id; single]);;
       existingItem <- member reply "data";;
       existingError <- member reply "error";;
       if truthy existingItem && negb (truthy existingError) then
         newQuantity <- lift (js_add (field existingItem "quantity") quantity);;
         over <- lift (js_gt newQuantity (field product "stock_quantity"));;
         If over Return
           respond 400 (JObj ["error" :- JStr "Cannot add more items than available stock";
                              "currentInCart" :- field existingItem "quantity";
                              "available" :- field product "stock_quantity";
                              "requested" :- quantity]);;
         t <- now;;
         reply <- await (from Admin "cart_items"
                           [update (JObj ["quantity" :- newQuantity;
                                          "added_at" :- JStr (Date_toISOString t)]);
                            eq "id" (field existingItem "id"); select None]);;
         data <- member reply "data";;
         error <- member reply "error";;
         If truthy error Return
           respond 400 (JObj ["error" :- JStr "Failed to update cart item";
                              "details" :- field error "message"]);;
         result <- first_of data;;
         added_to_cart product result
       else
         reply <- await (from Admin "cart_items"
                           [insert (JObj ["user_id" :- field user "id";
                                          "product_id" :- product_id;
                                          "quantity" :- quantity]);
                            select None]);;
         data <- member reply "data";;
         error <- member reply "error";;
         If truthy error Return
           respond 400 (JObj ["error" :- JStr "Failed to add item to cart";
                              "details" :- field error "message"]);;
         result <- first_of data;;
         added_to_cart product result))
    (internal_error "Internal server error").

(** [app.put('/api/cart/:id')] *)
Definition put_api_cart (req : HttpRequest) : Prog Response :=
  try_catch
    (guard req invalid_or_expired (fun token user =>
       let cartItemId := JStr (params_id req) in
       let quantity := field (body req) "quantity" in
       tooSmall <- (if negb (truthy quantity) then Ret true
                    else lift (js_lt quantity JOne));;
       If tooSmall Return
         respond 400 (JObj ["error" :- JStr "Quantity must be at least 1"]);;
       reply <- await (from Admin "cart_items"
                         [select (Some cart_quantity_columns);
                          eq "id" cartItemId; eq "user_id" (field user "id"); single]);;
       cartItem <- member reply "data";;
       cartError <- member reply "error";;
       If truthy cartError || negb (truthy cartItem) Return
         respond 404 (JObj ["error" :- JStr "Cart item not found";
                            "details" :- opt_field cartError "message"]);;
       stock <- member (field cartItem "products") "stock_quantity";;
       over <- lift (js_gt quantity stock);;
       If over Return
         respond 400 (JObj ["error" :- JStr "Quantity exceeds available stock";
                            "available" :- stock;
                            "requested" :- quantity]);;
       reply <- await (from Admin "cart_items"
                         [update (JObj ["quantity" :- quantity]);
                          eq "id" cartItemId; select None]);;
       data <- member reply "data";;
       error <- member reply "error";;
       If truthy error Return
         respond 400 (JObj ["error" :- JStr "Failed to update cart item";
                            "details" :- field error "message"]);;
       message <- lift (template [JStr "Updated quantity for "; JStr dquote;
                                  field (field cartItem "products") "title";
                                  JStr dquote]);;
       result <- first_of data;;
       Ret (respond_ok (JObj ["message" :- message; "cartItem" :- result]))))
    (internal_error "Internal server error").

(** [app.delete('/api/cart/:id')] *)
Definition delete_api_cart_item (req : HttpRequest) : Prog Response :=
  try_catch
    (guard req invalid_or_expired (fun token user =>
       let cartItemId := JStr (params_id req) in
       reply <- await (from Admin "cart_items"
                         [select (Some "*, products(title)");
                          eq "id" cartItemId; eq "user_id" (field user "id"); single]);;
       cartItem <- member reply "data";;
       cartError <- member reply "error";;
       If truthy cartError || negb (truthy cartItem) Return
         respond 404 (JObj ["error" :- JStr "Cart item not found";
                            "details" :- opt_field cartError "message"]);;
       reply <- await (from Admin "cart_items" [delete; eq "id" cartItemId]);;
       error <- member reply "error";;
       If truthy error Return
         respond 400 (JObj ["error" :- JStr "Failed to remove cart item";
                            "details" :- field error "message"]);;
       title <- member (field cartItem "products") "title";;
       message <- lift (template [JStr "Removed "; JStr dquote; title;
                                  JStr dquote; JStr " from cart"]);;
       Ret (respond_ok (JObj ["message" :- message]))))
    (internal_error "Internal server error").

(** [app.delete('/api/cart')] *)
Definition delete_api_cart (req : HttpRequest) : Prog Response :=
  try_catch
    (guard req invalid_or_expired (fun token user =>
       reply <- await (from Admin "cart_items" [delete; eq "user_id" (field user "id")]);;
       error <- member reply "error";;
       If truthy error Return
         respond 400 (JObj ["error" :- JStr "Failed to clear cart";
                            "details" :- field error "message"]);;
       Ret (respond_ok (JObj ["message" :- JStr "Cart cleared successfully"]))))
    (internal_error "Internal server error").

(** *** Authentication and profile *)

(** [app.post('/api/auth/register')] *)
Definition post_api_auth_register (req : HttpRequest) : Prog Response :=
  try_catch
    (let email := field (body req) "email" in
     let password := field (body req) "password" in
     If negb (truthy email) || negb (truthy password) Return
       respond 400 (JObj ["error" :- JStr "Email and password are required"]);;
     short <- lift (js_lt (field password "length") (JNum 6));;
     If short Return
       respond 400 (JObj ["error" :- JStr "Password must be at least 6 characters long"]);;
     reply <- await (auth_signUp
                       (JObj ["email" :- email;
                              "password" :- password;
                              "options" :- JObj ["data" :-
                                 JObj ["full_name" :- JStr EmptyString;
                                       "avatar_url" :- JStr EmptyString]]]));;
     data <- member reply "data";;
     error <- member reply "error";;
     If truthy error Return
       respond 400 (JObj ["error" :- JStr "Registration failed";
                          "details" :- field error "message"]);;
     Ret (respond 201 (JObj ["message" :- JStr "Registration successful"])))
    (internal_error "Internal server error").

(** The normalized user summary
    [{ id, email, name: ...full_name || email, avatar_url }] of an identity
    read with optional chaining. *)
Definition user_summary (user : JsVal) : JsVal :=
  JObj ["id" :- opt_field user "id";
        "email" :- opt_field user "email";
        "name" :- js_or (opt_field (opt_field user "user_metadata") "full_name")
                        (opt_field user "email");
        "avatar_url" :- opt_field (opt_field user "user_metadata") "avatar_url"].

(** [app.post('/api/auth/login')] *)
Definition post_api_auth_login (req : HttpRequest) : Prog Response :=
  try_catch
    (let email := field (body req) "email" in
     let password := field (body req) "password" in
     If negb (truthy email) || negb (truthy password) Return
       respond 400 (JObj ["error" :- JStr "Email and password are required"]);;
     reply <- await (auth_signInWithPassword
                       (JObj ["email" :- email; "password" :- password]));;
     data <- member reply "data";;
     error <- member reply "error";;
     If truthy error Return
       respond 401 (JObj ["error" :- JStr "Login failed";
                          "details" :- field error "message"]);;
     user <- member data "user";;
     Ret (respond_ok (JObj ["message" :- JStr "Login successful";
                            "user" :- user_summary user;
                            "session" :- field data "session"])))
    (internal_error "Internal server error").

(** [app.post('/api/auth/magic-link')] *)
Definition post_api_auth_magic_link (req : HttpRequest) : Prog Response :=
  try_catch
    (let email := field (body req) "email" in
     If negb (truthy email) Return
       respond 400 (JObj ["error" :- JStr "Email is required"]);;
     target <- lift (template [FRONTEND_URL; JStr "/auth/callback"]);;
     reply <- await (auth_signInWithOtp
                       (JObj ["email" :- email;
                              "options" :- JObj ["shouldCreateUser" :- JBool true;
                                                 "emailRedirectTo" :- target]]));;
     data <- member reply "data";;
     error <- member reply "error";;
     If truthy error Return
       respond 400 (JObj ["error" :- JStr "Failed to send magic link";
                          "details" :- field error "message"]);;
     Ret (respond_ok (JObj ["message" :- JStr "Magic link sent successfully";
                            "email" :- email])))
    (internal_error "Internal server error").

(** [app.post('/api/auth/google')] *)
Definition post_api_auth_google (req : HttpRequest) : Prog Response :=
  try_catch
    (target <- lift (template [js_or FRONTEND_URL (JStr "http://localhost:5173");
                               JStr "/auth/callback"]);;
     reply <- await (auth_signInWithOAuth
                       (JObj ["provider" :- JStr "google";
                              "options" :- JObj ["redirectTo" :- target]]));;
     data <- member reply "data";;
     error <- member reply "error";;
     If truthy error Return
       respond 400 (JObj ["error" :- JStr "Failed to initiate Google login";
                          "details" :- field error "message"]);;
     redirectUrl <- member data "url";;
     Ret (respond_ok (JObj ["message" :- JStr "Google OAuth initiated";
                            "redirectUrl" :- redirectUrl])))
    (internal_error "Internal server error").

(** [app.get('/api/auth/session')] *)
Definition get_api_auth_session (req : HttpRequest) : Prog Response :=
  try_catch
    (guard req invalid_token (fun token user =>
       Ret (respond_ok
              (JObj ["session" :- JObj ["access_token" :- token; "user" :- user];
                     "user" :- JObj ["id" :- field user "id";
                                     "email" :- field user "email";
                                     "name" :- display_name user;
                                     "avatar_url" :-
                                       opt_field (field user "user_metadata") "avatar_url"]]))))
    (internal_error "Internal server error").

(** [app.post('/api/auth/logout')] *)
Definition post_api_auth_logout (req : HttpRequest) : Prog Response :=
  try_catch
    (let token := bearer req in
     let done := respond_ok (JObj ["message" :- JStr "Logout successful"]) in
     if truthy token then
       reply <- await auth_signOut;;
       error <- member reply "error";;
       If truthy error Return
         respond 400 (JObj ["error" :- JStr "Logout failed";
                            "details" :- field error "message"]);;
       Ret done
     else Ret done)
    (internal_error "Internal server error").

(** The profile lookup of [app.get('/api/auth/profile')], with its own
    [try]/[catch]: [profileData] is the profile row when one came back
    without an error, and the empty object otherwise. *)
Definition load_profile (user : JsVal) : Prog JsVal :=
  try_catch
    (reply <- await (from Admin "profiles"
                       [select (Some "username, website, avatar_url, google_id");
                        eq "id" (field user "id"); single]);;
     profile <- member reply "data";;
     profileError <- member reply "error";;
     Ret (if truthy profile && negb (truthy profileError) then profile else JObj []))
    (fun err => Ret (JObj [])).

(** The [user] object of the profile response. *)
Definition profile_view (user profileData : JsVal) : JsVal :=
  let metadata := field user "user_metadata" in
  JObj ["id" :- field user "id";
        "email" :- field user "email";
        "name" :- js_or (js_or (field profileData "username") (opt_field metadata "full_name"))
                        (field user "email");
        "username" :- js_or (field profileData "username") (opt_field metadata "full_name");
        "website" :- js_or (field profileData "website") (JStr EmptyString);
        "avatar_url" :- js_or (field profileData "avatar_url") (opt_field metadata "avatar_url");
        "google_id" :- js_or (field profileData "google_id") (opt_field metadata "provider_id");
        "created_at" :- field user "created_at";
        "last_sign_in_at" :- field user "last_sign_in_at";
        "email_confirmed_at" :- field user "email_confirmed_at"].

(** [app.get('/api/auth/profile')] *)
Definition get_api_auth_profile (req : HttpRequest) : Prog Response :=
  try_catch
    (guard req invalid_token (fun token user =>
       profileData <- load_profile user;;
       Ret (respond_ok (JObj ["user" :- profile_view user profileData]))))
    (internal_error "Internal server error").

(** [isValidUrl]: whatever [new URL(string)] throws, the conversion of
    its argument to a string included, is caught and gives [false]. *)
Definition isValidUrl (v : JsVal) : bool :=
  if negb (truthy v) then true
  else match and_then (to_string v) URL_protocol with
       | Some protocol => String.eqb protocol "http:" || String.eqb protocol "https:"
       | None => false
       end.

(** [app.put('/api/auth/profile')] *)
Definition put_api_auth_profile (req : HttpRequest) : Prog Response :=
  try_catch
    (guard req invalid_token (fun token user =>
       let username := field (body req) "username" in
       let name := field (body req) "name" in
       let website := field (body req) "website" in
       let avatar_url := field (body req) "avatar_url" in
       tooLong <- (if truthy username
                   then lift (js_gt (field username "length") (JNum 50))
                   else Ret false);;
       If tooLong Return
         respond 400 (JObj ["error" :- JStr "Username too long (max 50 characters)"]);;
       If truthy website && negb (isValidUrl website) Return
         respond 400 (JObj ["error" :- JStr "Invalid website URL"]);;
       If truthy avatar_url && negb (isValidUrl avatar_url) Return
         respond 400 (JObj ["error" :- JStr "Invalid avatar URL"]);;
       t <- now;;
       let updates :=
         ["id" :- field user "id";
          "username" :- js_or (js_or username name) (field user "email");
          "website" :- js_or website (JStr EmptyString);
          "avatar_url" :- js_or avatar_url (JStr EmptyString);
          "updated_at" :- JStr (Date_toISOString t)] in
       reply <- await (from Admin "profiles"
                         [upsert (JObj updates)
                                 (JObj ["onConflict" :- JStr "id";
                                        "returning" :- JStr "representation"]);
                          select None]);;
       data <- member reply "data";;
       error <- member reply "error";;
       If truthy error Return
         respond 400 (JObj ["error" :- JStr "Failed to update profile";
                            "details" :- field error "message"]);;
       _ <- try_catch
              (_ <- await (auth_updateUser
                             (JObj ["data" :- JObj ["full_name" :- js_or username name;
                                                    "avatar_url" :- avatar_url]]));;
               Ret tt)
              (fun metaError => Ret tt);;
       Ret (respond_ok
              (JObj ["message" :- JStr "Profile updated successfully";
                     "user" :- JObj ["id" :- field user "id";
                                     "email" :- field user "email";
                                     "name" :- assoc "username" updates;
                                     "username" :- assoc "username" updates;
                                     "website" :- assoc "website" updates;
                                     "avatar_url" :- assoc "avatar_url" updates;
                                     "updated_at" :- assoc "updated_at" updates]]))))
    (internal_error "Internal server error").

(** [app.get('/api/health')] *)
Definition get_api_health (req : HttpRequest) : Prog Response :=
  t <- now;;
  Ret (respond_ok
         (JObj ["status" :- JStr "OK";
                "message" :- JStr "Backend server is running";
                "timestamp" :- JStr (Date_toISOString t);
                "endpoints" :- JObj [
                  "products" :- JObj ["getAll" :- JStr "/api/posts";
                                      "create" :- JStr "POST /api/posts";
                                      "myProducts" :- JStr "/api/my-products";
                                      "updateProduct" :- JStr "PUT /api/my-products/:id";
                                      "deleteProduct" :- JStr "DELETE /api/my-products/:id";
                                      "sellerStats" :- JStr "/api/seller-stats"];
                  "cart" :- JObj ["getCart" :- JStr "/api/cart";
                                  "addToCart" :- JStr "POST /api/cart";
                                  "updateItem" :- JStr "PUT /api/cart/:id";
                                  "removeItem" :- JStr "DELETE /api/cart/:id";
                                  "clearCart" :- JStr "DELETE /api/cart"];
                  "auth" :- JObj ["register" :- JStr "/api/auth/register";
                                  "login" :- JStr "/api/auth/login";
                                  "logout" :- JStr "/api/auth/logout";
                                  "magicLink" :- JStr "/api/auth/magic-link";
                                  "google" :- JStr "/api/auth/google";
                                  "session" :- JStr "/api/auth/session";
                                  "profile" :- JStr "/api/auth/profile"]]])).

End Handlers.

(** ** Running a handler *)

(** The platform a handler talks to: a state, how it answers a request
    ([None]: the promise never settles) and how it tells the time.  Nothing
    is assumed about the answers, so a statement about every [World] covers
    every behaviour of the record store and identity provider, concurrent
    requests of other callers included. *)
Record World : Type := {
  wstate : Type;
  wcall : wstate -> Request -> option Settled * wstate;
  wclock : wstate -> float * wstate
}.

Inductive Outcome (A : Type) : Type :=
| Done (a : A)
| Uncaught (e : JsVal)
| Pending.

Arguments Uncaught {A} e.
Arguments Pending {A}.

(** What a run leaves behind: how the handler ended, its exchanges with the
    platform (oldest first, [None] for a promise that never settled) and the
    state of the platform afterwards. *)
Record Run (W : World) (A : Type) : Type := {
  outcome : Outcome A;
  exchanges : list (Request * option Settled);
  final : wstate W
}.

(** The requests issued during a run. *)
Definition issued {W : World} {A : Type} (r : Run W A) : list Request :=
  List.map fst (exchanges r).

Definition after {W : World} {A : Type} (x : Request * option Settled) (r : Run W A) : Run W A :=
  {| outcome := outcome r; exchanges := x :: exchanges r; final := final r |}.

Fixpoint exec (W : World) {A : Type} (p : Prog A) (s : wstate W) : Run W A :=
  match p with
  | Ret a => {| outcome := Done a; exchanges := []; final := s |}
  | Throw e => {| outcome := Uncaught e; exchanges := []; final := s |}
  | Call rq k =>
      match wcall W s rq with
      | (Some settled, s') => after (rq, Some settled) (exec W (k settled) s')
      | (None, s') => {| outcome := Pending; exchanges := [(rq, None)]; final := s' |}
      end
  | Now k =>
      match wclock W s with
      | (t, s') => exec W (k t) s'
      end
  end.

(** The status of the response a run ended with, if it ended with one. *)
Definition status_of (o : Outcome Response) : option Z :=
  match o with
  | Done response => Some (status response)
  | _ => None
  end.

(** A world that replays a list of answers, whatever is asked, at a fixed
    time; once the list is used up no promise settles. *)
Definition Script : World := {|
  wstate := list Settled * float;
  wcall := fun s _ =>
    match fst s with
    | o :: rest => (Some o, (rest, snd s))
    | [] => (None, s)
    end;
  wclock := fun s => (snd s, s)
|}.

(** The shape of the client's answers the handlers destructure:
    [{ data, error }], and [{ data: { user }, error }] for [getUser]. *)
Definition reply_of (data error : JsVal) : JsVal :=
  JObj ["data" :- data; "error" :- error].

Definition ok (data : JsVal) : Settled := Resolved (reply_of data JNull).

Definition failed (message : string) : Settled :=
  Resolved (reply_of JNull (JObj ["message" :- JStr message])).

Definition ok_user (user : JsVal) : Settled := ok (JObj ["user" :- user]).

(** ** Vocabulary of the statements *)

Section Vocabulary.
Context {B : Builtins}.
Variable W : World.

(** The platform, in state [s], settles [rq] with the value [reply] and
    moves to [s']. *)
Definition answers (s : wstate W) (rq : Request) (reply : JsVal) (s' : wstate W) : Prop :=
  wcall W s rq = (Some (Resolved reply), s').

(** The reply destructures to [{ data, error }]. *)
Definition carries (reply data error : JsVal) : Prop :=
  nullish reply = false /\ field reply "data" = data /\ field reply "error" = error.

(** The record store answers [rq] with [{ data, error }]. *)
Definition store_answers (s : wstate W) (rq : Request) (data error : JsVal)
    (s' : wstate W) : Prop :=
  exists reply, answers s rq reply s' /\ carries reply data error.

(** The caller is authenticated: the request carries a bearer token and the
    identity provider resolves it to [user] without an error. *)
Definition authenticated (s : wstate W) (req : HttpRequest) (user : JsVal)
    (s' : wstate W) : Prop :=
  truthy (bearer req) = true /\
  exists reply,
    answers s (auth_getUser (bearer req)) reply s' /\
    nullish reply = false /\
    nullish (field reply "data") = false /\
    field (field reply "data") "user" = user /\
    truthy user = true /\
    truthy (field reply "error") = false.

End Vocabulary.

(** None of the requests asks the record store for a change. *)
Definition read_only (rqs : list Request) : Prop :=
  existsb is_store_write rqs = false.

(** The two owner-only routes on [/api/my-products/:id]. *)
Inductive OwnerRoute : Type := UpdateMine | DeleteMine.

Section OwnerRoutes.
Context {B : Builtins}.

Definition owner_handler (r : OwnerRoute) : HttpRequest -> Prog Response :=
  match r with
  | UpdateMine => put_api_my_products
  | DeleteMine => delete_api_my_products
  end.

(** The ownership lookup each of them starts with. *)
Definition owner_lookup (r : OwnerRoute) (req : HttpRequest) : Request :=
  from Admin "products"
    [select (Some match r with
                  | UpdateMine => "seller_id"
                  | DeleteMine => "seller_id, title"
                  end);
     eq "id" (JStr (params_id req)); single].

Definition owner_refusal (r : OwnerRoute) : JsVal :=
  JObj ["error" :- JStr match r with
                        | UpdateMine => "You can only edit your own products"
                        | DeleteMine => "You can only delete your own products"
                        end].

End OwnerRoutes.

(** ** A concrete instance for examples *)

(** Decimal digits only, which is all the examples need; every statement
    below is proved for an arbitrary [Builtins]. *)
Definition digit_value (c : ascii) : option Z :=
  let n := Z.of_nat (nat_of_ascii c) in
  if ((48 <=? n) && (n <=? 57))%Z then Some (n - 48)%Z else None.

Fixpoint digits_value (s : string) (acc : Z) : option Z :=
  match s with
  | EmptyString => Some acc
  | String c rest =>
      match digit_value c with
      | Some d => digits_value rest (10 * acc + d)%Z
      | None => None
      end
  end.

Definition decimal (s : string) : float :=
  match s with
  | EmptyString => PrimFloat.nan
  | _ => match digits_value s 0 with
         | Some n => PrimFloat.of_uint63 (Uint63.of_Z n)
         | None => PrimFloat.nan
         end
  end.

(** Printing of the small natural numbers, by search. *)
Fixpoint small_nat_of (n : float) (bound : nat) : option nat :=
  match bound with
  | O => if PrimFloat.eqb n PrimFloat.zero then Some O else None
  | S b => if PrimFloat.eqb n (num_of_nat bound) then Some bound else small_nat_of n b
  end.

Definition print_small (n : float) : string :=
  match small_nat_of n 1000 with
  | Some k => NilZero.string_of_uint (Nat.to_uint k)
  | None => "NaN"
  end.

Definition scheme_of (s : string) : option string :=
  if String.prefix "https://" s then Some "https:"
  else if String.prefix "http://" s then Some "http:"
  else None.

Definition one_day : float := 86400000%float.

Definition Sample : Builtins := {|
  StringToNumber := decimal;
  NumberToString := print_small;
  parseFloat_string := decimal;
  parseInt_string := decimal;
  Date_parse := decimal;
  TimeClip := fun t => t;
  Date_toISOString := fun _ => "2024-01-08T00:00:00.000Z";
  Date_minus_days := fun t n => PrimFloat.sub t (PrimFloat.mul (num_of_nat n) one_day);
  URL_protocol := scheme_of;
  TypeError_message := fun k => "Cannot read properties of undefined";
  ToPrimitive_message := "Cannot convert object to primitive value"
|}.

(** ** The requests and refusals of the cart and product routes *)

Section Routes.
Context {B : Builtins}.

(** The requests [app.post('/api/cart')] may issue after the guard. *)
Definition product_lookup (req : HttpRequest) : Request :=
  from Admin "products"
    [select (Some "id, title, stock_quantity, is_active");
     eq "id" (field (body req) "product_id"); single].

Definition existing_lookup (req : HttpRequest) (user : JsVal) : Request :=
  from Admin "cart_items"
    [select (Some "*"); eq "user_id" (field user "id");
     eq "product_id" (field (body req) "product_id"); single].

Definition cart_insert (req : HttpRequest) (user quantity : JsVal) : Request :=
  from Admin "cart_items"
    [insert (JObj ["user_id" :- field user "id";
                   "product_id" :- field (body req) "product_id";
                   "quantity" :- quantity]);
     select None].

(** The body asks for [quantity]: the value of its [quantity] property, and
    1 when it has none. *)
Definition asks_for (req : HttpRequest) (quantity : JsVal) : Prop :=
  (field (body req) "quantity" = JUndefined /\ quantity = JOne) \/
  (is_undefined (field (body req) "quantity") = false /\
   quantity = field (body req) "quantity").

Definition cart_merge (existingItem newQuantity : JsVal) (t : float) : Request :=
  from Admin "cart_items"
    [update (JObj ["quantity" :- newQuantity;
                   "added_at" :- JStr (Date_toISOString t)]);
     eq "id" (field existingItem "id"); select None].

(** The four ways [app.post('/api/cart')] turns an authenticated request
    down before it looks at the cart: the response, the requests issued
    after the guard, and the state of the platform afterwards. *)
Inductive cart_add_refusal (W : World) (req : HttpRequest) (s1 : wstate W) :
    Response -> list Request -> wstate W -> Prop :=
| refuse_missing_id :
    truthy (field (body req) "product_id") = false ->
    cart_add_refusal W req s1
      (respond 400 (JObj ["error" :- JStr "Product ID is required"])) [] s1
| refuse_not_found (product productError : JsVal) (s2 : wstate W) :
    truthy (field (body req) "product_id") = true ->
    store_answers W s1 (product_lookup req) product productError s2 ->
    truthy productError = true \/ truthy product = false ->
    cart_add_refusal W req s1
      (respond 404 (JObj ["error" :- JStr "Product not found";
                          "details" :- opt_field productError "message"]))
      [product_lookup req] s2
| refuse_inactive (product productError : JsVal) (s2 : wstate W) :
    truthy (field (body req) "product_id") = true ->
    store_answers W s1 (product_lookup req) product productError s2 ->
    truthy productError = false ->
    truthy product = true ->
    truthy (field product "is_active") = false ->
    cart_add_refusal W req s1
      (respond 400 (JObj ["error" :- JStr "Product is not active"]))
      [product_lookup req] s2
| refuse_insufficient (product productError : JsVal) (s2 : wstate W) :
    truthy (field (body req) "product_id") = true ->
    store_answers W s1 (product_lookup req) product productError s2 ->
    truthy productError = false ->
    truthy product = true ->
    truthy (field product "is_active") = true ->
    js_lt (field product "stock_quantity") (requested_quantity (body req)) = Some true ->
    cart_add_refusal W req s1
      (respond 400 (JObj ["error" :- JStr "Insufficient stock";
                          "available" :- field product "stock_quantity";
                          "requested" :- requested_quantity (body req)]))
      [product_lookup req] s2.

(** The product named in the body is found, active and in stock for
    [quantity]: the comparison [product.stock_quantity < quantity] is made
    and is false. *)
Definition available (W : World) (s1 : wstate W) (req : HttpRequest)
    (product quantity : JsVal) (s2 : wstate W) : Prop :=
  truthy (field (body req) "product_id") = true /\
  exists productError,
    store_answers W s1 (product_lookup req) product productError s2 /\
    truthy productError = false /\
    truthy product = true /\
    truthy (field product "is_active") = true /\
    js_lt (field product "stock_quantity") quantity = Some false.

(** The requests of [app.delete('/api/my-products/:id')] and
    [app.delete('/api/cart/:id')]. *)
Definition cart_references (req : HttpRequest) : Request :=
  from Admin "cart_items" [select (Some "id"); eq "product_id" (JStr (params_id req))].

Definition product_delete (req : HttpRequest) (user : JsVal) : Request :=
  from Admin "products"
    [delete; eq "id" (JStr (params_id req)); eq "seller_id" (field user "id")].

Definition cart_item_lookup (req : HttpRequest) (user : JsVal) : Request :=
  from Admin "cart_items"
    [select (Some "*, products(title)"); eq "id" (JStr (params_id req));
     eq "user_id" (field user "id"); single].

Definition cart_item_delete (req : HttpRequest) : Request :=
  from Admin "cart_items" [delete; eq "id" (JStr (params_id req))].

(** The [eq] filters of a request, in order. *)
Definition filters (rq : Request) : list (string * JsVal) :=
  match rq with
  | from _ _ chain =>
      flat_map (fun st => match st with
                          | eq column value => [(column, value)]
                          | _ => []
                          end) chain
  | _ => []
  end.

Definition filtered_on (column : string) (rq : Request) : bool :=
  existsb (fun f => String.eqb (fst f) column) (filters rq).

(** How the record store reads a filtered write: it applies to the rows
    that agree with every [eq] filter of the request on the filtered column
    (the store is outside the server; this is the reading the specification
    gives of its filter semantics). *)
Definition targets (rq : Request) (row : JsVal) : bool :=
  forallb (fun f => strict_eq (field row (fst f)) (snd f)) (filters rq).

(** The insert of [app.post('/api/posts')], of the record [record]. *)
Definition product_insert (req : HttpRequest) (record : JsVal) : Request :=
  from (WithAuth (bearer req)) "products" [insert record; select None].

End Routes.

(** ** Product creation and seller statistics, as the specification words them *)

(** "[is_active] is true unless it was explicitly false". *)
Definition true_unless_false (is_active : JsVal) : JsVal :=
  if strict_eq is_active (JBool false) then JBool false else JBool true.

(** A row of [products] as the store returns it for the column list of the
    statistics query: a boolean, two numbers and a timestamp. *)
Record ProductRow : Type := {
  row_id : JsVal;
  row_is_active : bool;
  row_stock_quantity : float;
  row_price : float;
  row_created_at : string
}.

Definition row_json (p : ProductRow) : JsVal :=
  JObj ["id" :- row_id p;
        "is_active" :- JBool (row_is_active p);
        "stock_quantity" :- JNum (row_stock_quantity p);
        "price" :- JNum (row_price p);
        "created_at" :- JStr (row_created_at p)].

(** The number of rows that satisfy [f]. *)
Definition how_many (f : ProductRow -> bool) (rows : list ProductRow) : float :=
  num_of_nat (List.length (List.filter f rows)).

(** The sum over the rows of [price * stock_quantity], taken in the order of
    the list (the order matters for the rounding of binary64 sums). *)
Definition inventory_value (rows : list ProductRow) : float :=
  fold_left (fun sum p => PrimFloat.add sum (PrimFloat.mul (row_price p) (row_stock_quantity p)))
    rows PrimFloat.zero.

Section Expectations.
Context {B : Builtins}.

(** The statistics of the claim, for the rows [rows] read at time [t]. *)
Definition expected_statistics (rows : list ProductRow) (t : float) : JsVal :=
  let total := num_of_nat (List.length rows) in
  let active := how_many row_is_active rows in
  JObj ["totalProducts" :- JNum total;
        "activeProducts" :- JNum active;
        "inactiveProducts" :- JNum (PrimFloat.sub total active);
        "outOfStockProducts" :-
          JNum (how_many (fun p => PrimFloat.eqb (row_stock_quantity p) PrimFloat.zero) rows);
        "recentProducts" :-
          JNum (how_many (fun p => PrimFloat.ltb (Date_minus_days t 7)
                                     (Date_parse (row_created_at p))) rows);
        "totalInventoryValue" :- JNum (inventory_value rows)].

Definition statistics_query (user : JsVal) : Request :=
  from Admin "products"
    [select (Some "id, is_active, stock_quantity, price, created_at");
     eq "seller_id" (field user "id")].

(** ** Profile read *)

Definition profile_lookup (user : JsVal) : Request :=
  from Admin "profiles"
    [select (Some "username, website, avatar_url, google_id");
     eq "id" (field user "id"); single].

(** The lookup brought no profile: the promise was rejected, or it resolved
    to a reply without a row or with an error. *)
Definition no_profile (o : Settled) : Prop :=
  match o with
  | Rejected _ => True
  | Resolved reply =>
      nullish reply = true \/
      truthy (field reply "data") = false \/
      truthy (field reply "error") = true
  end.

(** The profile of a caller without a profile row, as the handler builds it
    from the identity alone. *)
Definition identity_profile (user : JsVal) : JsVal :=
  let metadata := field user "user_metadata" in
  JObj ["id" :- field user "id";
        "email" :- field user "email";
        "name" :- js_or (opt_field metadata "full_name") (field user "email");
        "username" :- opt_field metadata "full_name";
        "website" :- JStr EmptyString;
        "avatar_url" :- opt_field metadata "avatar_url";
        "google_id" :- opt_field metadata "provider_id";
        "created_at" :- field user "created_at";
        "last_sign_in_at" :- field user "last_sign_in_at";
        "email_confirmed_at" :- field user "email_confirmed_at"].

(** "Every profile field is filled from identity-metadata fallbacks": each of
    the four profile fields of [profile] is the value the identity metadata
    holds for it. *)
Definition filled_from_metadata (user profile : JsVal) : Prop :=
  let metadata := field user "user_metadata" in
  field profile "username" = opt_field metadata "full_name" /\
  field profile "website" = opt_field metadata "website" /\
  field profile "avatar_url" = opt_field metadata "avatar_url" /\
  field profile "google_id" = opt_field metadata "provider_id".

End Expectations.

(** ** The routes and the treatment of upstream errors *)

Inductive Route : Type :=
| GetPosts | PostPosts | GetMyProducts | PutMyProducts | DeleteMyProducts
| GetSellerStats
| GetCart | PostCart | PutCart | DeleteCartItem | DeleteCart
| Register | Login | MagicLink | Google | Session | Logout
| GetProfile | PutProfile
| Health.

Section Router.
Context {B : Builtins}.
Variable FRONTEND_URL : JsVal.

Definition handler (r : Route) : HttpRequest -> Prog Response :=
  match r with
  | GetPosts => get_api_posts
  | PostPosts => post_api_posts
  | GetMyProducts => get_api_my_products
  | PutMyProducts => put_api_my_products
  | DeleteMyProducts => delete_api_my_products
  | GetSellerStats => get_api_seller_stats
  | GetCart => get_api_cart
  | PostCart => post_api_cart
  | PutCart => put_api_cart
  | DeleteCartItem => delete_api_cart_item
  | DeleteCart => delete_api_cart
  | Register => post_api_auth_register
  | Login => post_api_auth_login
  | MagicLink => post_api_auth_magic_link FRONTEND_URL
  | Google => post_api_auth_google FRONTEND_URL
  | Session => get_api_auth_session
  | Logout => post_api_auth_logout
  | GetProfile => get_api_auth_profile
  | PutProfile => put_api_auth_profile
  | Health => get_api_health
  end.

End Router.

(** What a handler does when a call returns an error. *)
Inductive Treatment : Type :=
| Responds (code : Z)
| Tolerated.

Definition is_single (st : Step) : bool :=
  match st with
  | single => true
  | _ => false
  end.

(** By the kind of call: token resolution and password sign-in answer 401;
    a single-row lookup by id of a product or cart item answers 404; the
    single-row lookups of the caller's profile and of the caller's cart row
    for a product, and the metadata mirror, are not treated as failures;
    every other call answers 400. *)
Definition upstream_treatment (rq : Request) : Treatment :=
  match rq with
  | auth_getUser _ | auth_signInWithPassword _ => Responds 401
  | auth_updateUser _ => Tolerated
  | auth_signUp _ | auth_signInWithOtp _ | auth_signInWithOAuth _ | auth_signOut =>
      Responds 400
  | from _ table chain =>
      if existsb is_single chain then
        if String.eqb table "profiles" || negb (filtered_on "id" rq)
        then Tolerated else Responds 404
      else Responds 400
  end.

(** The token guards of the session and profile routes answer without
    [details]; every other error response carries the upstream message. *)
Definition attaches_details (r : Route) (rq : Request) : bool :=
  match rq, r with
  | auth_getUser _, (Session | GetProfile | PutProfile) => false
  | _, _ => true
  end.

(** The call resolved to a reply that reports an error, in the shape the
    client gives it: [{ data, error }] with a truthy [error] (and, for
    [getUser], a [data] object to read [user] from). *)
Definition reports_error (rq : Request) (reply : JsVal) : Prop :=
  nullish reply = false /\
  truthy (field reply "error") = true /\
  match rq with
  | auth_getUser _ => nullish (field reply "data") = false
  | _ => True
  end.

(** "Whenever a call returns an error the handler responds with HTTP 400 and
    the upstream message as [details]", for one run. *)
Definition answers_400_with_details {W : World} (run : Run W Response) : Prop :=
  forall rq reply,
    In (rq, Some (Resolved reply)) (exchanges run) ->
    reports_error rq reply ->
    exists response,
      outcome run = Done response /\
      status response = 400%Z /\
      field (json response) "details" = field (field reply "error") "message".

(** The treatment of upstream errors, as a predicate on one run of the
    handler of route [r]: a call that reported an error and is not
    tolerated is the last exchange of the run, and the run ends with the
    response its treatment names. *)
Definition follows_policy {W : World} (r : Route) (run : Run W Response) : Prop :=
  forall rq reply,
    In (rq, Some (Resolved reply)) (exchanges run) ->
    reports_error rq reply ->
    match upstream_treatment rq with
    | Responds code =>
        exists response,
          outcome run = Done response /\
          status response = code /\
          (attaches_details r rq = true ->
           field (json response) "details" = field (field reply "error") "message") /\
          List.last (exchanges run) (rq, None) = (rq, Some (Resolved reply))
    | Tolerated => True
    end.

(** ** Predicates on runs *)

(** [wp W p s Q]: the run of [p] from state [s] satisfies [Q]. *)
Definition wp (W : World) {A : Type} (p : Prog A) (s : wstate W)
    (Q : Run W A -> Prop) : Prop :=
  Q (exec W p s).

Arguments wp W {A} p s Q.

Definition prepend {W : World} {A : Type} (xs : list (Request * option Settled))
    (r : Run W A) : Run W A :=
  {| outcome := outcome r; exchanges := (xs ++ exchanges r)%list; final := final r |}.

Definition stopped {W : World} {A C : Type} (r : Run W A) (o : Outcome C) : Run W C :=
  {| outcome := o; exchanges := exchanges r; final := final r |}.

(** A program that issues no request. *)
Fixpoint silent {A : Type} (p : Prog A) : Prop :=
  match p with
  | Ret _ | Throw _ => True
  | Call _ _ => False
  | Now k => forall t, silent (k t)
  end.

(** ** Sample data *)

Definition alice : JsVal :=
  JObj ["id" :- JStr "u-alice";
        "email" :- JStr "alice@example.com";
        "user_metadata" :- JObj ["full_name" :- JStr "Alice";
                                 "avatar_url" :- JStr "https://img.example/alice.png";
                                 "provider_id" :- JStr "g-1";
                                 "website" :- JStr "https://alice.example"];
        "created_at" :- JStr "2024-01-01T00:00:00Z";
        "last_sign_in_at" :- JStr "2024-01-07T00:00:00Z";
        "email_confirmed_at" :- JStr "2024-01-01T00:05:00Z"].

(** A request of Alice's, with her bearer token. *)
Definition from_alice (fields : list (string * JsVal)) (id : string) : HttpRequest :=
  {| authorization := Some "Bearer token-alice"; body_fields := fields; params_id := id |}.

Definition anonymous (fields : list (string * JsVal)) : HttpRequest :=
  {| authorization := None; body_fields := fields; params_id := EmptyString |}.

(** A product of Bob's, with two items in stock. *)
Definition widget : JsVal :=
  JObj ["id" :- JStr "p1";
        "seller_id" :- JStr "u-bob";
        "title" :- JStr "Widget";
        "stock_quantity" :- JNum 2;
        "is_active" :- JBool true].

(** A product of Alice's. *)
Definition gadget : JsVal :=
  JObj ["id" :- JStr "p2";
        "seller_id" :- JStr "u-alice";
        "title" :- JStr "Gadget";
        "stock_quantity" :- JNum 5;
        "is_active" :- JBool true].

(** Alice's cart row for the widget. *)
Definition cart_row : JsVal :=
  JObj ["id" :- JStr "c1";
        "user_id" :- JStr "u-alice";
        "product_id" :- JStr "p1";
        "quantity" :- JNum 1;
        "added_at" :- JStr "2024-01-02T00:00:00Z";
        "products" :- JObj ["title" :- JStr "Widget"]].

Definition no_row : Settled :=
  Resolved (reply_of JNull
              (JObj ["code" :- JStr "PGRST116";
                     "message" :- JStr "JSON object requested, multiple (or no) rows returned"])).

Definition noon : float := 1704672000000%float.

Definition two_rows : list ProductRow :=
  [{| row_id := JStr "p2"; row_is_active := true; row_stock_quantity := 5;
      row_price := 3; row_created_at := "1704585600000" |};
   {| row_id := JStr "p3"; row_is_active := false; row_stock_quantity := 0;
      row_price := 10; row_created_at := "1700000000000" |}].


(** ** What every handler keeps to *)

(** The routes whose handler starts with the token guard. *)
Definition guarded (r : Route) : bool :=
  match r with
  | PostPosts | GetMyProducts | PutMyProducts | DeleteMyProducts | GetSellerStats
  | GetCart | PostCart | PutCart | DeleteCartItem | DeleteCart
  | Session | GetProfile | PutProfile => true
  | GetPosts | Register | Login | MagicLink | Google | Logout | Health => false
  end.

Definition no_token_provided : Response :=
  respond 401 (JObj ["error" :- JStr "No token provided"]).

(** The body a guarded route sends when the token does not resolve. *)
Definition unresolved_token (r : Route) (authError : JsVal) : JsVal :=
  match r with
  | Session | GetProfile | PutProfile => invalid_token authError
  | _ => invalid_or_expired authError
  end.

(** The [error] text of the [catch] clause of each route. *)
Definition catch_label (r : Route) : string :=
  match r with
  | GetPosts | GetMyProducts | GetSellerStats | GetCart => "Internal error"
  | _ => "Internal server error"
  end.

(** The status codes that occur in the text of each handler. *)
Definition possible_statuses (r : Route) : list Z :=
  match r with
  | GetPosts => [200; 400; 500]
  | PostPosts => [201; 400; 401; 500]
  | GetMyProducts | GetSellerStats | GetCart | DeleteCart => [200; 400; 401; 500]
  | PutMyProducts | DeleteMyProducts => [200; 400; 401; 403; 404; 500]
  | PostCart => [201; 400; 401; 404; 500]
  | PutCart | DeleteCartItem => [200; 400; 401; 404; 500]
  | Register => [201; 400; 500]
  | Login => [200; 400; 401; 500]
  | MagicLink | Google | Logout => [200; 400; 500]
  | Session | GetProfile => [200; 401; 500]
  | PutProfile => [200; 400; 401; 500]
  | Health => [200]
  end%Z.

(** The number of [await]s on the longest path through each handler. *)
Definition max_calls (r : Route) : nat :=
  match r with
  | Health => 0
  | GetPosts | Register | Login | MagicLink | Google | Session | Logout => 1
  | PostPosts | GetMyProducts | GetSellerStats | GetCart | DeleteCart | GetProfile => 2
  | PutMyProducts | PutCart | DeleteCartItem | PutProfile => 3
  | DeleteMyProducts | PostCart => 4
  end.

(** The table each route writes to, if it writes at all. *)
Definition written_table (r : Route) : option string :=
  match r with
  | PostPosts | PutMyProducts | DeleteMyProducts => Some "products"
  | PostCart | PutCart | DeleteCartItem | DeleteCart => Some "cart_items"
  | PutProfile => Some "profiles"
  | _ => None
  end.

Definition is_token_resolution (rq : Request) : bool :=
  match rq with
  | auth_getUser _ => true
  | _ => false
  end.

Definition is_store_request (rq : Request) : bool :=
  match rq with
  | from _ _ _ => true
  | _ => false
  end.

(** A write goes to the table of the route. *)
Definition writes_within (r : Route) (rq : Request) : bool :=
  negb (is_store_write rq) ||
  match rq, written_table r with
  | from _ table _, Some t => String.eqb table t
  | _, _ => false
  end.

(** Which client a store request goes through: the administrative one,
    except for the insert of [app.post('/api/posts')], which goes through a
    client built with the caller's token. *)
Definition through_expected_client (r : Route) (req : HttpRequest) (rq : Request) : Prop :=
  match rq with
  | from client _ chain =>
      match r with
      | PostPosts => client = WithAuth (bearer req)
      | _ => client = Admin
      end
  | _ => True
  end.

(** The calls whose rejection the handlers catch and ignore: the profile
    lookup of [load_profile] and the metadata mirror of the profile
    update. *)
Definition swallows_rejection (rq : Request) : bool :=
  match rq with
  | auth_updateUser _ => true
  | from _ table chain => String.eqb table "profiles" && existsb is_single chain
  | _ => false
  end.

(** The guard runs first: the first request resolves the bearer token of the
    request, and anything is issued after it only when it resolved to a
    user without an error. *)
Definition guard_first (req : HttpRequest) (xs : list (Request * option Settled)) : Prop :=
  match xs with
  | [] => True
  | (rq, o) :: rest =>
      rq = auth_getUser (bearer req) /\
      truthy (bearer req) = true /\
      (rest = [] \/
       exists reply,
         o = Some (Resolved reply) /\
         truthy (field (field reply "data") "user") = true /\
         truthy (field reply "error") = false)
  end.

(** The properties every run of the handler of route [r] has, whatever the
    platform answers. *)
Record sound {W : World} (r : Route) (req : HttpRequest) (run : Run W Response) : Prop := {
  statuses_within :
    forall response, outcome run = Done response ->
      In (status response) (possible_statuses r);
  calls_within : List.length (exchanges run) <= max_calls r;
  writes_in_table : forallb (writes_within r) (issued run) = true;
  clients_as_expected : Forall (through_expected_client r req) (issued run);
  guard_runs_first :
    if guarded r then guard_first req (exchanges run)
    else existsb is_token_resolution (issued run) = false;
  rejections_answered :
    forall rq reason,
      In (rq, Some (Rejected reason)) (exchanges run) ->
      nullish reason = false ->
      swallows_rejection rq = false ->
      (r = PostPosts -> is_token_resolution rq = false) ->
      outcome run =
        Done (respond 500 (JObj ["error" :- JStr (catch_label r);
                                 "details" :- field reason "message"]));
  nothing_escapes :
    r <> PostPosts ->
    (forall rq reason,
       In (rq, Some (Rejected reason)) (exchanges run) -> nullish reason = false) ->
    forall e, outcome run <> Uncaught e
}.

(** A program that issues no request and throws nothing but error objects. *)
Fixpoint throws_errors {A : Type} (p : Prog A) : Prop :=
  match p with
  | Ret _ => True
  | Throw e => nullish e = false
  | Call _ _ => False
  | Now k => forall t, throws_errors (k t)
  end.

(** ** The requests and responses of the remaining routes *)

(** A word of an [Authorization] header: it holds no space. *)
Fixpoint has_no_space (s : string) : bool :=
  match s with
  | EmptyString => true
  | String c rest => negb (Ascii.eqb c " "%char) && has_no_space rest
  end.

Definition with_header (h : option string) (req : HttpRequest) : HttpRequest :=
  {| authorization := h; body_fields := body_fields req; params_id := params_id req |}.

Section MoreRoutes.
Context {B : Builtins}.
Variable FRONTEND_URL : JsVal.

(** [app.post('/api/auth/register')] and [app.post('/api/auth/login')] *)
Definition sign_up (req : HttpRequest) : Request :=
  auth_signUp
    (JObj ["email" :- field (body req) "email";
           "password" :- field (body req) "password";
           "options" :- JObj ["data" :-
              JObj ["full_name" :- JStr EmptyString;
                    "avatar_url" :- JStr EmptyString]]]).

Definition sign_in (req : HttpRequest) : Request :=
  auth_signInWithPassword
    (JObj ["email" :- field (body req) "email";
           "password" :- field (body req) "password"]).

Definition credentials_required : Response :=
  respond 400 (JObj ["error" :- JStr "Email and password are required"]).

Definition password_too_short : Response :=
  respond 400 (JObj ["error" :- JStr "Password must be at least 6 characters long"]).

Definition logged_in (data : JsVal) : Response :=
  respond_ok (JObj ["message" :- JStr "Login successful";
                    "user" :- user_summary (field data "user");
                    "session" :- field data "session"]).

Definition logged_out : Response :=
  respond_ok (JObj ["message" :- JStr "Logout successful"]).

(** [app.post('/api/auth/magic-link')] and [app.post('/api/auth/google')] *)
Definition magic_link (req : HttpRequest) (target : JsVal) : Request :=
  auth_signInWithOtp
    (JObj ["email" :- field (body req) "email";
           "options" :- JObj ["shouldCreateUser" :- JBool true;
                              "emailRedirectTo" :- target]]).

Definition google_sign_in (target : JsVal) : Request :=
  auth_signInWithOAuth
    (JObj ["provider" :- JStr "google";
           "options" :- JObj ["redirectTo" :- target]]).

(** [app.put('/api/cart/:id')] *)
Definition cart_quantity_lookup (req : HttpRequest) (user : JsVal) : Request :=
  from Admin "cart_items"
    [select (Some cart_quantity_columns);
     eq "id" (JStr (params_id req)); eq "user_id" (field user "id"); single].

Definition cart_quantity_update (req : HttpRequest) : Request :=
  from Admin "cart_items"
    [update (JObj ["quantity" :- field (body req) "quantity"]);
     eq "id" (JStr (params_id req)); select None].

(** [app.delete('/api/cart')] *)
Definition cart_clear (user : JsVal) : Request :=
  from Admin "cart_items" [delete; eq "user_id" (field user "id")].

(** [app.put('/api/my-products/:id')], with the update object [updates]. *)
Definition product_update (req : HttpRequest) (user updates : JsVal) : Request :=
  from Admin "products"
    [update updates;
     eq "id" (JStr (params_id req)); eq "seller_id" (field user "id"); select None].

(** The listings of [app.get('/api/my-products')] and [app.get('/api/cart')]. *)
Definition my_products_query (user : JsVal) : Request :=
  from Admin "products"
    [select (Some "*"); eq "seller_id" (field user "id"); order "created_at" false].

Definition cart_query (user : JsVal) : Request :=
  from Admin "cart_items"
    [select (Some cart_columns); eq "user_id" (field user "id"); order "added_at" false].

(** [app.put('/api/auth/profile')] *)
Definition profile_row (req : HttpRequest) (user : JsVal) (t : float) : list (string * JsVal) :=
  ["id" :- field user "id";
   "username" :- js_or (js_or (field (body req) "username") (field (body req) "name"))
                       (field user "email");
   "website" :- js_or (field (body req) "website") (JStr EmptyString);
   "avatar_url" :- js_or (field (body req) "avatar_url") (JStr EmptyString);
   "updated_at" :- JStr (Date_toISOString t)].

Definition profile_upsert (req : HttpRequest) (user : JsVal) (t : float) : Request :=
  from Admin "profiles"
    [upsert (JObj (profile_row req user t))
            (JObj ["onConflict" :- JStr "id"; "returning" :- JStr "representation"]);
     select None].

Definition metadata_mirror (req : HttpRequest) : Request :=
  auth_updateUser
    (JObj ["data" :- JObj ["full_name" :- js_or (field (body req) "username")
                                                (field (body req) "name");
                           "avatar_url" :- field (body req) "avatar_url"]]).

Definition profile_updated (req : HttpRequest) (user : JsVal) (t : float) : Response :=
  let row := profile_row req user t in
  respond_ok
    (JObj ["message" :- JStr "Profile updated successfully";
           "user" :- JObj ["id" :- field user "id";
                           "email" :- field user "email";
                           "name" :- assoc "username" row;
                           "username" :- assoc "username" row;
                           "website" :- assoc "website" row;
                           "avatar_url" :- assoc "avatar_url" row;
                           "updated_at" :- assoc "updated_at" row]]).

End MoreRoutes.

(** ** Numbers of elements and characters *)

(** The significand of a positive integer below 2^53 as a number: its
    digits moved up to 53 bits. *)
Definition aligned (m : positive) : positive :=
  match (53 - Zpos (digits2_pos m))%Z with
  | Zpos d => Pos.iter xO m d
  | _ => m
  end.

(** ** More sample data *)

(** The answer of the identity provider to an expired token. *)
Definition expired : Settled :=
  Resolved (reply_of (JObj ["user" :- JNull]) (JObj ["message" :- JStr "token is expired"])).

(** Alice's cart row for the widget, as the quantity update reads it. *)
Definition cart_row_with_stock : JsVal :=
  JObj ["id" :- JStr "c1";
        "user_id" :- JStr "u-alice";
        "product_id" :- JStr "p1";
        "quantity" :- JNum 1;
        "added_at" :- JStr "2024-01-02T00:00:00Z";
        "products" :- JObj ["stock_quantity" :- JNum 2; "title" :- JStr "Widget"]].

(** A product of Bob's with twenty items in stock. *)
Definition crate : JsVal :=
  JObj ["id" :- JStr "p1";
        "title" :- JStr "Crate";
        "stock_quantity" :- JNum 20;
        "is_active" :- JBool true].

(** A value no conversion accepts: a parsed JSON object with a property
    named [toString]. *)
Definition hostile : JsVal := JObj ["toString" :- JNum 1].

(** The body of a new product. *)
Definition new_lamp : list (string * JsVal) :=
  ["title" :- JStr "Lamp"; "description" :- JStr "A lamp"; "price" :- JStr "3"].

(** The record built for it on Alice's behalf. *)
Definition lamp_record : JsVal :=
  JObj ["seller_id" :- JStr "u-alice";
        "title" :- JStr "Lamp";
        "description" :- JStr "A lamp";
        "price" :- JNum 3;
        "image_url" :- JNull;
        "category" :- JNull;
        "stock_quantity" :- JZero;
        "is_active" :- JBool true].

(** The reason of a call rejected for want of a connection. *)
Definition unreachable : JsVal := JObj ["message" :- JStr "fetch failed"].
(** * Verification *)

Arguments bearer : simpl never.

(** ** Array lengths as numbers *)

(** The length of a non-empty array is a positive binary64 number: the
    conversion of a positive integer below 2^53 is a finite, positive
    value. *)
Lemma digits2_pos_iter (m d : positive) :
  digits2_pos (Pos.iter xO m d) = (digits2_pos m + d)%positive.
Proof.
  induction d as [| d IH] using Pos.peano_ind.
  - cbn. lia.
  - rewrite Pos.iter_succ. cbn [digits2_pos]. rewrite IH. lia.
Qed.

Lemma digits2_pos_bound (m : positive) :
  forall k : Z, (Zpos m < 2 ^ k)%Z -> (0 <= k)%Z -> (Zpos (digits2_pos m) <= k)%Z.
Proof.
  induction m as [p IH | p IH |]; intros k Hm Hk; cbn [digits2_pos].
  - assert (k = 0 \/ 1 <= k)%Z as [-> | Hk1] by lia; [cbn in Hm; lia |].
    replace k with (Z.succ (k - 1))%Z in Hm by lia.
    rewrite Z.pow_succ_r in Hm by lia.
    specialize (IH (k - 1)%Z). lia.
  - assert (k = 0 \/ 1 <= k)%Z as [-> | Hk1] by lia; [cbn in Hm; lia |].
    replace k with (Z.succ (k - 1))%Z in Hm by lia.
    rewrite Z.pow_succ_r in Hm by lia.
    specialize (IH (k - 1)%Z). lia.
  - assert (k = 0 \/ 1 <= k)%Z as [-> | Hk1] by lia; [cbn in Hm; lia | lia].
Qed.

Lemma normalize_positive (m : positive) :
  (Zpos m < 2 ^ 53)%Z ->
  exists m' e', binary_normalize prec emax (Zpos m) 0 false = S754_finite false m' e'.
Proof.
  intros Hm.
  pose proof (@digits2_pos_bound m 53%Z Hm ltac:(lia)) as HD.
  unfold binary_normalize, binary_round, shl_align.
  set (D := digits2_pos m) in *.
  assert (Hfexp : fexp prec emax (Zpos D + 0) = (Zpos D - 53)%Z).
  { unfold fexp, emin, prec, emax. lia. }
  rewrite Hfexp.
  destruct (Zpos D - 53 - 0)%Z as [| d | d] eqn:Hd; try lia.
  - unfold binary_round_aux, shr_fexp.
    cbn [Zdigits2]. fold D.
    rewrite Hfexp. replace (Zpos D - 53 - 0)%Z with 0%Z by lia.
    cbn [shr shr_record_of_loc shr_m loc_of_shr_record round_nearest_even Zdigits2].
    fold D. rewrite Hfexp. replace (Zpos D - 53 - 0)%Z with 0%Z by lia.
    cbn [shr shr_m]. eexists _, _. reflexivity.
  - unfold binary_round_aux, shr_fexp.
    cbn [Zdigits2]. rewrite digits2_pos_iter. fold D.
    assert (Hfexp' : fexp prec emax (Zpos (D + d) + (Zpos D - 53)) = (Zpos D - 53)%Z).
    { unfold fexp, emin, prec, emax. lia. }
    rewrite Hfexp'. rewrite Z.sub_diag.
    cbn [shr shr_record_of_loc shr_m loc_of_shr_record round_nearest_even Zdigits2].
    rewrite digits2_pos_iter. fold D. rewrite Hfexp', Z.sub_diag.
    cbn [shr shr_m].
    assert (Hle : (Zpos D - 53 <=? emax - prec)%Z = true).
    { apply Z.leb_le. unfold emax, prec. lia. }
    rewrite Hle. eexists _, _. reflexivity.
Qed.

Lemma num_of_nat_positive (n : nat) :
  (0 < n)%nat -> (Z.of_nat n < 2 ^ 53)%Z ->
  PrimFloat.ltb PrimFloat.zero (num_of_nat n) = true /\
  PrimFloat.eqb (num_of_nat n) PrimFloat.zero = false.
Proof.
  intros Hpos Hbound.
  assert (exists m e, Prim2SF (num_of_nat n) = S754_finite false m e) as (m & e & H).
  { unfold num_of_nat.
    rewrite of_uint63_spec, Uint63.of_Z_spec, Z.mod_small.
    - destruct (Z.of_nat n) as [| p | p] eqn:Hn; try lia.
      apply normalize_positive. exact Hbound.
    - split; [lia |].
      apply Z.lt_trans with (2 ^ 53)%Z; [exact Hbound | reflexivity]. }
  rewrite ltb_spec, eqb_spec, H.
  change (Prim2SF PrimFloat.zero) with (S754_zero false).
  split; reflexivity.
Qed.

Section ArrayLength.
Context {B : Builtins}.

Lemma non_empty_array (item : JsVal) (rest : list JsVal) :
  is_array (item :: rest) ->
  js_gt (field (JArr (item :: rest)) "length") JZero = Some true /\
  strict_eq (field (JArr (item :: rest)) "length") JZero = false.
Proof.
  intros Harray.
  destruct (@num_of_nat_positive (List.length (item :: rest))) as [Hlt Hne].
  - cbn. lia.
  - unfold is_array in Harray.
    apply Z.lt_trans with (2 ^ 32)%Z; [exact Harray | reflexivity].
  - split; [| exact Hne].
    unfold js_gt, JZero. cbn [field String.eqb Ascii.eqb Bool.eqb to_primitive and_then].
    unfold less_than, number_of_primitive. f_equal. exact Hlt.
Qed.

End ArrayLength.

(** ** Running a handler, one step at a time

    The rules below follow the constructs a handler is written with, so
    that a proof walks down the handler once, whatever the platform
    answers. *)

Section Execution.
Context {B : Builtins}.
Variable W : World.

Lemma exec_bind (A C : Type) (p : Prog A) (f : A -> Prog C) (s : wstate W) :
  exec W (bind p f) s =
    match outcome (exec W p s) with
    | Done a => prepend (exchanges (exec W p s)) (exec W (f a) (final (exec W p s)))
    | Uncaught e => stopped (exec W p s) (Uncaught e)
    | Pending => stopped (exec W p s) Pending
    end.
Proof.
  revert s; induction p as [a | e | rq k IH | k IH]; intros s; cbn.
  - destruct (exec W (f a) s); reflexivity.
  - reflexivity.
  - destruct (wcall W s rq) as [[o|] s']; [| reflexivity].
    rewrite IH.
    destruct (exec W (k o) s') as [[a|e|] xs sf]; reflexivity.
  - destruct (wclock W s) as [t s']. apply IH.
Qed.

Lemma exec_try_catch (A : Type) (p : Prog A) (h : JsVal -> Prog A) (s : wstate W) :
  exec W (try_catch p h) s =
    match outcome (exec W p s) with
    | Uncaught e => prepend (exchanges (exec W p s)) (exec W (h e) (final (exec W p s)))
    | _ => exec W p s
    end.
Proof.
  revert s; induction p as [a | e | rq k IH | k IH]; intros s; cbn.
  - reflexivity.
  - destruct (exec W (h e) s); reflexivity.
  - destruct (wcall W s rq) as [[o|] s']; [| reflexivity].
    rewrite IH.
    destruct (exec W (k o) s') as [[a|e|] xs sf]; reflexivity.
  - destruct (wclock W s) as [t s']. apply IH.
Qed.

Lemma wp_run (A : Type) (p : Prog A) (s : wstate W) (Q : Run W A -> Prop) :
  wp W p s Q -> Q (exec W p s).
Proof. exact (fun H => H). Qed.

Lemma wp_ret (A : Type) (a : A) (s : wstate W) (Q : Run W A -> Prop) :
  Q {| outcome := Done a; exchanges := []; final := s |} -> wp W (Ret a) s Q.
Proof. exact (fun H => H). Qed.

Lemma wp_throw (A : Type) (e : JsVal) (s : wstate W) (Q : Run W A -> Prop) :
  Q {| outcome := Uncaught e; exchanges := []; final := s |} -> wp W (Throw e) s Q.
Proof. exact (fun H => H). Qed.

Lemma wp_bind (A C : Type) (p : Prog A) (f : A -> Prog C) (s : wstate W)
    (Q : Run W C -> Prop) :
  wp W p s (fun r =>
    match outcome r with
    | Done a => wp W (f a) (final r) (fun r' => Q (prepend (exchanges r) r'))
    | Uncaught e => Q (stopped r (Uncaught e))
    | Pending => Q (stopped r Pending)
    end) ->
  wp W (bind p f) s Q.
Proof.
  unfold wp. rewrite exec_bind.
  destruct (outcome (exec W p s)); exact (fun H => H).
Qed.

Lemma wp_try_catch (A : Type) (p : Prog A) (h : JsVal -> Prog A) (s : wstate W)
    (Q : Run W A -> Prop) :
  wp W p s (fun r =>
    match outcome r with
    | Uncaught e => wp W (h e) (final r) (fun r' => Q (prepend (exchanges r) r'))
    | _ => Q r
    end) ->
  wp W (try_catch p h) s Q.
Proof.
  unfold wp. rewrite exec_try_catch.
  destruct (outcome (exec W p s)); exact (fun H => H).
Qed.

Lemma wp_await (rq : Request) (s : wstate W) (Q : Run W JsVal -> Prop) :
  (forall v s', wcall W s rq = (Some (Resolved v), s') ->
     Q {| outcome := Done v; exchanges := [(rq, Some (Resolved v))]; final := s' |}) ->
  (forall e s', wcall W s rq = (Some (Rejected e), s') ->
     Q {| outcome := Uncaught e; exchanges := [(rq, Some (Rejected e))]; final := s' |}) ->
  (forall s', wcall W s rq = (None, s') ->
     Q {| outcome := Pending; exchanges := [(rq, None)]; final := s' |}) ->
  wp W (await rq) s Q.
Proof.
  intros Hv He Hn. unfold wp; cbn.
  destruct (wcall W s rq) as [[[v|e]|] s'] eqn:E; unfold after; cbn; eauto.
Qed.

Lemma wp_now (s : wstate W) (Q : Run W float -> Prop) :
  (forall t s', wclock W s = (t, s') ->
     Q {| outcome := Done t; exchanges := []; final := s' |}) ->
  wp W now s Q.
Proof.
  intros H. unfold wp; cbn.
  destruct (wclock W s) as [t s'] eqn:E. cbn. eauto.
Qed.

Lemma wp_if (A : Type) (c : bool) (p q : Prog A) (s : wstate W) (Q : Run W A -> Prop) :
  (c = true -> wp W p s Q) -> (c = false -> wp W q s Q) ->
  wp W (if c then p else q) s Q.
Proof. intros Ht Hf. destruct c; auto. Qed.

Lemma wp_member (v : JsVal) (k : string) (s : wstate W) (Q : Run W JsVal -> Prop) :
  (nullish v = false -> Q {| outcome := Done (field v k); exchanges := []; final := s |}) ->
  (nullish v = true ->
     Q {| outcome := Uncaught (type_error k); exchanges := []; final := s |}) ->
  wp W (member v k) s Q.
Proof.
  intros Hsome Hnone. unfold member, wp.
  destruct (nullish v); cbn; auto.
Qed.

Lemma wp_lift (A : Type) (c : option A) (s : wstate W) (Q : Run W A -> Prop) :
  (forall a, c = Some a -> Q {| outcome := Done a; exchanges := []; final := s |}) ->
  (c = None ->
     Q {| outcome := Uncaught conversion_error; exchanges := []; final := s |}) ->
  wp W (lift c) s Q.
Proof.
  intros Hsome Hnone. unfold lift, wp.
  destruct c; cbn; auto.
Qed.

Lemma silent_exchanges (A : Type) (p : Prog A) (s : wstate W) :
  silent p -> exchanges (exec W p s) = [].
Proof.
  revert s; induction p as [a | e | rq k IH | k IH]; intros s Hp; cbn in *.
  - reflexivity.
  - reflexivity.
  - contradiction.
  - destruct (wclock W s) as [t s']. apply IH, Hp.
Qed.

Lemma wp_silent (A : Type) (p : Prog A) (s : wstate W) (Q : Run W A -> Prop) :
  silent p ->
  (forall o s', Q {| outcome := o; exchanges := []; final := s' |}) ->
  wp W p s Q.
Proof.
  intros Hp HQ. unfold wp.
  pose proof (@silent_exchanges A p s Hp) as Hx.
  destruct (exec W p s) as [o xs sf]. cbn in Hx. subst xs. apply HQ.
Qed.

Lemma silent_bind (A C : Type) (p : Prog A) (f : A -> Prog C) :
  silent p -> (forall a, silent (f a)) -> silent (bind p f).
Proof.
  induction p as [a | e | rq k IH | k IH]; cbn; intros Hp Hf; auto.
Qed.

Lemma silent_member (v : JsVal) (k : string) : silent (member v k).
Proof. unfold member. destruct (nullish v); exact I. Qed.

Lemma silent_lift (A : Type) (c : option A) : silent (lift c).
Proof. destruct c; exact I. Qed.

Lemma silent_filter_p (f : JsVal -> Prog bool) (l : list JsVal) :
  (forall p, silent (f p)) -> silent (filter_p f l).
Proof.
  intros Hf. induction l as [| p rest IH]; cbn; [exact I |].
  apply silent_bind; [apply Hf | intros keep].
  apply silent_bind; [exact IH | intros kept; exact I].
Qed.

Lemma silent_reduce_p (f : JsVal -> JsVal -> Prog JsVal) (l : list JsVal) (acc : JsVal) :
  (forall a p, silent (f a p)) -> silent (reduce_p f l acc).
Proof.
  intros Hf. revert acc; induction l as [| p rest IH]; intros acc; cbn; [exact I |].
  apply silent_bind; [apply Hf | intros acc'; apply IH].
Qed.

Lemma silent_statistics (products : JsVal) : silent (statistics products).
Proof.
  unfold statistics.
  apply silent_bind; [apply silent_member | intros total].
  apply silent_bind; [destruct products; exact I | intros rows].
  apply silent_bind;
    [apply silent_filter_p; intros p; apply silent_bind;
       [apply silent_member | intros; exact I] | intros active].
  apply silent_bind; [apply silent_lift | intros inactive].
  apply silent_bind;
    [apply silent_filter_p; intros p; apply silent_bind;
       [apply silent_member | intros; exact I] | intros out].
  apply silent_bind.
  - apply silent_reduce_p; intros sum p.
    apply silent_bind; [apply silent_member | intros price].
    apply silent_bind; [apply silent_member | intros stock].
    apply silent_bind; [apply silent_lift | intros value; apply silent_lift].
  - intros value. cbn. intros t.
    apply silent_bind;
      [apply silent_filter_p; intros p; apply silent_bind;
         [apply silent_member | intros created; apply silent_bind;
            [apply silent_lift | intros; exact I]] | intros recent; exact I].
Qed.

End Execution.


(** ** The statistics of typed rows *)

Section StatisticsOfRows.
Context {B : Builtins}.
Variable W : World.

Lemma filter_p_rows (f : JsVal -> Prog bool) (g : ProductRow -> bool)
    (rows : list ProductRow) :
  (forall p, f (row_json p) = Ret (g p)) ->
  filter_p f (List.map row_json rows) = Ret (List.map row_json (List.filter g rows)).
Proof.
  intros Hf. induction rows as [| p rest IH]; cbn [List.map List.filter filter_p].
  - reflexivity.
  - rewrite Hf, IH. cbn [bind]. destruct (g p); reflexivity.
Qed.

Lemma reduce_p_rows (rows : list ProductRow) (acc : float) :
  reduce_p (fun sum p => price <- member p "price";;
                         stock <- member p "stock_quantity";;
                         value <- lift (js_mul price stock);;
                         lift (js_add sum value))
           (List.map row_json rows) (JNum acc) =
  Ret (JNum (fold_left (fun sum p => PrimFloat.add sum
                                       (PrimFloat.mul (row_price p) (row_stock_quantity p)))
                       rows acc)).
Proof.
  revert acc; induction rows as [| p rest IH]; intros acc.
  - reflexivity.
  - cbn [List.map reduce_p fold_left].
    change (member (row_json p) "price") with (Ret (JNum (row_price p))).
    change (member (row_json p) "stock_quantity") with (Ret (JNum (row_stock_quantity p))).
    cbn [bind].
    change (lift (js_mul (JNum (row_price p)) (JNum (row_stock_quantity p))))
      with (Ret (A := JsVal) (JNum (PrimFloat.mul (row_price p) (row_stock_quantity p)))).
    cbn [bind].
    change (lift (js_add (JNum acc)
                    (JNum (PrimFloat.mul (row_price p) (row_stock_quantity p)))))
      with (Ret (A := JsVal)
              (JNum (PrimFloat.add acc (PrimFloat.mul (row_price p) (row_stock_quantity p))))).
    apply IH.
Qed.

(** The sum of the claim is the sum of the shorter list plus the last
    term: the two equations that define a left-to-right sum. *)
Lemma inventory_value_nil : inventory_value [] = PrimFloat.zero.
Proof. reflexivity. Qed.

Lemma inventory_value_snoc (rows : list ProductRow) (p : ProductRow) :
  inventory_value (rows ++ [p])%list =
  PrimFloat.add (inventory_value rows) (PrimFloat.mul (row_price p) (row_stock_quantity p)).
Proof. unfold inventory_value. rewrite fold_left_app. reflexivity. Qed.

Lemma exec_statistics_rows (rows : list ProductRow) (s : wstate W) :
  exec W (statistics (JArr (List.map row_json rows))) s =
  {| outcome := Done (expected_statistics rows (fst (wclock W s)));
     exchanges := [];
     final := snd (wclock W s) |}.
Proof.
  unfold statistics.
  change (member (JArr (List.map row_json rows)) "length")
    with (Ret (JNum (num_of_nat (List.length (List.map row_json rows))))).
  cbn [bind as_array].
  rewrite (filter_p_rows _ row_is_active) by (intros p; reflexivity).
  cbn [bind].
  match goal with
  | |- context [lift (js_sub (JNum ?a) (count ?l))] =>
      change (lift (js_sub (JNum a) (count l)))
        with (Ret (A := JsVal) (JNum (PrimFloat.sub a (num_of_nat (List.length l)))))
  end.
  cbn [bind].
  rewrite (filter_p_rows _ (fun p => PrimFloat.eqb (row_stock_quantity p) PrimFloat.zero))
    by (intros p; reflexivity).
  cbn [bind].
  unfold JZero at 1. rewrite (reduce_p_rows rows PrimFloat.zero).
  cbn [bind now exec].
  destruct (wclock W s) as [t s'].
  rewrite (filter_p_rows _ (fun p => PrimFloat.ltb (Date_minus_days t 7)
                                       (Date_parse (row_created_at p))))
    by (intros p; reflexivity).
  cbn [bind exec fst snd].
  unfold expected_statistics, how_many, count, inventory_value.
  rewrite !List.length_map. reflexivity.
Qed.

Lemma wp_statistics_rows (rows : list ProductRow) (s : wstate W)
    (Q : Run W JsVal -> Prop) :
  (forall t s', wclock W s = (t, s') ->
     Q {| outcome := Done (expected_statistics rows t); exchanges := []; final := s' |}) ->
  wp W (statistics (JArr (List.map row_json rows))) s Q.
Proof.
  intros HQ. unfold wp. rewrite exec_statistics_rows.
  destruct (wclock W s) as [t s'] eqn:E. apply HQ. reflexivity.
Qed.

End StatisticsOfRows.

(** ** Walking down a handler *)

(** What is known of the platform's answers is kept as equations in the
    context; a branch that contradicts them is closed on the spot. *)
Ltac open_hyps :=
  repeat match goal with
  | H : authenticated _ _ _ _ _ |- _ =>
      let reply := fresh "reply" in
      destruct H as (? & reply & ? & ? & ? & ? & ? & ?)
  | H : available _ _ _ _ _ _ |- _ =>
      destruct H as (? & ? & ? & ? & ? & ? & ?)
  | H : store_answers _ _ _ _ _ _ |- _ =>
      let reply := fresh "reply" in
      destruct H as (reply & ? & ? & ? & ?)
  end;
  unfold answers, carries in *.

Ltac use_facts_in H :=
  repeat match goal with
  | F : ?l = _ |- _ =>
      tryif constr_eq F H then fail
      else lazymatch type of H with
           | context [l] => rewrite F in H
           end
  end.

Ltac split_fact H :=
  try unfold type_error, conversion_error in H;
  cbn [negb orb andb truthy nullish is_undefined] in H;
  lazymatch type of H with
  | true = false => discriminate H
  | false = true => discriminate H
  | ?b = ?b => clear H
  | negb ?a = true =>
      apply Bool.negb_true_iff in H; split_fact H
  | negb ?a = false =>
      apply Bool.negb_false_iff in H; split_fact H
  | (?a || ?b)%bool = false =>
      let H1 := fresh "F" in
      let H2 := fresh "F" in
      apply Bool.orb_false_iff in H; destruct H as [H1 H2];
      split_fact H1; split_fact H2
  | (?a && ?b)%bool = true =>
      let H1 := fresh "F" in
      let H2 := fresh "F" in
      apply Bool.andb_true_iff in H; destruct H as [H1 H2];
      split_fact H1; split_fact H2
  | (?a || ?b)%bool = true =>
      apply Bool.orb_true_iff in H; destruct H as [H | H]; split_fact H
  | (?a && ?b)%bool = false =>
      apply Bool.andb_false_iff in H; destruct H as [H | H]; split_fact H
  | _ => idtac
  end.

Ltac learn H := use_facts_in H; split_fact H.

Ltac known_answer E :=
  try match type of E with
      | ?call = _ =>
          match goal with
          | H : call = _ |- _ =>
              tryif constr_eq H E then fail else rewrite H in E;
              first [ discriminate E
                    | injection E as ? ?; subst ]
          end
      end.

(** What is known of a conversion: what the facts of the context say of
    it, or its value where it computes. *)
Ltac settle_value E :=
  lazymatch type of E with
  | Some _ = None => discriminate E
  | None = Some _ => discriminate E
  | None = None => clear E
  | Some _ = Some _ => injection E as E; subst
  end.

Ltac known_value E :=
  use_facts_in E;
  first
    [ settle_value E
    | let T := type of E in
      let T' := eval cbn in T in
      lazymatch T' with
      | Some _ = None => idtac
      | None = Some _ => idtac
      | Some _ = Some _ => idtac
      end;
      change T' in E; settle_value E
    | idtac ].

Ltac reduce := lazy beta iota zeta delta [outcome exchanges final stopped prepend].

Ltac use_facts :=
  repeat match goal with
  | F : ?l = _ |- context [?l] => rewrite F
  end.

Ltac leaf :=
  cbn [issued exchanges outcome final List.map fst snd app];
  repeat split; try reflexivity; try (use_facts; reflexivity).

Ltac walk :=
  reduce;
  lazymatch goal with
  | |- wp _ (bind _ _) _ _ => apply wp_bind; walk
  | |- wp _ (try_catch _ _) _ _ => apply wp_try_catch; walk
  | |- wp _ (await _) _ _ =>
      let E := fresh "E" in
      apply wp_await; [intros ? ? E | intros ? ? E | intros ? E];
      known_answer E; walk
  | |- wp _ now _ _ =>
      let E := fresh "E" in
      apply wp_now; intros ? ? E; known_answer E; walk
  | |- wp _ (member _ _) _ _ =>
      let F := fresh "F" in
      apply wp_member; intros F; learn F; walk
  | |- wp _ (lift _) _ _ =>
      let E := fresh "E" in
      apply wp_lift; [intros ? E | intros E]; known_value E; walk
  | |- wp _ (if ?c then _ else _) _ _ =>
      first [ is_var c; destruct c
            | let F := fresh "F" in
              apply wp_if; intros F; learn F ];
      walk
  | |- wp _ (Ret _) _ _ => apply wp_ret; walk
  | |- wp _ (Throw _) _ _ => apply wp_throw; walk
  | |- wp _ (guard _ _ _) _ _ => unfold guard; walk
  | |- wp _ (first_of _) _ _ => unfold first_of; walk
  | |- wp _ (added_to_cart _ _) _ _ => unfold added_to_cart; walk
  | |- wp _ (internal_error _ _) _ _ => unfold internal_error; walk
  | |- wp _ (load_profile _) _ _ => unfold load_profile; walk
  | |- wp _ (statistics _) _ _ =>
      try match goal with
          | F : ?l = JArr _ |- wp _ (statistics ?l) _ _ => rewrite F
          end;
      first [ let E := fresh "E" in
              apply wp_statistics_rows; intros ? ? E; known_answer E
            | apply wp_silent; [apply silent_statistics | intros [? | ? |] ?] ];
      walk
  | |- _ => idtac
  end.

(** Start from a statement about [exec W p s]. *)
Ltac start :=
  match goal with
  | |- context [exec ?W ?p ?s] =>
      pattern (exec W p s); apply wp_run
  end.

Section Ownership.
Context {B : Builtins}.
Variable W : World.

(** C3.  On [PUT] and [DELETE /api/my-products/:id], when the caller is
    authenticated and the ownership lookup returns a product whose
    [seller_id] is not the caller's id, the handler answers 403 and stops:
    the only requests it has issued are the token resolution and that
    lookup, neither of which is a write, and the platform is left in the
    state the lookup left it in. *)
Theorem my_products_forbidden (r : OwnerRoute) (s s1 s2 : wstate W) (req : HttpRequest)
    (user existingProduct checkError : JsVal) :
  authenticated W s req user s1 ->
  store_answers W s1 (owner_lookup r req) existingProduct checkError s2 ->
  truthy checkError = false ->
  truthy existingProduct = true ->
  strict_eq (field existingProduct "seller_id") (field user "id") = false ->
  let run := exec W (owner_handler r req) s in
  outcome run = Done (respond 403 (owner_refusal r)) /\
  issued run = [auth_getUser (bearer req); owner_lookup r req] /\
  read_only (issued run) /\
  final run = s2.
Proof.
  intros Hauth Hlookup Hnoerr Hfound Hother run; subst run.
  open_hyps; subst.
  destruct r; unfold owner_lookup, owner_handler in *;
    [unfold put_api_my_products | unfold delete_api_my_products];
    start; walk; leaf.
Qed.

(** C5.  On [DELETE /api/my-products/:id], when the caller owns the product
    and the store answers the cart check with at least one cart item that
    references it, the handler answers 400 with the suggestion to mark the
    product inactive; it has issued three reads and no delete, and the
    platform is in the state the last read left it in. *)
Theorem delete_product_in_carts (s s1 s2 s3 : wstate W) (req : HttpRequest)
    (user existingProduct checkError cartError item : JsVal) (others : list JsVal) :
  authenticated W s req user s1 ->
  store_answers W s1 (owner_lookup DeleteMine req) existingProduct checkError s2 ->
  truthy checkError = false ->
  truthy existingProduct = true ->
  strict_eq (field existingProduct "seller_id") (field user "id") = true ->
  store_answers W s2 (cart_references req) (JArr (item :: others)) cartError s3 ->
  truthy cartError = false ->
  is_array (item :: others) ->
  let run := exec W (delete_api_my_products req) s in
  outcome run =
    Done (respond 400
            (JObj ["error" :- JStr "Cannot delete product that is currently in customer carts";
                   "suggestion" :- JStr "Consider marking it as inactive instead"])) /\
  issued run = [auth_getUser (bearer req); owner_lookup DeleteMine req; cart_references req] /\
  read_only (issued run) /\
  final run = s3.
Proof.
  intros Hauth Hlookup Hnoerr Hfound Hown Hcart Hcartok Harray run; subst run.
  destruct (non_empty_array Harray) as [Hsome _].
  open_hyps; subst.
  unfold owner_lookup, cart_references, delete_api_my_products in *.
  start; walk; leaf.
Qed.

End Ownership.

Section Cart.
Context {B : Builtins}.
Variable W : World.

(** C4.  [POST /api/cart] by an authenticated caller: a missing
    [product_id] is answered 400; a product lookup that returns an error or
    no product, 404; a product whose [is_active] is false, 400; a product
    whose [stock_quantity] is less than the requested quantity (1 when the
    body names none), 400 [Insufficient stock] with [available] and
    [requested].  In each case the handler has issued no write: at most the
    product lookup follows the token resolution. *)
Theorem cart_add_refusals (s s1 s' : wstate W) (req : HttpRequest) (user : JsVal)
    (response : Response) (lookups : list Request) :
  authenticated W s req user s1 ->
  cart_add_refusal W req s1 response lookups s' ->
  let run := exec W (post_api_cart req) s in
  outcome run = Done response /\
  issued run = auth_getUser (bearer req) :: lookups /\
  read_only (issued run) /\
  final run = s'.
Proof.
  intros Hauth Hrefused run; subst run.
  open_hyps.
  destruct Hrefused as [Hid | product productError s2 Hid Hlookup Hmissing
                        | product productError s2 Hid Hlookup Hnoerr Hfound Hinactive
                        | product productError s2 Hid Hlookup Hnoerr Hfound Hactive Hshort];
    open_hyps; subst; unfold product_lookup, post_api_cart in *.
  - start; walk; leaf.
  - destruct Hmissing as [Herr | Hnone]; start; walk; leaf.
  - start; walk; leaf.
  - start; walk; leaf.
Qed.

(** C10.  [DELETE /api/cart/:id] by an authenticated caller.  The ownership
    check is the read, which is filtered on the item id and on the caller's
    [user_id] and is answered 404 when it returns an error or no row.  When
    it returns a row, the write that follows is the delete filtered on the
    item id alone: it carries no [user_id] filter, so it targets the row
    with that id whoever its [user_id] names when the store runs it. *)
Theorem cart_remove_checks_owner_on_read_only (s s1 s2 : wstate W) (req : HttpRequest)
    (user cartItem cartError : JsVal) :
  authenticated W s req user s1 ->
  store_answers W s1 (cart_item_lookup req user) cartItem cartError s2 ->
  let run := exec W (delete_api_cart_item req) s in
  filters (cart_item_lookup req user) =
    ["id" :- JStr (params_id req); "user_id" :- field user "id"] /\
  (truthy cartError = true \/ truthy cartItem = false ->
     outcome run =
       Done (respond 404 (JObj ["error" :- JStr "Cart item not found";
                                "details" :- opt_field cartError "message"])) /\
     issued run = [auth_getUser (bearer req); cart_item_lookup req user]) /\
  (truthy cartError = false -> truthy cartItem = true ->
     issued run = [auth_getUser (bearer req); cart_item_lookup req user;
                   cart_item_delete req] /\
     filters (cart_item_delete req) = ["id" :- JStr (params_id req)] /\
     filtered_on "user_id" (cart_item_delete req) = false /\
     forall row owner,
       field row "id" = JStr (params_id req) ->
       field row "user_id" = owner ->
       targets (cart_item_delete req) row = true).
Proof.
  intros Hauth Hlookup run; subst run.
  open_hyps; subst.
  unfold cart_item_lookup, cart_item_delete, delete_api_cart_item in *.
  split; [reflexivity | split].
  - intros [Herr | Hnone]; start; walk; leaf.
  - intros Hnoerr Hrow. split; [start; walk; leaf |].
    split; [reflexivity | split; [reflexivity |]].
    intros row owner Hid _. unfold targets, cart_item_delete.
    cbn [filters flat_map app forallb fst snd]. rewrite Hid.
    cbn [strict_eq]. rewrite String.eqb_refl. reflexivity.
Qed.

End Cart.

Section Products.
Context {B : Builtins}.
Variable W : World.

(** C2.  [POST /api/posts] by an authenticated caller with [title],
    [description] and [price] present.  When [parseFloat(price)] gives a
    value the handler issues one insert, of the record [newProduct], whose
    [seller_id] is the caller's id; when it throws (the price is an object
    that has no primitive value) no insert is issued at all.  Either way a
    [seller_id] put in the request body does not change what [newProduct]
    is. *)
Theorem created_product_belongs_to_caller (s s1 : wstate W) (req : HttpRequest)
    (user : JsVal) :
  authenticated W s req user s1 ->
  truthy (field (body req) "title") = true ->
  truthy (field (body req) "description") = true ->
  is_undefined (field (body req) "price") = false ->
  let run := exec W (post_api_posts req) s in
  (forall record,
     newProduct user (body req) = Some record ->
     issued run = [auth_getUser (bearer req); product_insert req record] /\
     field record "seller_id" = field user "id") /\
  (newProduct user (body req) = None ->
     issued run = [auth_getUser (bearer req)] /\
     outcome run = Uncaught conversion_error) /\
  forall supplied,
    newProduct user (JObj (("seller_id", supplied) :: body_fields req)) =
    newProduct user (body req).
Proof.
  intros Hauth Htitle Hdescription Hprice run; subst run.
  open_hyps; subst. unfold product_insert, post_api_posts.
  split; [| split; [| intros supplied; reflexivity]].
  - intros record Hrecord. split; [start; walk; leaf |].
    unfold newProduct in Hrecord.
    destruct (parseFloat (field (body req) "price")) as [price |];
      [| discriminate Hrecord].
    injection Hrecord as <-. reflexivity.
  - intros Hthrows. start; walk; leaf.
Qed.

(** C6, amended.  [POST /api/posts] by an authenticated caller:
    - when [title] or [description] is missing, or [price] is [undefined],
      the handler answers 400 and issues no insert;
    - a price of zero is not [undefined], so it is accepted;
    - otherwise, when [parseFloat(price)] gives a value, the handler issues
      the insert of [newProduct], in which [price] is that value,
      [image_url] and [category] are [null] when absent, [stock_quantity]
      is 0 when absent, and [is_active] is [true] when absent and the
      supplied value, as it is, otherwise;
    - when the store answers the insert with the created rows and no error,
      the handler answers 201 with the first of them as [product]. *)
Theorem create_product_validates_and_defaults (s s1 : wstate W) (req : HttpRequest)
    (user : JsVal) :
  authenticated W s req user s1 ->
  let b := body req in
  let run := exec W (post_api_posts req) s in
  (truthy (field b "title") = false \/ truthy (field b "description") = false \/
   is_undefined (field b "price") = true ->
     outcome run =
       Done (respond 400
               (JObj ["error" :- JStr "Missing required fields: title, description, price"])) /\
     issued run = [auth_getUser (bearer req)]) /\
  is_undefined JZero = false /\
  (forall price, parseFloat (field b "price") = Some price ->
     exists record, newProduct user b = Some record) /\
  forall record,
    newProduct user b = Some record ->
    (truthy (field b "title") = true -> truthy (field b "description") = true ->
     is_undefined (field b "price") = false ->
       issued run = [auth_getUser (bearer req); product_insert req record] /\
       forall s2 created others error,
         store_answers W s1 (product_insert req record) (JArr (created :: others)) error s2 ->
         truthy error = false ->
         is_array (created :: others) ->
         outcome run =
           Done (respond 201 (JObj ["message" :- JStr "Product created successfully";
                                    "product" :- created]))) /\
    parseFloat (field b "price") = Some (field record "price") /\
    (field b "image_url" = JUndefined -> field record "image_url" = JNull) /\
    (field b "category" = JUndefined -> field record "category" = JNull) /\
    (field b "stock_quantity" = JUndefined -> field record "stock_quantity" = JZero) /\
    (field b "is_active" = JUndefined -> field record "is_active" = JBool true) /\
    (is_undefined (field b "is_active") = false ->
       field record "is_active" = field b "is_active").
Proof.
  intros Hauth b run; subst b run.
  open_hyps; subst. unfold product_insert, post_api_posts.
  split; [| split; [| split]].
  - intros [Htitle | [Hdescription | Hprice]]; start; walk; leaf.
  - reflexivity.
  - intros price Hparsed. unfold newProduct. rewrite Hparsed. eexists; reflexivity.
  - intros record Hrecord.
    split.
    + intros Htitle Hdescription Hprice. split.
      * start; walk; leaf.
      * intros s2 created others error Hinsert Hnoerr Harray.
        destruct (non_empty_array Harray) as [_ Hsome].
        open_hyps; subst. start; walk; leaf.
    + unfold newProduct in Hrecord.
      destruct (parseFloat (field (body req) "price")) as [price |];
        [| discriminate Hrecord].
      injection Hrecord as <-.
      split; [reflexivity |].
      repeat match goal with |- _ /\ _ => split end.
      * intros Habsent. cbn in *. rewrite Habsent. reflexivity.
      * intros Habsent. cbn in *. rewrite Habsent. reflexivity.
      * intros Habsent. cbn in *. rewrite Habsent. reflexivity.
      * intros Habsent. cbn in *. rewrite Habsent. reflexivity.
      * intros Hgiven. cbn in *. rewrite Hgiven. reflexivity.
Qed.

(** C7.  [GET /api/seller-stats] by an authenticated caller, when the store
    answers the query for the caller's products with the rows [rows] and no
    error, and the clock reads [t]: the handler answers 200 and the
    [statistics] of the response are those of [expected_statistics]:
    [totalProducts] the number of rows, [activeProducts] the number with
    [is_active] true, [inactiveProducts] their difference,
    [outOfStockProducts] the number with [stock_quantity] equal to 0,
    [totalInventoryValue] the sum of [price * stock_quantity] over the rows,
    and [recentProducts] the number of rows whose [created_at] is strictly
    later than [t] moved back seven days. *)
Theorem seller_statistics_computed (s s1 s2 s3 : wstate W) (req : HttpRequest)
    (user error : JsVal) (rows : list ProductRow) (t : float) :
  authenticated W s req user s1 ->
  store_answers W s1 (statistics_query user) (JArr (List.map row_json rows)) error s2 ->
  truthy error = false ->
  wclock W s2 = (t, s3) ->
  let run := exec W (get_api_seller_stats req) s in
  exists response,
    outcome run = Done response /\
    status response = 200%Z /\
    field (json response) "statistics" = expected_statistics rows t.
Proof.
  intros Hauth Hrows Hnoerr Hclock run; subst run.
  open_hyps; subst. unfold statistics_query, get_api_seller_stats in *.
  start; walk.
  eexists; repeat split; reflexivity.
Qed.

End Products.

Section Profile.
Context {B : Builtins}.
Variable W : World.

(** C9, amended.  [GET /api/auth/profile] by an authenticated caller, when
    the profile lookup brings no profile (it is rejected, or resolves
    without a row or with an error): the handler still answers 200, with
    [username], [avatar_url] and [google_id] taken from the identity
    metadata ([full_name], [avatar_url], [provider_id]), [website] the empty
    string, and the identity's [created_at], [last_sign_in_at] and
    [email_confirmed_at]. *)
Theorem profile_read_without_profile (s s1 s2 : wstate W) (req : HttpRequest)
    (user : JsVal) (o : Settled) :
  authenticated W s req user s1 ->
  wcall W s1 (profile_lookup user) = (Some o, s2) ->
  no_profile o ->
  let run := exec W (get_api_auth_profile req) s in
  outcome run = Done (respond 200 (JObj ["user" :- identity_profile user])) /\
  issued run = [auth_getUser (bearer req); profile_lookup user] /\
  final run = s2.
Proof.
  intros Hauth Hlookup Hnone run; subst run.
  open_hyps; subst. unfold profile_lookup, get_api_auth_profile in *.
  destruct o as [reply' | reason]; cbn in Hnone.
  - destruct Hnone as [Hnull | [Hrow | Herr]]; start; walk; leaf.
    rewrite Herr. cbn [negb]. rewrite Bool.andb_false_r. reflexivity.
  - start; walk; leaf.
Qed.

End Profile.

Section Upstream.
Context {B : Builtins}.
Variable W : World.
Variable FRONTEND_URL : JsVal.

Lemma truthy_not_nullish (v : JsVal) : truthy v = true -> nullish v = false.
Proof. destruct v; cbn; congruence. Qed.

Lemma opt_field_truthy (v : JsVal) (k : string) :
  truthy v = true -> opt_field v k = field v k.
Proof. intros H. unfold opt_field. rewrite (truthy_not_nullish _ H). reflexivity. Qed.

(** At the end of a path: the exchange in question is one of those of the
    path; either what the path knows of its reply rules out an error, or the
    call is tolerated, or the path ends in the response of its treatment. *)
Ltac policy_leaf :=
  let rq := fresh "rq" in
  let reply := fresh "reply" in
  let Hin := fresh "Hin" in
  let Hwf := fresh "Hwf" in
  intros rq reply Hin Hwf;
  cbn [In exchanges app] in Hin;
  repeat match type of Hin with
         | _ \/ _ => destruct Hin as [Hin | Hin]
         end;
  first
    [ contradiction
    | discriminate Hin
    | injection Hin as <- <-;
      destruct Hwf as (Hwf1 & Hwf2 & Hwf3);
      first
        [ congruence
        | exact I
        | eexists; repeat split;
          first [ reflexivity
                | let Hd := fresh "Hd" in
                  intros Hd; cbn in Hd;
                  first [ discriminate Hd
                        | cbn; try rewrite opt_field_truthy by assumption;
                          reflexivity ] ] ] ].

Ltac policy := start; walk; policy_leaf.

Lemma products_policy (req : HttpRequest) (s : wstate W) :
  follows_policy GetPosts (exec W (get_api_posts req) s) /\
  follows_policy PostPosts (exec W (post_api_posts req) s) /\
  follows_policy GetMyProducts (exec W (get_api_my_products req) s) /\
  follows_policy PutMyProducts (exec W (put_api_my_products req) s) /\
  follows_policy DeleteMyProducts (exec W (delete_api_my_products req) s) /\
  follows_policy GetSellerStats (exec W (get_api_seller_stats req) s).
Proof.
  repeat split.
  - unfold get_api_posts. policy.
  - unfold post_api_posts. policy.
  - unfold get_api_my_products. policy.
  - unfold put_api_my_products. policy.
  - unfold delete_api_my_products. policy.
  - unfold get_api_seller_stats. policy.
Qed.

Lemma cart_policy (req : HttpRequest) (s : wstate W) :
  follows_policy GetCart (exec W (get_api_cart req) s) /\
  follows_policy PostCart (exec W (post_api_cart req) s) /\
  follows_policy PutCart (exec W (put_api_cart req) s) /\
  follows_policy DeleteCartItem (exec W (delete_api_cart_item req) s) /\
  follows_policy DeleteCart (exec W (delete_api_cart req) s).
Proof.
  repeat split.
  - unfold get_api_cart. policy.
  - unfold post_api_cart. policy.
  - unfold put_api_cart. policy.
  - unfold delete_api_cart_item. policy.
  - unfold delete_api_cart. policy.
Qed.

Lemma auth_policy (req : HttpRequest) (s : wstate W) :
  follows_policy Register (exec W (post_api_auth_register req) s) /\
  follows_policy Login (exec W (post_api_auth_login req) s) /\
  follows_policy MagicLink (exec W (post_api_auth_magic_link FRONTEND_URL req) s) /\
  follows_policy Google (exec W (post_api_auth_google FRONTEND_URL req) s) /\
  follows_policy Session (exec W (get_api_auth_session req) s) /\
  follows_policy Logout (exec W (post_api_auth_logout req) s) /\
  follows_policy GetProfile (exec W (get_api_auth_profile req) s) /\
  follows_policy PutProfile (exec W (put_api_auth_profile req) s) /\
  follows_policy Health (exec W (get_api_health req) s).
Proof.
  repeat split.
  - unfold post_api_auth_register. policy.
  - unfold post_api_auth_login. policy.
  - unfold post_api_auth_magic_link. policy.
  - unfold post_api_auth_google. policy.
  - unfold get_api_auth_session. policy.
  - unfold post_api_auth_logout. policy.
  - unfold get_api_auth_profile. policy.
  - unfold put_api_auth_profile. policy.
  - unfold get_api_health. policy.
Qed.

(** C8, amended.  For every route, every request and every behaviour of the
    platform: when a call of the handler resolves to a reply that reports an
    error, and the call is not one whose errors the handler tolerates, that
    call is the last one of the run and the handler answers with the status
    of [upstream_treatment] (400 for every call but token resolution and
    password sign-in, which answer 401, and the single-row lookups by id,
    which answer 404), with the upstream message as [details] except in the
    token guards of the session and profile routes. *)
Theorem upstream_errors_follow_policy (r : Route) (req : HttpRequest) (s : wstate W) :
  follows_policy r (exec W (handler FRONTEND_URL r req) s).
Proof.
  destruct r; cbn [handler];
    first [ apply products_policy | apply cart_policy | apply auth_policy ].
Qed.

End Upstream.


(** * Further properties of the handlers *)

(** ** Order of array and string lengths as numbers *)

Lemma ltb_irrefl (x : float) : PrimFloat.ltb x x = false.
Proof.
  rewrite ltb_spec. unfold SFltb.
  destruct (Prim2SF x) as [sg | sg | | sg m e]; cbn.
  - reflexivity.
  - destruct sg; reflexivity.
  - reflexivity.
  - rewrite Z.compare_refl.
    destruct sg; cbn; rewrite ?Pos.compare_cont_refl; reflexivity.
Qed.

Lemma digits2_pos_lower (m : positive) :
  (2 ^ (Zpos (digits2_pos m) - 1) <= Zpos m)%Z.
Proof.
  induction m as [p IH | p IH |]; cbn [digits2_pos].
  - rewrite Pos2Z.inj_succ.
    replace (Z.succ (Zpos (digits2_pos p)) - 1)%Z with (Z.succ (Zpos (digits2_pos p) - 1))%Z by lia.
    rewrite Z.pow_succ_r by lia. lia.
  - rewrite Pos2Z.inj_succ.
    replace (Z.succ (Zpos (digits2_pos p)) - 1)%Z with (Z.succ (Zpos (digits2_pos p) - 1))%Z by lia.
    rewrite Z.pow_succ_r by lia. lia.
  - cbn. lia.
Qed.

Lemma digits2_pos_upper (m : positive) : (Zpos m < 2 ^ Zpos (digits2_pos m))%Z.
Proof.
  induction m as [p IH | p IH |]; cbn [digits2_pos].
  - rewrite Pos2Z.inj_succ, Z.pow_succ_r by lia. lia.
  - rewrite Pos2Z.inj_succ, Z.pow_succ_r by lia. lia.
  - cbn. lia.
Qed.

Lemma compare_iter_xO (a b d : positive) :
  (Pos.iter xO a d ?= Pos.iter xO b d)%positive = (a ?= b)%positive.
Proof.
  induction d as [| d IH] using Pos.peano_ind.
  - reflexivity.
  - rewrite !Pos.iter_succ. cbn. exact IH.
Qed.

Lemma normalize_exact (m : positive) :
  (Zpos m < 2 ^ 53)%Z ->
  binary_normalize prec emax (Zpos m) 0 false =
  S754_finite false (aligned m) (Zpos (digits2_pos m) - 53).
Proof.
  intros Hm.
  pose proof (@digits2_pos_bound m 53%Z Hm ltac:(lia)) as HD.
  unfold binary_normalize, binary_round, shl_align, aligned.
  set (D := digits2_pos m) in *.
  assert (Hfexp : fexp prec emax (Zpos D + 0) = (Zpos D - 53)%Z).
  { unfold fexp, emin, prec, emax. lia. }
  rewrite Hfexp.
  destruct (Zpos D - 53 - 0)%Z as [| d | d] eqn:Hd; try lia.
  - assert (HD53 : (53 - Zpos D = 0)%Z) by lia. rewrite HD53.
    unfold binary_round_aux, shr_fexp.
    cbn [Zdigits2]. fold D.
    rewrite Hfexp. replace (Zpos D - 53 - 0)%Z with 0%Z by lia.
    cbn [shr shr_record_of_loc shr_m loc_of_shr_record round_nearest_even Zdigits2].
    fold D. rewrite Hfexp. replace (Zpos D - 53 - 0)%Z with 0%Z by lia.
    cbn [shr shr_m].
    replace (Zpos D - 53)%Z with 0%Z by lia. reflexivity.
  - assert (HDd : (53 - Zpos D = Zpos d)%Z) by lia. rewrite HDd.
    unfold binary_round_aux, shr_fexp.
    cbn [Zdigits2]. rewrite digits2_pos_iter. fold D.
    assert (Hfexp' : fexp prec emax (Zpos (D + d) + (Zpos D - 53)) = (Zpos D - 53)%Z).
    { unfold fexp, emin, prec, emax. lia. }
    rewrite Hfexp'. rewrite Z.sub_diag.
    cbn [shr shr_record_of_loc shr_m loc_of_shr_record round_nearest_even Zdigits2].
    rewrite digits2_pos_iter. fold D. rewrite Hfexp', Z.sub_diag.
    cbn [shr shr_m].
    assert (Hle : (Zpos D - 53 <=? emax - prec)%Z = true).
    { apply Z.leb_le. unfold emax, prec. lia. }
    rewrite Hle. reflexivity.
Qed.

Lemma Prim2SF_num_of_nat (n : nat) :
  (Z.of_nat n < 2 ^ 53)%Z ->
  Prim2SF (num_of_nat n) =
  match Z.of_nat n with
  | Zpos m => S754_finite false (aligned m) (Zpos (digits2_pos m) - 53)
  | _ => S754_zero false
  end.
Proof.
  intros Hbound. unfold num_of_nat.
  rewrite of_uint63_spec, Uint63.of_Z_spec, Z.mod_small.
  - destruct (Z.of_nat n) as [| m | m] eqn:Hn; try lia.
    + reflexivity.
    + apply normalize_exact. exact Hbound.
  - split; [lia |].
    apply Z.lt_trans with (2 ^ 53)%Z; [exact Hbound | reflexivity].
Qed.

Lemma aligned_compare (a b : positive) :
  digits2_pos a = digits2_pos b ->
  (aligned a ?= aligned b)%positive = (a ?= b)%positive.
Proof.
  intros HD. unfold aligned. rewrite HD.
  destruct (53 - Zpos (digits2_pos b))%Z; try reflexivity.
  apply compare_iter_xO.
Qed.

(** Conversion keeps the order of the integers below 2^53. *)
Lemma num_of_nat_ltb (n k : nat) :
  (Z.of_nat n < 2 ^ 53)%Z -> (Z.of_nat k < 2 ^ 53)%Z ->
  PrimFloat.ltb (num_of_nat n) (num_of_nat k) = (n <? k)%nat.
Proof.
  intros Hn Hk.
  rewrite ltb_spec, (@Prim2SF_num_of_nat n Hn), (@Prim2SF_num_of_nat k Hk).
  unfold SFltb.
  destruct (Z.of_nat n) as [| a | a] eqn:En; try lia;
    destruct (Z.of_nat k) as [| b | b] eqn:Ek; try lia; cbn [SFcompare].
  - symmetry. apply Nat.ltb_ge. lia.
  - symmetry. apply Nat.ltb_lt. lia.
  - symmetry. apply Nat.ltb_ge. lia.
  - pose proof (digits2_pos_lower a) as La. pose proof (digits2_pos_upper a) as Ua.
    pose proof (digits2_pos_lower b) as Lb. pose proof (digits2_pos_upper b) as Ub.
    destruct (Z.compare_spec (Zpos (digits2_pos a) - 53) (Zpos (digits2_pos b) - 53))
      as [He | He | He].
    + assert (HD : digits2_pos a = digits2_pos b) by lia.
      change (Pos.compare_cont Eq (aligned a) (aligned b))
        with (aligned a ?= aligned b)%positive.
      rewrite (@aligned_compare a b HD).
      destruct (Pos.compare_spec a b) as [Hab | Hab | Hab]; symmetry.
      * apply Nat.ltb_ge. lia.
      * apply Nat.ltb_lt. lia.
      * apply Nat.ltb_ge. lia.
    + symmetry. apply Nat.ltb_lt.
      assert (2 ^ Zpos (digits2_pos a) <= 2 ^ (Zpos (digits2_pos b) - 1))%Z
        by (apply Z.pow_le_mono_r; lia).
      lia.
    + symmetry. apply Nat.ltb_ge.
      assert (2 ^ Zpos (digits2_pos b) <= 2 ^ (Zpos (digits2_pos a) - 1))%Z
        by (apply Z.pow_le_mono_r; lia).
      lia.
Qed.

Section Lengths.
Context {B : Builtins}.

(** [s.length < k] and [s.length > k] for a string [s]. *)
Lemma length_below (p : string) (k : nat) :
  (Z.of_nat (String.length p) < 2 ^ 53)%Z ->
  (Z.of_nat k < 2 ^ 53)%Z ->
  js_lt (field (JStr p) "length") (JNum (num_of_nat k)) = Some (String.length p <? k)%nat.
Proof.
  intros Hp Hk. cbn. f_equal. apply num_of_nat_ltb; assumption.
Qed.

Lemma length_above (p : string) (k : nat) :
  (Z.of_nat (String.length p) < 2 ^ 53)%Z ->
  (Z.of_nat k < 2 ^ 53)%Z ->
  js_gt (field (JStr p) "length") (JNum (num_of_nat k)) = Some (k <? String.length p)%nat.
Proof.
  intros Hp Hk. cbn. f_equal. apply num_of_nat_ltb; assumption.
Qed.

End Lengths.

(** ** What every handler keeps to *)

Section Computations.
Context {B : Builtins}.
Variable W : World.

Lemma throws_errors_bind (A C : Type) (p : Prog A) (f : A -> Prog C) :
  throws_errors p -> (forall a, throws_errors (f a)) -> throws_errors (bind p f).
Proof.
  induction p as [a | e | rq k IH | k IH]; cbn; intros Hp Hf; auto.
Qed.

Lemma throws_errors_member (v : JsVal) (k : string) : throws_errors (member v k).
Proof. unfold member. destruct (nullish v); cbn; reflexivity || exact I. Qed.

Lemma throws_errors_lift (A : Type) (c : option A) : throws_errors (lift c).
Proof. destruct c; cbn; reflexivity || exact I. Qed.

Lemma throws_errors_filter_p (f : JsVal -> Prog bool) (l : list JsVal) :
  (forall p, throws_errors (f p)) -> throws_errors (filter_p f l).
Proof.
  intros Hf. induction l as [| p rest IH]; cbn; [exact I |].
  apply throws_errors_bind; [apply Hf | intros keep].
  apply throws_errors_bind; [exact IH | intros kept; exact I].
Qed.

Lemma throws_errors_reduce_p (f : JsVal -> JsVal -> Prog JsVal) (l : list JsVal)
    (acc : JsVal) :
  (forall a p, throws_errors (f a p)) -> throws_errors (reduce_p f l acc).
Proof.
  intros Hf. revert acc; induction l as [| p rest IH]; intros acc; cbn; [exact I |].
  apply throws_errors_bind; [apply Hf | intros acc'; apply IH].
Qed.

Lemma throws_errors_statistics (products : JsVal) : throws_errors (statistics products).
Proof.
  unfold statistics.
  apply throws_errors_bind; [apply throws_errors_member | intros total].
  apply throws_errors_bind; [destruct products; cbn; reflexivity || exact I | intros rows].
  apply throws_errors_bind;
    [apply throws_errors_filter_p; intros p; apply throws_errors_bind;
       [apply throws_errors_member | intros; exact I] | intros active].
  apply throws_errors_bind; [apply throws_errors_lift | intros inactive].
  apply throws_errors_bind;
    [apply throws_errors_filter_p; intros p; apply throws_errors_bind;
       [apply throws_errors_member | intros; exact I] | intros out].
  apply throws_errors_bind.
  - apply throws_errors_reduce_p; intros sum p.
    apply throws_errors_bind; [apply throws_errors_member | intros price].
    apply throws_errors_bind; [apply throws_errors_member | intros stock].
    apply throws_errors_bind;
      [apply throws_errors_lift | intros value; apply throws_errors_lift].
  - intros value. cbn. intros t.
    apply throws_errors_bind;
      [apply throws_errors_filter_p; intros p; apply throws_errors_bind;
         [apply throws_errors_member | intros created; apply throws_errors_bind;
            [apply throws_errors_lift | intros; exact I]] | intros recent; exact I].
Qed.

(** Such a program ends at once, with a value or with an error object. *)
Lemma wp_throws_errors (A : Type) (p : Prog A) (s : wstate W) (Q : Run W A -> Prop) :
  throws_errors p ->
  (forall a s', Q {| outcome := Done a; exchanges := []; final := s' |}) ->
  (forall e s', nullish e = false ->
                Q {| outcome := Uncaught e; exchanges := []; final := s' |}) ->
  wp W p s Q.
Proof.
  unfold wp. revert s; induction p as [a | e | rq k IH | k IH]; intros s Hp Hd Hu; cbn in *.
  - apply Hd.
  - apply Hu, Hp.
  - contradiction.
  - destruct (wclock W s) as [t s']. apply IH; auto.
Qed.

End Computations.

Ltac in_list := repeat first [ left; reflexivity | right ].

Ltac impossible_path :=
  match goal with
  | F : nullish (type_error _) = true |- _ => discriminate F
  end.

Ltac statuses_leaf :=
  let response := fresh "response" in
  let H := fresh "H" in
  intros response H;
  first [ discriminate H
        | injection H as <-; cbn; tauto ].

Ltac guard_leaf :=
  first
    [ reflexivity
    | exact I
    | split; [reflexivity |];
      split; [assumption |];
      first [ left; reflexivity
            | right; eexists; split; [reflexivity |]; split; assumption ] ].

Ltac rejections_leaf :=
  let rq := fresh "rq" in
  let reason := fresh "reason" in
  let Hin := fresh "Hin" in
  let Hnn := fresh "Hnn" in
  let Hsw := fresh "Hsw" in
  let Hpp := fresh "Hpp" in
  intros rq reason Hin Hnn Hsw Hpp;
  cbn [In] in Hin;
  repeat match type of Hin with
         | _ \/ _ => destruct Hin as [Hin | Hin]
         end;
  first
    [ contradiction
    | discriminate Hin
    | injection Hin as <- <-;
      first [ discriminate Hsw
            | specialize (Hpp eq_refl); discriminate Hpp
            | congruence
            | reflexivity ] ].

Ltac escapes_leaf :=
  let Hr := fresh "Hr" in
  let Hrej := fresh "Hrej" in
  let e := fresh "e" in
  let Hout := fresh "Hout" in
  intros Hr Hrej e Hout;
  first
    [ discriminate Hout
    | contradiction Hr; reflexivity
    | match goal with
      | F : nullish ?x = true |- _ =>
          assert (nullish x = false) by (eapply Hrej; cbn [In]; in_list);
          congruence
      end ].

Ltac sound_leaf :=
  cbn [issued exchanges outcome final List.map fst snd app];
  first
    [ impossible_path
    | constructor;
      cbn [guarded issued exchanges outcome final List.map fst snd app guard_first];
      [ statuses_leaf
      | cbn; lia
      | reflexivity
      | repeat constructor
      | guard_leaf
      | rejections_leaf
      | escapes_leaf ] ].

Ltac soundness := start; walk; sound_leaf.

Section Soundness.
Context {B : Builtins}.
Variable W : World.
Variable FRONTEND_URL : JsVal.

Lemma products_sound (req : HttpRequest) (s : wstate W) :
  sound GetPosts req (exec W (get_api_posts req) s) /\
  sound PostPosts req (exec W (post_api_posts req) s) /\
  sound GetMyProducts req (exec W (get_api_my_products req) s) /\
  sound PutMyProducts req (exec W (put_api_my_products req) s) /\
  sound DeleteMyProducts req (exec W (delete_api_my_products req) s) /\
  sound GetSellerStats req (exec W (get_api_seller_stats req) s).
Proof.
  repeat match goal with |- _ /\ _ => split end.
  - unfold get_api_posts. soundness.
  - unfold post_api_posts. soundness.
  - unfold get_api_my_products. soundness.
  - unfold put_api_my_products. soundness.
  - unfold delete_api_my_products. soundness.
  - unfold get_api_seller_stats. set (computed := statistics).
    start; walk;
      try (subst computed; apply wp_throws_errors;
           [apply throws_errors_statistics | intros ? ? | intros ? ? ?]; walk);
      sound_leaf.
Qed.

Lemma cart_sound (req : HttpRequest) (s : wstate W) :
  sound GetCart req (exec W (get_api_cart req) s) /\
  sound PostCart req (exec W (post_api_cart req) s) /\
  sound PutCart req (exec W (put_api_cart req) s) /\
  sound DeleteCartItem req (exec W (delete_api_cart_item req) s) /\
  sound DeleteCart req (exec W (delete_api_cart req) s).
Proof.
  repeat match goal with |- _ /\ _ => split end.
  - unfold get_api_cart. soundness.
  - unfold post_api_cart. soundness.
  - unfold put_api_cart. soundness.
  - unfold delete_api_cart_item. soundness.
  - unfold delete_api_cart. soundness.
Qed.

Lemma auth_sound (req : HttpRequest) (s : wstate W) :
  sound Register req (exec W (post_api_auth_register req) s) /\
  sound Login req (exec W (post_api_auth_login req) s) /\
  sound MagicLink req (exec W (post_api_auth_magic_link FRONTEND_URL req) s) /\
  sound Google req (exec W (post_api_auth_google FRONTEND_URL req) s) /\
  sound Session req (exec W (get_api_auth_session req) s) /\
  sound Logout req (exec W (post_api_auth_logout req) s) /\
  sound GetProfile req (exec W (get_api_auth_profile req) s) /\
  sound PutProfile req (exec W (put_api_auth_profile req) s) /\
  sound Health req (exec W (get_api_health req) s).
Proof.
  repeat match goal with |- _ /\ _ => split end.
  - unfold post_api_auth_register. soundness.
  - unfold post_api_auth_login. soundness.
  - unfold post_api_auth_magic_link. soundness.
  - unfold post_api_auth_google. soundness.
  - unfold get_api_auth_session. soundness.
  - unfold post_api_auth_logout. soundness.
  - unfold get_api_auth_profile. soundness.
  - unfold put_api_auth_profile. soundness.
  - unfold get_api_health. soundness.
Qed.

Lemma handlers_sound (r : Route) (req : HttpRequest) (s : wstate W) :
  sound r req (exec W (handler FRONTEND_URL r req) s).
Proof.
  destruct r; cbn [handler];
    first [ apply products_sound | apply cart_sound | apply auth_sound ].
Qed.

End Soundness.

(** ** The token guard *)

Section Guard.
Context {B : Builtins}.
Variable W : World.
Variable FRONTEND_URL : JsVal.

Ltac unfold_handler :=
  cbn [handler];
  unfold post_api_posts, get_api_my_products, put_api_my_products,
    delete_api_my_products, get_api_seller_stats, get_api_cart, post_api_cart,
    put_api_cart, delete_api_cart_item, delete_api_cart, get_api_auth_session,
    get_api_auth_profile, put_api_auth_profile.

(** X1.  On every guarded route a request without a usable token is answered
    401 [No token provided], and nothing is asked of the platform. *)
Theorem no_token_no_request (r : Route) (req : HttpRequest) (s : wstate W) :
  guarded r = true ->
  truthy (bearer req) = false ->
  exec W (handler FRONTEND_URL r req) s =
  {| outcome := Done no_token_provided; exchanges := []; final := s |}.
Proof.
  intros Hg Hnone.
  destruct r; try discriminate Hg; unfold_handler; start; walk; reflexivity.
Qed.

(** X2.  On every guarded route, when the identity provider answers the token
    resolution with an error or without a user, the handler answers 401
    with the body of the route and issues nothing else. *)
Theorem unresolved_token_stops (r : Route) (req : HttpRequest) (s s' : wstate W)
    (reply : JsVal) :
  guarded r = true ->
  truthy (bearer req) = true ->
  answers W s (auth_getUser (bearer req)) reply s' ->
  nullish reply = false ->
  nullish (field reply "data") = false ->
  truthy (field reply "error") = true \/
  truthy (field (field reply "data") "user") = false ->
  exec W (handler FRONTEND_URL r req) s =
  {| outcome := Done (respond 401 (unresolved_token r (field reply "error")));
     exchanges := [(auth_getUser (bearer req), Some (Resolved reply))];
     final := s' |}.
Proof.
  intros Hg Htoken Hanswer Hreply Hdata Hbad. unfold answers in Hanswer.
  destruct Hbad as [Hbad | Hbad];
    destruct r; try discriminate Hg; unfold_handler; start; walk; reflexivity.
Qed.

End Guard.

(** ** The bearer token *)

Lemma split_on_word (w : string) :
  has_no_space w = true -> split_on " "%char w = [w].
Proof.
  induction w as [| c w IH]; cbn [has_no_space split_on]; intros Hw.
  - reflexivity.
  - apply Bool.andb_true_iff in Hw. destruct Hw as [Hc Hw].
    apply Bool.negb_true_iff in Hc. rewrite Hc, (IH Hw). reflexivity.
Qed.

Lemma split_on_words (w rest : string) :
  has_no_space w = true ->
  split_on " "%char (w ++ String " "%char rest) = w :: split_on " "%char rest.
Proof.
  induction w as [| c w IH]; cbn [has_no_space split_on String.append]; intros Hw.
  - reflexivity.
  - apply Bool.andb_true_iff in Hw. destruct Hw as [Hc Hw].
    apply Bool.negb_true_iff in Hc. rewrite Hc, (IH Hw). reflexivity.
Qed.

(** X3.  The token is the second word of the [Authorization] header, whatever
    the first word is and whatever follows the second; a header of one word,
    or no header, gives no token, and a header whose first space is followed
    by another space or by nothing gives the empty token, which the guard
    treats as no token. *)
Theorem token_is_the_second_word (req : HttpRequest) (scheme token more : string) :
  has_no_space scheme = true ->
  has_no_space token = true ->
  bearer (with_header (Some (scheme ++ " " ++ token)) req) = JStr token /\
  bearer (with_header (Some (scheme ++ " " ++ token ++ " " ++ more)) req) = JStr token /\
  bearer (with_header (Some scheme) req) = JUndefined /\
  bearer (with_header None req) = JUndefined /\
  truthy (bearer (with_header (Some (scheme ++ " ")) req)) = false /\
  truthy (bearer (with_header (Some (scheme ++ "  " ++ more)) req)) = false.
Proof.
  intros Hs Ht. unfold bearer, with_header; cbn [authorization].
  repeat split.
  - change (scheme ++ " " ++ token) with (scheme ++ String " "%char token).
    rewrite (@split_on_words scheme token Hs), (@split_on_word token Ht). reflexivity.
  - change (scheme ++ " " ++ token ++ " " ++ more)
      with (scheme ++ String " "%char (token ++ String " "%char more)).
    rewrite (@split_on_words scheme _ Hs), (@split_on_words token more Ht). reflexivity.
  - rewrite (@split_on_word scheme Hs). reflexivity.
  - change (scheme ++ " ") with (scheme ++ String " "%char EmptyString).
    rewrite (@split_on_words scheme _ Hs). reflexivity.
  - change (scheme ++ "  " ++ more)
      with (scheme ++ String " "%char (EmptyString ++ String " "%char more)).
    rewrite (@split_on_words scheme _ Hs), (@split_on_words EmptyString more eq_refl).
    reflexivity.
Qed.

(** ** Registration, login and logout *)

Section Accounts.
Context {B : Builtins}.
Variable W : World.
Variable FRONTEND_URL : JsVal.

(** X4.  [POST /api/auth/register], with an email: a password of one to five
    characters is answered 400 before anything is asked of the identity
    provider; a password of six characters or more, or a password without a
    [length] (a number, say), leads to exactly one sign-up call, which
    carries the email and password as received and empty profile
    metadata. *)
Theorem register_checks_the_length (req : HttpRequest) (s : wstate W) :
  truthy (field (body req) "email") = true ->
  let password := field (body req) "password" in
  let run := exec W (post_api_auth_register req) s in
  (forall p, password = JStr p -> p <> EmptyString ->
             (Z.of_nat (String.length p) < 2 ^ 53)%Z ->
             if (String.length p <? 6)%nat
             then run = {| outcome := Done password_too_short; exchanges := []; final := s |}
             else issued run = [sign_up req]) /\
  (truthy password = true -> field password "length" = JUndefined ->
   issued run = [sign_up req]).
Proof.
  intros Hemail password run. subst password run. split.
  - intros p Hp Hne Hlen.
    assert (Htruthy : truthy (field (body req) "password") = true).
    { rewrite Hp. cbn. destruct p; [contradiction Hne; reflexivity | reflexivity]. }
    pose proof (@length_below _ p 6 Hlen ltac:(cbn; lia)) as Hlt.
    change (JNum (num_of_nat 6)) with (JNum 6) in Hlt.
    rewrite <- Hp in Hlt.
    destruct (String.length p <? 6)%nat;
      unfold sign_up, password_too_short, post_api_auth_register; start; walk; leaf.
  - intros Htruthy Hnone.
    assert (Hlt : js_lt (field (field (body req) "password") "length") (JNum 6)
                  = Some false).
    { rewrite Hnone. reflexivity. }
    unfold sign_up, post_api_auth_register; start; walk; leaf.
Qed.

(** X5.  [POST /api/auth/login]: without an email or a password the answer is
    400 and nothing is asked of the identity provider; with both, exactly
    one password sign-in is issued with the credentials as received (no
    length check), and when it resolves without an error the response is the
    summary of the user and the session as the provider returned it. *)
Theorem login_delegates_to_the_provider (req : HttpRequest) (s : wstate W) :
  let run := exec W (post_api_auth_login req) s in
  (truthy (field (body req) "email") = false \/
   truthy (field (body req) "password") = false ->
   run = {| outcome := Done credentials_required; exchanges := []; final := s |}) /\
  (truthy (field (body req) "email") = true ->
   truthy (field (body req) "password") = true ->
   issued run = [sign_in req] /\
   forall reply s',
     answers W s (sign_in req) reply s' ->
     nullish reply = false ->
     nullish (field reply "data") = false ->
     truthy (field reply "error") = false ->
     run = {| outcome := Done (logged_in (field reply "data"));
              exchanges := [(sign_in req, Some (Resolved reply))];
              final := s' |}).
Proof.
  intros run; subst run. split.
  - intros [Hmissing | Hmissing];
      unfold credentials_required, post_api_auth_login; start; walk; leaf.
  - intros Hemail Hpassword. split.
    + unfold sign_in, post_api_auth_login; start; walk; leaf.
    + intros reply s' Hanswer Hreply Hdata Herror. unfold answers in Hanswer.
      unfold sign_in, logged_in, post_api_auth_login in *; start; walk; leaf.
Qed.

(** X6.  [POST /api/auth/logout] never resolves the token: without a token it
    answers 200 and asks nothing; with any token, valid or not, it issues
    one sign-out of the server's own client and nothing else, and answers
    200 when that reports no error. *)
Theorem logout_never_checks_the_token (req : HttpRequest) (s : wstate W) :
  let run := exec W (post_api_auth_logout req) s in
  (truthy (bearer req) = false ->
   run = {| outcome := Done logged_out; exchanges := []; final := s |}) /\
  (truthy (bearer req) = true ->
   issued run = [auth_signOut] /\
   forall reply s',
     answers W s auth_signOut reply s' ->
     nullish reply = false ->
     truthy (field reply "error") = false ->
     run = {| outcome := Done logged_out;
              exchanges := [(auth_signOut, Some (Resolved reply))];
              final := s' |}).
Proof.
  intros run; subst run. split.
  - intros Hnone. unfold logged_out, post_api_auth_logout; start; walk; leaf.
  - intros Htoken. split.
    + unfold post_api_auth_logout; start; walk; leaf.
    + intros reply s' Hanswer Hreply Herror. unfold answers in Hanswer.
      unfold logged_out, post_api_auth_logout; start; walk; leaf.
Qed.

(** X7.  The redirect targets.  The Google sign-in, whatever the body
    holds, sends [FRONTEND_URL] followed by [/auth/callback] and falls back
    to [http://localhost:5173] when [FRONTEND_URL] is not set; the magic
    link, for a body with an email, sends [FRONTEND_URL] followed by
    [/auth/callback] without a fallback, so that it points at the text
    [undefined] when [FRONTEND_URL] is not set. *)
Theorem redirect_targets (req : HttpRequest) (s : wstate W) :
  (forall target,
     template [js_or FRONTEND_URL (JStr "http://localhost:5173"); JStr "/auth/callback"]
       = Some target ->
     issued (exec W (post_api_auth_google FRONTEND_URL req) s) = [google_sign_in target]) /\
  (truthy (field (body req) "email") = true ->
   forall target,
     template [FRONTEND_URL; JStr "/auth/callback"] = Some target ->
     issued (exec W (post_api_auth_magic_link FRONTEND_URL req) s) = [magic_link req target]) /\
  (forall url,
     FRONTEND_URL = JStr url -> url <> EmptyString ->
     template [js_or FRONTEND_URL (JStr "http://localhost:5173"); JStr "/auth/callback"]
       = Some (JStr (url ++ "/auth/callback")) /\
     template [FRONTEND_URL; JStr "/auth/callback"] = Some (JStr (url ++ "/auth/callback"))) /\
  (FRONTEND_URL = JUndefined ->
     template [js_or FRONTEND_URL (JStr "http://localhost:5173"); JStr "/auth/callback"]
       = Some (JStr "http://localhost:5173/auth/callback") /\
     template [FRONTEND_URL; JStr "/auth/callback"] = Some (JStr "undefined/auth/callback")).
Proof.
  split; [| split; [| split]].
  - intros target Htarget.
    unfold google_sign_in, post_api_auth_google; start; walk; leaf.
  - intros Hemail target Htarget.
    unfold magic_link, post_api_auth_magic_link; start; walk; leaf.
  - intros url -> Hurl. destruct url; [contradiction Hurl; reflexivity |].
    split; reflexivity.
  - intros ->. split; reflexivity.
Qed.

End Accounts.

(** ** The cart, beyond adding and removing *)

Section CartQuantities.
Context {B : Builtins}.
Variable W : World.

Lemma js_gt_same_number (x : float) : js_gt (JNum x) (JNum x) = Some false.
Proof. cbn. f_equal. apply ltb_irrefl. Qed.

Lemma js_lt_same_number (x : float) : js_lt (JNum x) (JNum x) = Some false.
Proof. cbn. f_equal. apply ltb_irrefl. Qed.

Lemma asks_for_requested (req : HttpRequest) (quantity : JsVal) :
  asks_for req quantity -> requested_quantity (body req) = quantity.
Proof.
  unfold asks_for, requested_quantity.
  intros [[Habsent ->] | [Hgiven ->]].
  - rewrite Habsent. reflexivity.
  - rewrite Hgiven. reflexivity.
Qed.

(** X8.  [PUT /api/cart/:id] by an authenticated caller.  A missing or
    falsy quantity, or one below 1, is answered 400 before the store is
    asked anything, and a truthy quantity that cannot be compared with 1 (an
    object without a primitive value) is answered 500 at the same point.
    Otherwise the row is looked up by id and caller: a lookup that fails or
    finds nothing is answered 404; a quantity above the stock of the
    product, 400 with [available] and [requested]; in these cases nothing
    is written.  Otherwise exactly one update follows, of [quantity] alone,
    filtered on the row id and not on the caller. *)
Theorem cart_quantity_is_checked (s s1 : wstate W) (req : HttpRequest) (user : JsVal) :
  authenticated W s req user s1 ->
  let quantity := field (body req) "quantity" in
  let run := exec W (put_api_cart req) s in
  (truthy quantity = false \/ js_lt quantity JOne = Some true ->
   outcome run = Done (respond 400 (JObj ["error" :- JStr "Quantity must be at least 1"])) /\
   issued run = [auth_getUser (bearer req)] /\
   final run = s1) /\
  (truthy quantity = true -> js_lt quantity JOne = None ->
   outcome run = Done (respond 500 (JObj ["error" :- JStr "Internal server error";
                                          "details" :- JStr ToPrimitive_message])) /\
   issued run = [auth_getUser (bearer req)] /\
   final run = s1) /\
  (truthy quantity = true -> js_lt quantity JOne = Some false ->
   forall cartItem cartError s2,
     store_answers W s1 (cart_quantity_lookup req user) cartItem cartError s2 ->
     (truthy cartError = true \/ truthy cartItem = false ->
      outcome run = Done (respond 404 (JObj ["error" :- JStr "Cart item not found";
                                             "details" :- opt_field cartError "message"])) /\
      issued run = [auth_getUser (bearer req); cart_quantity_lookup req user]) /\
     (truthy cartError = false -> truthy cartItem = true ->
      nullish (field cartItem "products") = false ->
      let stock := field (field cartItem "products") "stock_quantity" in
      (js_gt quantity stock = Some true ->
       outcome run = Done (respond 400 (JObj ["error" :- JStr "Quantity exceeds available stock";
                                              "available" :- stock;
                                              "requested" :- quantity])) /\
       issued run = [auth_getUser (bearer req); cart_quantity_lookup req user]) /\
      (js_gt quantity stock = Some false ->
       issued run = [auth_getUser (bearer req); cart_quantity_lookup req user;
                     cart_quantity_update req] /\
       filtered_on "id" (cart_quantity_update req) = true /\
       filtered_on "user_id" (cart_quantity_update req) = false))).
Proof.
  intros Hauth quantity run; subst quantity run.
  open_hyps; subst. split; [| split].
  - intros [Hq | Hq]; unfold put_api_cart; start; walk; leaf.
  - intros Hq Hthrows. unfold put_api_cart; start; walk; leaf.
  - intros Hq Hone cartItem cartError s2 Hlookup.
    open_hyps; subst. unfold cart_quantity_lookup in *. split.
    + intros [Hbad | Hbad]; unfold put_api_cart; start; walk; leaf.
    + intros Hnoerr Hfound Hproducts. split.
      * intros Hover. unfold put_api_cart; start; walk; leaf.
      * intros Hfits. unfold cart_quantity_update, put_api_cart; start; walk; leaf.
Qed.

(** X9.  The stock limits are inclusive.  When the body asks for the number
    [x] and the product has [x] in stock, [PUT /api/cart/:id] (for [x] at
    least 1) goes on to its update and [POST /api/cart] goes on to look for
    the caller's cart row: neither answers "exceeds available stock" or
    "insufficient stock". *)
Theorem stock_limits_are_inclusive (x : float) (s s1 s2 : wstate W) (req : HttpRequest)
    (user : JsVal) :
  authenticated W s req user s1 ->
  field (body req) "quantity" = JNum x ->
  (truthy (JNum x) = true -> js_lt (JNum x) JOne = Some false ->
   forall cartItem cartError,
     store_answers W s1 (cart_quantity_lookup req user) cartItem cartError s2 ->
     truthy cartError = false ->
     truthy cartItem = true ->
     nullish (field cartItem "products") = false ->
     field (field cartItem "products") "stock_quantity" = JNum x ->
     issued (exec W (put_api_cart req) s) =
       [auth_getUser (bearer req); cart_quantity_lookup req user; cart_quantity_update req]) /\
  (truthy (field (body req) "product_id") = true ->
   forall product productError,
     store_answers W s1 (product_lookup req) product productError s2 ->
     truthy productError = false ->
     truthy product = true ->
     truthy (field product "is_active") = true ->
     field product "stock_quantity" = JNum x ->
     exists rest,
       issued (exec W (post_api_cart req) s) =
         auth_getUser (bearer req) :: product_lookup req :: existing_lookup req user :: rest).
Proof.
  intros Hauth Hq.
  open_hyps; subst. split.
  - intros Htruthy Hone cartItem cartError Hlookup Hnoerr Hfound Hproducts Hstock.
    open_hyps; subst.
    assert (Hfits : js_gt (field (body req) "quantity")
                      (field (field (field reply0 "data") "products") "stock_quantity")
                    = Some false).
    { rewrite Hq, Hstock. apply js_gt_same_number. }
    rewrite <- Hq in Htruthy, Hone. clear Hq Hstock.
    unfold cart_quantity_lookup, cart_quantity_update, put_api_cart in *.
    start; walk; leaf.
  - intros Hid product productError Hlookup Hnoerr Hfound Hactive Hstock.
    open_hyps; subst.
    assert (Hfits : js_lt (field (field reply0 "data") "stock_quantity")
                      (requested_quantity (body req)) = Some false).
    { unfold requested_quantity. rewrite Hstock, Hq. apply js_lt_same_number. }
    clear Hq Hstock.
    unfold product_lookup, existing_lookup, post_api_cart in *.
    start; walk; cbn [issued exchanges List.map fst app]; eexists; reflexivity.
Qed.

(** X28.  [POST /api/cart] by an authenticated caller for a product that is
    found, active and in stock for the quantity the body asks for (1 when
    it names none), once the store has answered the lookup of the caller's
    cart row for that product with [existingItem] and [existingError]:
    - when no row came back, the handler issues exactly one write, the
      insert of one row with the caller's id, the product id and that
      quantity;
    - when a row came back, [newQuantity] is JavaScript's
      [existingItem.quantity + quantity]: the sum of the two numbers when
      both are numbers, and the text of the first followed by the second
      when the quantity asked for is a string; if [newQuantity] exceeds the
      product's [stock_quantity] the handler answers 400 with
      [currentInCart], [available] and [requested] and issues no write;
      otherwise it issues exactly one write, the update of the row with that
      id to [newQuantity] and to the current time as [added_at]. *)
Theorem cart_add_merges (s s1 s2 s3 s4 : wstate W) (req : HttpRequest)
    (user product existingItem existingError quantity : JsVal) (t : float) :
  authenticated W s req user s1 ->
  asks_for req quantity ->
  available W s1 req product quantity s2 ->
  store_answers W s2 (existing_lookup req user) existingItem existingError s3 ->
  wclock W s3 = (t, s4) ->
  let run := exec W (post_api_cart req) s in
  let reads := [auth_getUser (bearer req); product_lookup req; existing_lookup req user] in
  (truthy existingItem = false \/ truthy existingError = true ->
     issued run = (reads ++ [cart_insert req user quantity])%list /\
     List.filter is_store_write (issued run) = [cart_insert req user quantity]) /\
  (truthy existingItem = true -> truthy existingError = false ->
   forall newQuantity,
     js_add (field existingItem "quantity") quantity = Some newQuantity ->
     (forall a b, field existingItem "quantity" = JNum a -> quantity = JNum b ->
        newQuantity = JNum (PrimFloat.add a b)) /\
     (forall a b, field existingItem "quantity" = JNum a -> quantity = JStr b ->
        newQuantity = JStr (NumberToString a ++ b)) /\
     (js_gt newQuantity (field product "stock_quantity") = Some true ->
        outcome run =
          Done (respond 400
                  (JObj ["error" :- JStr "Cannot add more items than available stock";
                         "currentInCart" :- field existingItem "quantity";
                         "available" :- field product "stock_quantity";
                         "requested" :- quantity])) /\
        issued run = reads /\
        read_only (issued run) /\
        final run = s3) /\
     (js_gt newQuantity (field product "stock_quantity") = Some false ->
        issued run = (reads ++ [cart_merge existingItem newQuantity t])%list /\
        List.filter is_store_write (issued run) = [cart_merge existingItem newQuantity t])).
Proof.
  intros Hauth Hasks Havail Hcart Hclock run reads; subst run reads.
  apply asks_for_requested in Hasks. subst quantity.
  open_hyps; subst.
  unfold product_lookup, existing_lookup, cart_insert, cart_merge, post_api_cart in *.
  split.
  - intros [Hnone | Herr]; start; walk; leaf.
  - intros Hrow Hnoerr newQuantity Hsum. split; [| split; [| split]].
    + intros a b Ha Hb. rewrite Ha, Hb in Hsum. cbn in Hsum. congruence.
    + intros a b Ha Hb. rewrite Ha, Hb in Hsum. cbn in Hsum. congruence.
    + intros Hexceeds. start; walk; leaf.
    + intros Hfits. start; walk; leaf.
Qed.

(** X10.  [DELETE /api/cart] by an authenticated caller issues one delete and
    nothing else, whatever the store answers; the delete is filtered on the
    caller's id, so a row it applies to is a row of the caller; the answer
    is 200 when the store reports no error. *)
Theorem cart_clear_is_the_callers (s s1 : wstate W) (req : HttpRequest) (user : JsVal) :
  authenticated W s req user s1 ->
  let run := exec W (delete_api_cart req) s in
  issued run = [auth_getUser (bearer req); cart_clear user] /\
  (forall row, targets (cart_clear user) row = true ->
               strict_eq (field row "user_id") (field user "id") = true) /\
  (forall reply s2,
     answers W s1 (cart_clear user) reply s2 ->
     nullish reply = false ->
     truthy (field reply "error") = false ->
     outcome run = Done (respond_ok (JObj ["message" :- JStr "Cart cleared successfully"])) /\
     final run = s2).
Proof.
  intros Hauth run; subst run.
  open_hyps; subst. unfold cart_clear in *. split; [| split].
  - unfold delete_api_cart; start; walk; leaf.
  - intros row Hrow. cbn in Hrow. rewrite Bool.andb_true_r in Hrow. exact Hrow.
  - intros reply2 s2 Hanswer Hreply Herror. unfold answers in Hanswer.
    unfold delete_api_cart; start; walk; leaf.
Qed.

End CartQuantities.

(** ** Products, beyond the ownership check *)

Lemma assoc_present (k : string) (b : JsVal) (k' : string) (rest : list (string * JsVal)) :
  assoc k (present b k' ++ rest)%list =
  if String.eqb k k' && negb (is_undefined (field b k'))
  then field b k' else assoc k rest.
Proof.
  unfold present.
  destruct (is_undefined (field b k')); cbn [negb app assoc];
    destruct (String.eqb k k'); reflexivity.
Qed.

Lemma assoc_present_last (k : string) (b : JsVal) (k' : string) :
  assoc k (present b k') =
  if String.eqb k k' && negb (is_undefined (field b k'))
  then field b k' else JUndefined.
Proof.
  rewrite <- (app_nil_r (present b k')). apply assoc_present.
Qed.

Lemma defined_or_undefined (v : JsVal) :
  (if negb (is_undefined v) then v else JUndefined) = v.
Proof. destruct v; reflexivity. Qed.

Section ProductUpdates.
Context {B : Builtins}.

Ltac read_field :=
  repeat first
    [ rewrite assoc_present
    | rewrite assoc_present_last
    | progress cbn [field assoc app String.eqb Ascii.eqb Bool.eqb andb] ].

(** X11.  The update object of [PUT /api/my-products/:id].  It is built
    unless [price] or [stock_quantity] is present and cannot be parsed
    ([parseFloat] or [parseInt] throws).  Once built: [updated_at] is the
    server's, even when the body names one; the owner, the id and the
    creation time are never part of it; the text fields and [is_active] are
    exactly those of the body (absent when absent, [null] when [null]);
    [price] and [stock_quantity] are the parsed values when present and
    absent otherwise. *)
Theorem product_updates_fields (b updated_at : JsVal) :
  (product_updates b updated_at = None <->
   (is_undefined (field b "price") = false /\ parseFloat (field b "price") = None) \/
   (is_undefined (field b "stock_quantity") = false /\
    parseInt (field b "stock_quantity") = None)) /\
  forall updates,
    product_updates b updated_at = Some updates ->
    field updates "updated_at" = updated_at /\
    field updates "seller_id" = JUndefined /\
    field updates "id" = JUndefined /\
    field updates "created_at" = JUndefined /\
    (forall k, In k ["title"; "description"; "image_url"; "category"; "is_active"] ->
               field updates k = field b k) /\
    (if is_undefined (field b "price") then field updates "price" = JUndefined
     else parseFloat (field b "price") = Some (field updates "price")) /\
    (if is_undefined (field b "stock_quantity")
     then field updates "stock_quantity" = JUndefined
     else parseInt (field b "stock_quantity") = Some (field updates "stock_quantity")).
Proof.
  unfold product_updates, parsed.
  destruct (is_undefined (field b "price")) eqn:Hprice;
    destruct (is_undefined (field b "stock_quantity")) eqn:Hstock;
    cbn [negb];
    try destruct (parseFloat (field b "price")) as [price |] eqn:Hparsed;
    try destruct (parseInt (field b "stock_quantity")) as [stock |] eqn:Hcounted;
    cbn [option_map and_then];
    (split;
     [ split;
       [ intros Hnone; first [ discriminate Hnone | tauto ]
       | intros [[Hp Hn] | [Hp Hn]]; first [ discriminate Hp | discriminate Hn | reflexivity ] ]
     | intros updates Hbuilt; first [ discriminate Hbuilt | injection Hbuilt as <- ] ]).
  all: repeat match goal with |- _ /\ _ => split end.
  all: try (read_field; reflexivity).
  all: try (intros k Hk; cbn [In] in Hk;
            repeat match type of Hk with
                   | _ \/ _ => destruct Hk as [Hk | Hk]
                   end;
            try contradiction; subst k;
            read_field; apply defined_or_undefined).
Qed.

End ProductUpdates.

Section ProductWrites.
Context {B : Builtins}.
Variable W : World.

Lemma empty_array_length : strict_eq (field (JArr []) "length") JZero = true.
Proof. reflexivity. Qed.

Lemma empty_array_not_above_zero : js_gt (field (JArr []) "length") JZero = Some false.
Proof. reflexivity. Qed.

(** X12.  [PUT /api/my-products/:id] by the owner, after the ownership
    lookup and the reading of the clock.  When the update object is built
    the handler issues exactly one update, of that object, filtered on the
    product id and on the caller's id, so a row it applies to is a product
    of the caller; when the store answers the update without an error and
    without a row ([null] or the empty array), the handler answers 404
    although the update was issued.  When the update object cannot be built
    ([parseFloat(price)] or [parseInt(stock_quantity)] throws) the handler
    answers 500 and issues no update. *)
Theorem product_update_is_the_owners (s s1 s2 s3 : wstate W) (req : HttpRequest)
    (user existingProduct checkError : JsVal) (t : float) :
  authenticated W s req user s1 ->
  store_answers W s1 (owner_lookup UpdateMine req) existingProduct checkError s2 ->
  truthy checkError = false ->
  truthy existingProduct = true ->
  strict_eq (field existingProduct "seller_id") (field user "id") = true ->
  wclock W s2 = (t, s3) ->
  let run := exec W (put_api_my_products req) s in
  let built := product_updates (body req) (JStr (Date_toISOString t)) in
  (forall updates,
     built = Some updates ->
     let write := product_update req user updates in
     issued run = [auth_getUser (bearer req); owner_lookup UpdateMine req; write] /\
     (forall row, targets write row = true ->
                  strict_eq (field row "id") (JStr (params_id req)) = true /\
                  strict_eq (field row "seller_id") (field user "id") = true) /\
     (forall data s4,
        store_answers W s3 write data JNull s4 ->
        data = JNull \/ data = JArr [] ->
        outcome run =
          Done (respond 404 (JObj ["error" :- JStr "Product not found or update failed"])) /\
        final run = s4)) /\
  (built = None ->
     outcome run = Done (respond 500 (JObj ["error" :- JStr "Internal server error";
                                            "details" :- JStr ToPrimitive_message])) /\
     issued run = [auth_getUser (bearer req); owner_lookup UpdateMine req] /\
     final run = s3).
Proof.
  intros Hauth Hlookup Hnoerr Hfound Hown Hclock run built; subst run built.
  open_hyps; subst. unfold owner_lookup, product_update in *. split.
  - intros updates Hbuilt. split; [| split].
    + unfold put_api_my_products; start; walk; leaf.
    + intros row Hrow. cbn in Hrow.
      apply Bool.andb_true_iff in Hrow. destruct Hrow as [Hid Hrow].
      rewrite Bool.andb_true_r in Hrow. split; assumption.
    + intros data s4 (answer & Hanswer & Hreply & Hd & He) Hdata.
      unfold answers in Hanswer.
      assert (Hnone : truthy (field answer "data") = false \/
                      strict_eq (field (field answer "data") "length") JZero = true).
      { rewrite Hd. destruct Hdata as [-> | ->]; [left | right]; reflexivity. }
      assert (Herror : truthy (field answer "error") = false).
      { rewrite He. reflexivity. }
      clear Hd He Hdata.
      destruct Hnone as [Hnone | Hnone];
        unfold put_api_my_products; start; walk; leaf.
  - intros Hthrows. unfold put_api_my_products; start; walk; leaf.
Qed.

(** X13.  [DELETE /api/my-products/:id] by the owner, when the cart check returns
    no row ([null] or the empty array) and no error: one delete follows,
    filtered on the product id and on the caller's id, and the answer is
    200, with the message made of the product's title, when the store
    reports no error. *)
Theorem product_delete_when_unreferenced (s s1 s2 s3 : wstate W) (req : HttpRequest)
    (user existingProduct checkError cartItems : JsVal) :
  authenticated W s req user s1 ->
  store_answers W s1 (owner_lookup DeleteMine req) existingProduct checkError s2 ->
  truthy checkError = false ->
  truthy existingProduct = true ->
  strict_eq (field existingProduct "seller_id") (field user "id") = true ->
  store_answers W s2 (cart_references req) cartItems JNull s3 ->
  cartItems = JNull \/ cartItems = JArr [] ->
  let run := exec W (delete_api_my_products req) s in
  issued run = [auth_getUser (bearer req); owner_lookup DeleteMine req;
                cart_references req; product_delete req user] /\
  (forall row, targets (product_delete req user) row = true ->
               strict_eq (field row "id") (JStr (params_id req)) = true /\
               strict_eq (field row "seller_id") (field user "id") = true) /\
  (forall reply s4 message,
     answers W s3 (product_delete req user) reply s4 ->
     nullish reply = false ->
     truthy (field reply "error") = false ->
     template [JStr "Product "; JStr dquote; field existingProduct "title";
               JStr dquote; JStr " deleted successfully"] = Some message ->
     outcome run = Done (respond_ok (JObj ["message" :- message])) /\
     final run = s4).
Proof.
  intros Hauth Hlookup Hnoerr Hfound Hown (answer & Hanswer & Hreply & Hd & He) Hnone run;
    subst run.
  unfold answers in Hanswer.
  assert (Hfree : truthy (field answer "data") = false \/
                  js_gt (field (field answer "data") "length") JZero = Some false).
  { rewrite Hd. destruct Hnone as [-> | ->]; [left | right]; reflexivity. }
  assert (Herror : truthy (field answer "error") = false).
  { rewrite He. reflexivity. }
  clear Hd He Hnone.
  open_hyps; subst.
  unfold owner_lookup, cart_references, product_delete in *. split; [| split].
  - destruct Hfree as [Hfree | Hfree];
      unfold delete_api_my_products; start; walk; leaf.
  - intros row Hrow. cbn in Hrow.
    apply Bool.andb_true_iff in Hrow. destruct Hrow as [Hid Hrow].
    rewrite Bool.andb_true_r in Hrow. split; assumption.
  - intros reply2 s4 message Hdeleted Hreply2 Hok Hmessage. unfold answers in Hdeleted.
    destruct Hfree as [Hfree | Hfree];
      unfold delete_api_my_products; start; walk; leaf.
Qed.

(** X14.  [POST /api/posts] with a valid body whose price can be parsed:
    when the store answers the insert without an error and without a row
    ([null] or the empty array), the handler answers 400 although the
    insert was issued. *)
Theorem product_insert_without_a_row (s s1 s2 : wstate W) (req : HttpRequest)
    (user record data : JsVal) :
  authenticated W s req user s1 ->
  truthy (field (body req) "title") = true ->
  truthy (field (body req) "description") = true ->
  is_undefined (field (body req) "price") = false ->
  newProduct user (body req) = Some record ->
  store_answers W s1 (product_insert req record) data JNull s2 ->
  data = JNull \/ data = JArr [] ->
  let run := exec W (post_api_posts req) s in
  outcome run =
    Done (respond 400 (JObj ["error" :- JStr "Product creation failed - no data returned"])) /\
  issued run = [auth_getUser (bearer req); product_insert req record] /\
  final run = s2.
Proof.
  intros Hauth Htitle Hdescription Hprice Hrecord
         (answer & Hanswer & Hreply & Hd & He) Hdata run;
    subst run.
  unfold answers in Hanswer.
  assert (Hnone : truthy (field answer "data") = false \/
                  strict_eq (field (field answer "data") "length") JZero = true).
  { rewrite Hd. destruct Hdata as [-> | ->]; [left | right]; reflexivity. }
  assert (Herror : truthy (field answer "error") = false).
  { rewrite He. reflexivity. }
  clear Hd He Hdata.
  open_hyps; subst.
  unfold product_insert in *.
  destruct Hnone as [Hnone | Hnone];
    unfold post_api_posts; start; walk; leaf.
Qed.

(** X15.  In [POST /api/posts] the token guard is outside the [try]: when the
    token resolution is rejected, or resolves to a reply without [data],
    the error is not caught and no response is sent. *)
Theorem product_insert_guard_is_not_caught (s : wstate W) (req : HttpRequest) :
  truthy (bearer req) = true ->
  let run := exec W (post_api_posts req) s in
  (forall reason s',
     wcall W s (auth_getUser (bearer req)) = (Some (Rejected reason), s') ->
     run = {| outcome := Uncaught reason;
              exchanges := [(auth_getUser (bearer req), Some (Rejected reason))];
              final := s' |}) /\
  (forall reply s',
     answers W s (auth_getUser (bearer req)) reply s' ->
     nullish reply = false ->
     nullish (field reply "data") = true ->
     outcome run = Uncaught (type_error "user")).
Proof.
  intros Htoken run; subst run. split.
  - intros reason s' Hrejected. unfold post_api_posts; start; walk; leaf.
  - intros reply s' Hanswer Hreply Hdata. unfold answers in Hanswer.
    unfold post_api_posts; start; walk; leaf.
Qed.

End ProductWrites.

(** ** Rows the store does not return *)

Section MissingRows.
Context {B : Builtins}.
Variable W : World.

(** X16.  [POST /api/cart] does not check that its insert returned a row:
    with the empty array the answer is 201 with an undefined [cartItem]
    (and the message made of the product's title); with [null] the read of
    the first row throws and the answer is 500, after the insert was
    issued. *)
Theorem cart_insert_without_a_row (s s1 s2 s3 s4 : wstate W) (req : HttpRequest)
    (user product existingItem existingError quantity data : JsVal) :
  authenticated W s req user s1 ->
  asks_for req quantity ->
  available W s1 req product quantity s2 ->
  store_answers W s2 (existing_lookup req user) existingItem existingError s3 ->
  truthy existingItem = false \/ truthy existingError = true ->
  store_answers W s3 (cart_insert req user quantity) data JNull s4 ->
  let run := exec W (post_api_cart req) s in
  issued run = [auth_getUser (bearer req); product_lookup req;
                existing_lookup req user; cart_insert req user quantity] /\
  (data = JArr [] ->
   forall message,
     template [JStr "Added "; JStr dquote; field product "title";
               JStr dquote; JStr " to cart"] = Some message ->
     outcome run = Done (respond 201 (JObj ["message" :- message;
                                            "cartItem" :- JUndefined]))) /\
  (data = JNull ->
   outcome run =
     Done (respond 500 (JObj ["error" :- JStr "Internal server error";
                              "details" :- JStr (TypeError_message "0")]))).
Proof.
  intros Hauth Hasks Havailable Hexisting Hnew (answer & Hanswer & Hreply & Hd & He) run;
    subst run.
  apply asks_for_requested in Hasks. subst quantity.
  unfold answers in Hanswer.
  assert (Herror : truthy (field answer "error") = false).
  { rewrite He. reflexivity. }
  clear He.
  open_hyps; subst.
  unfold product_lookup, existing_lookup, cart_insert in *.
  split; [| split].
  - destruct Hnew as [Hnew | Hnew]; unfold post_api_cart; start; walk; leaf.
  - intros Hempty message Hmessage.
    assert (Hdefined : nullish (field answer "data") = false) by (rewrite Hempty; reflexivity).
    assert (Hfirst : index (field answer "data") 0 = JUndefined) by (rewrite Hempty; reflexivity).
    clear Hempty.
    destruct Hnew as [Hnew | Hnew]; unfold post_api_cart; start; walk;
      cbn [outcome]; rewrite Hfirst; reflexivity.
  - intros Hnull.
    assert (Hmissing : nullish (field answer "data") = true) by (rewrite Hnull; reflexivity).
    clear Hnull.
    destruct Hnew as [Hnew | Hnew]; unfold post_api_cart; start; walk; leaf.
Qed.

(** X17.  The listings with [data] null and no error: [GET /api/my-products]
    and [GET /api/cart] answer 200 with an empty list (and a count of 0),
    [GET /api/seller-stats] answers 500. *)
Theorem listings_without_data (s s1 s2 : wstate W) (req : HttpRequest) (user : JsVal) :
  authenticated W s req user s1 ->
  (store_answers W s1 (my_products_query user) JNull JNull s2 ->
   outcome (exec W (get_api_my_products req) s) =
     Done (respond_ok (JObj ["products" :- JArr [];
                             "count" :- JZero;
                             "seller" :- JObj ["id" :- field user "id";
                                               "email" :- field user "email";
                                               "name" :- display_name user]]))) /\
  (store_answers W s1 (cart_query user) JNull JNull s2 ->
   outcome (exec W (get_api_cart req) s) = Done (respond_ok (JArr []))) /\
  (store_answers W s1 (statistics_query user) JNull JNull s2 ->
   outcome (exec W (get_api_seller_stats req) s) =
     Done (respond 500 (JObj ["error" :- JStr "Internal error";
                              "details" :- JStr (TypeError_message "length")]))).
Proof.
  intros Hauth. open_hyps; subst. split; [| split].
  - intros (answer & Hanswer & Hreply & Hd & He). unfold answers in Hanswer.
    unfold my_products_query in *.
    unfold get_api_my_products; start; walk; cbn [outcome]; rewrite Hd; reflexivity.
  - intros (answer & Hanswer & Hreply & Hd & He). unfold answers in Hanswer.
    unfold cart_query in *.
    unfold get_api_cart; start; walk; cbn [outcome]; rewrite Hd; reflexivity.
  - intros (answer & Hanswer & Hreply & Hd & He). unfold answers in Hanswer.
    unfold statistics_query in *.
    unfold get_api_seller_stats. set (computed := statistics).
    start; walk.
    subst computed. rewrite Hd. unfold statistics. walk; try impossible_path; leaf.
Qed.

End MissingRows.

(** ** The profile *)

Section ProfileUpdates.
Context {B : Builtins}.
Variable W : World.

(** X18.  [GET /api/auth/profile] by an authenticated caller never fails on the
    profile lookup: whatever the store answers, and also when the lookup is
    rejected, the answer is 200 with a profile view of the caller; only a
    lookup that never settles leaves the request pending. *)
Theorem profile_read_always_answers (s s1 : wstate W) (req : HttpRequest) (user : JsVal) :
  authenticated W s req user s1 ->
  let run := exec W (get_api_auth_profile req) s in
  issued run = [auth_getUser (bearer req); profile_lookup user] /\
  (outcome run = Pending \/
   exists profileData,
     outcome run = Done (respond_ok (JObj ["user" :- profile_view user profileData]))).
Proof.
  intros Hauth run; subst run.
  open_hyps; subst. unfold profile_lookup. split.
  - unfold get_api_auth_profile; start; walk; leaf.
  - unfold get_api_auth_profile; start; walk; cbn [outcome];
      first [ left; reflexivity | right; eexists; reflexivity ].
Qed.

(** X19.  The three validations of [PUT /api/auth/profile], in their
    order: a username of more than 50 characters is answered 400, and a
    truthy username whose [length] cannot be compared with 50 is answered
    500; then, for a username that passes, a website and after it an avatar
    URL that is not an [http:] or [https:] URL are answered 400.  All of
    this happens before the store is asked anything. *)
Theorem profile_update_validates (s s1 : wstate W) (req : HttpRequest) (user : JsVal) :
  authenticated W s req user s1 ->
  let username := field (body req) "username" in
  let website := field (body req) "website" in
  let avatar_url := field (body req) "avatar_url" in
  let run := exec W (put_api_auth_profile req) s in
  let refused code body :=
    outcome run = Done (respond code body) /\
    issued run = [auth_getUser (bearer req)] /\
    final run = s1 in
  (forall u, username = JStr u ->
             (Z.of_nat (String.length u) < 2 ^ 53)%Z ->
             50 < String.length u ->
             refused 400%Z (JObj ["error" :- JStr "Username too long (max 50 characters)"])) /\
  (truthy username = true ->
   js_gt (field username "length") (JNum 50) = None ->
   refused 500%Z (JObj ["error" :- JStr "Internal server error";
                        "details" :- JStr ToPrimitive_message])) /\
  (truthy username = false \/ js_gt (field username "length") (JNum 50) = Some false ->
   (truthy website = true -> isValidUrl website = false ->
    refused 400%Z (JObj ["error" :- JStr "Invalid website URL"])) /\
   (truthy website && negb (isValidUrl website) = false ->
    truthy avatar_url = true -> isValidUrl avatar_url = false ->
    refused 400%Z (JObj ["error" :- JStr "Invalid avatar URL"]))).
Proof.
  intros Hauth. cbv zeta.
  open_hyps; subst. split; [| split; [| intros Husername; split]].
  - intros u Hu Hbound Hlong.
    assert (Hover : js_gt (field (field (body req) "username") "length") (JNum 50)
                    = Some true).
    { rewrite Hu.
      pose proof (@length_above _ u 50 Hbound ltac:(cbn; lia)) as Habove.
      change (JNum (num_of_nat 50)) with (JNum 50) in Habove.
      rewrite Habove. f_equal. apply Nat.ltb_lt. exact Hlong. }
    assert (Htruthy : truthy (field (body req) "username") = true).
    { rewrite Hu. destruct u; [cbn in Hlong; lia | reflexivity]. }
    clear Hu.
    unfold put_api_auth_profile; start; walk; leaf.
  - intros Htruthy Hthrows.
    unfold put_api_auth_profile; start; walk; leaf.
  - intros Hwebsite Hinvalid.
    destruct Husername as [Husername | Husername];
      unfold put_api_auth_profile; start; walk; leaf.
  - intros Hwebsite Havatar Hinvalid.
    destruct Husername as [Husername | Husername];
      unfold put_api_auth_profile; start; walk; leaf.
Qed.

(** X20.  [PUT /api/auth/profile] after the validations have passed and the
    upsert has succeeded: whatever the metadata mirror settles to (a reply
    with or without an error, or a rejection), the answer is the same 200,
    built from the values sent to the store and not from the rows the store
    returned. *)
Theorem profile_update_survives_the_mirror (s s1 s2 s3 s4 : wstate W) (req : HttpRequest)
    (user data : JsVal) (t : float) (mirrored : Settled) :
  authenticated W s req user s1 ->
  let username := field (body req) "username" in
  let website := field (body req) "website" in
  let avatar_url := field (body req) "avatar_url" in
  truthy username = false \/ js_gt (field username "length") (JNum 50) = Some false ->
  truthy website && negb (isValidUrl website) = false ->
  truthy avatar_url && negb (isValidUrl avatar_url) = false ->
  wclock W s1 = (t, s2) ->
  store_answers W s2 (profile_upsert req user t) data JNull s3 ->
  wcall W s3 (metadata_mirror req) = (Some mirrored, s4) ->
  issued (exec W (put_api_auth_profile req) s) =
    [auth_getUser (bearer req); profile_upsert req user t; metadata_mirror req] /\
  outcome (exec W (put_api_auth_profile req) s) = Done (profile_updated req user t) /\
  final (exec W (put_api_auth_profile req) s) = s4.
Proof.
  intros Hauth. cbv zeta. intros Husername Hwebsite Havatar Hclock Hupsert Hmirror.
  destruct Hupsert as (answer & Hanswer & Hreply & Hd & He). unfold answers in Hanswer.
  assert (Herror : truthy (field answer "error") = false) by (rewrite He; reflexivity).
  clear He Hd.
  open_hyps; subst.
  unfold profile_upsert, profile_row, metadata_mirror, profile_updated in *.
  destruct Husername as [Husername | Husername];
    unfold put_api_auth_profile; start; walk; leaf.
Qed.

End ProfileUpdates.

(** ** What holds of every route *)

Section EveryRoute.
Context {B : Builtins}.
Variable W : World.
Variable FRONTEND_URL : JsVal.

(** X21.  A response of a route carries one of the status codes of its handler:
    201 only on the three creating routes, 403 only on the two owner-only
    routes, 404 only where a row is looked up by id, and [GET /api/health]
    nothing but 200. *)
Theorem responses_use_the_statuses_of_the_route (r : Route) (req : HttpRequest)
    (s : wstate W) (response : Response) :
  outcome (exec W (handler FRONTEND_URL r req) s) = Done response ->
  In (status response) (possible_statuses r).
Proof.
  apply (statuses_within (handlers_sound W FRONTEND_URL r req s)).
Qed.

(** X22.  No handler repeats or retries a call: a run issues at most as many
    requests as the longest path through the handler has [await]s, four at
    most. *)
Theorem calls_are_bounded (r : Route) (req : HttpRequest) (s : wstate W) :
  List.length (issued (exec W (handler FRONTEND_URL r req) s)) <= max_calls r /\
  max_calls r <= 4.
Proof.
  split.
  - unfold issued. rewrite length_map.
    apply (calls_within (handlers_sound W FRONTEND_URL r req s)).
  - destruct r; cbn; lia.
Qed.

(** X23.  A route writes to one table at most: every write of a run goes to the
    table of the route, and the routes without one (the [GET] routes and
    the authentication routes) issue no write at all. *)
Theorem writes_stay_in_the_table_of_the_route (r : Route) (req : HttpRequest)
    (s : wstate W) :
  let run := exec W (handler FRONTEND_URL r req) s in
  (forall client table chain,
     In (from client table chain) (issued run) ->
     is_store_write (from client table chain) = true ->
     written_table r = Some table) /\
  (written_table r = None -> read_only (issued run)).
Proof.
  intros run.
  pose proof (writes_in_table (handlers_sound W FRONTEND_URL r req s)) as Hall.
  fold run in Hall. rewrite forallb_forall in Hall. split.
  - intros client table chain Hin Hwrite.
    specialize (Hall _ Hin). unfold writes_within in Hall.
    rewrite Hwrite in Hall. cbn [negb orb] in Hall.
    destruct (written_table r) as [t |]; [| discriminate Hall].
    apply String.eqb_eq in Hall. congruence.
  - intros Hnone. unfold read_only.
    destruct (existsb is_store_write (issued run)) eqn:Hsome; [| reflexivity].
    apply existsb_exists in Hsome. destruct Hsome as (rq & Hin & Hwrite).
    specialize (Hall _ Hin). unfold writes_within in Hall.
    rewrite Hwrite, Hnone in Hall. destruct rq; discriminate Hall.
Qed.

(** X24.  Every request to the record store goes through the administrative
    client, except on [POST /api/posts], whose insert goes through a client
    built with the caller's token. *)
Theorem store_requests_use_the_expected_client (r : Route) (req : HttpRequest)
    (s : wstate W) (client : Client) (table : string) (chain : list Step) :
  In (from client table chain) (issued (exec W (handler FRONTEND_URL r req) s)) ->
  client = match r with
           | PostPosts => WithAuth (bearer req)
           | _ => Admin
           end.
Proof.
  intros Hin.
  pose proof (clients_as_expected (handlers_sound W FRONTEND_URL r req s)) as Hall.
  rewrite Forall_forall in Hall. specialize (Hall _ Hin).
  destruct r; exact Hall.
Qed.

(** X25.  On a guarded route the first request resolves the bearer token of the
    request, and anything is issued after it only when it resolved to a
    user without an error; the other routes never resolve a token. *)
Theorem guard_runs_before_anything_else (r : Route) (req : HttpRequest) (s : wstate W) :
  let run := exec W (handler FRONTEND_URL r req) s in
  (guarded r = true -> guard_first req (exchanges run)) /\
  (guarded r = false -> existsb is_token_resolution (issued run) = false).
Proof.
  intros run.
  pose proof (guard_runs_first (handlers_sound W FRONTEND_URL r req s)) as H.
  fold run in H.
  split; intros Hg; rewrite Hg in H; exact H.
Qed.

(** X26.  A rejected call is answered 500 with the message of the rejection as
    [details], on every route: the exceptions are the two calls whose
    rejection is ignored (the profile lookup and the metadata mirror) and
    the token resolution of [POST /api/posts]. *)
Theorem rejected_calls_are_answered_500 (r : Route) (req : HttpRequest) (s : wstate W)
    (rq : Request) (reason : JsVal) :
  In (rq, Some (Rejected reason)) (exchanges (exec W (handler FRONTEND_URL r req) s)) ->
  nullish reason = false ->
  swallows_rejection rq = false ->
  (r = PostPosts -> is_token_resolution rq = false) ->
  outcome (exec W (handler FRONTEND_URL r req) s) =
    Done (respond 500 (JObj ["error" :- JStr (catch_label r);
                             "details" :- field reason "message"])).
Proof.
  apply (rejections_answered (handlers_sound W FRONTEND_URL r req s)).
Qed.

(** X27.  No error escapes a handler other than [POST /api/posts], as long as no
    call is rejected with [null] or [undefined] as its reason: the run ends
    with a response, or waits for an answer that never comes. *)
Theorem errors_do_not_escape (r : Route) (req : HttpRequest) (s : wstate W) :
  r <> PostPosts ->
  (forall rq reason,
     In (rq, Some (Rejected reason)) (exchanges (exec W (handler FRONTEND_URL r req) s)) ->
     nullish reason = false) ->
  outcome (exec W (handler FRONTEND_URL r req) s) = Pending \/
  exists response, outcome (exec W (handler FRONTEND_URL r req) s) = Done response.
Proof.
  intros Hr Hrejections.
  pose proof (nothing_escapes (handlers_sound W FRONTEND_URL r req s) Hr Hrejections) as H.
  destruct (outcome (exec W (handler FRONTEND_URL r req) s)) as [response | e |].
  - right. exists response. reflexivity.
  - contradiction (H e). reflexivity.
  - left. reflexivity.
Qed.

End EveryRoute.
(** * Examples

    Each run below is a replay of fixed answers ([Script]) under the sample
    library functions ([Sample]); the hypotheses of the theorems are checked
    on it by computation. *)

Ltac holds :=
  unfold authenticated, available, store_answers, answers, carries;
  repeat first [ reflexivity | split | eexists ].

(** ** The operators and the guard on small inputs *)

Example bearer_of_header :
  bearer (from_alice [] EmptyString) = JStr "token-alice" /\
  bearer (anonymous []) = JUndefined /\
  bearer {| authorization := Some "Bearer"; body_fields := []; params_id := EmptyString |}
  = JUndefined.
Proof. repeat split. Qed.

Example plus_adds_numbers_and_joins_strings :
  js_add (B := Sample) (JNum 1) (JNum 2) = Some (JNum 3) /\
  js_add (B := Sample) (JNum 1) (JStr "2") = Some (JStr "12") /\
  js_gt (B := Sample) (JStr "12") (JNum 5) = Some true.
Proof. repeat split. Qed.

(** A parsed JSON object with a property named [toString] has no primitive
    value: comparing it, adding it or parsing it throws, also from inside
    an array; an object without one prints as [[object Object]]. *)
Example objects_without_a_primitive_value :
  js_lt (B := Sample) hostile (JNum 1) = None /\
  js_add (B := Sample) (JNum 1) hostile = None /\
  parseFloat (B := Sample) (JArr [JNum 1; hostile]) = None /\
  to_string (B := Sample) (JObj ["valueOf" :- JNum 1]) = Some "[object Object]" /\
  to_string (B := Sample) (JArr [JNum 1; JNull; JArr [JStr "a"; JStr "b"]]) = Some "1,,a,b".
Proof. repeat split. Qed.

Example quantity_defaults_to_one :
  requested_quantity (JObj ["product_id" :- JStr "p1"]) = JOne /\
  requested_quantity (JObj ["quantity" :- JNull]) = JNull.
Proof. repeat split. Qed.

(** ** The scenarios of the specification *)

Example register_with_a_short_password :
  outcome (exec Script
             (post_api_auth_register (B := Sample)
                (anonymous ["email" :- JStr "a@b.com"; "password" :- JStr "short"]))
             ([], noon))
  = Done (respond 400 (JObj ["error" :- JStr "Password must be at least 6 characters long"])).
Proof. reflexivity. Qed.

Example register_then_login :
  status_of (outcome (exec Script
                        (post_api_auth_register (B := Sample)
                           (anonymous ["email" :- JStr "a@b.com";
                                       "password" :- JStr "longenough"]))
                        ([ok (JObj ["user" :- JNull; "session" :- JNull])], noon)))
  = Some 201%Z /\
  outcome (exec Script
             (post_api_auth_login (B := Sample)
                (anonymous ["email" :- JStr "a@b.com"; "password" :- JStr "longenough"]))
             ([ok (JObj ["user" :- JObj ["id" :- JStr "u1"; "email" :- JStr "a@b.com"];
                         "session" :- JObj ["access_token" :- JStr "t"]])], noon))
  = Done (respond 200
            (JObj ["message" :- JStr "Login successful";
                   "user" :- JObj ["id" :- JStr "u1";
                                   "email" :- JStr "a@b.com";
                                   "name" :- JStr "a@b.com";
                                   "avatar_url" :- JUndefined];
                   "session" :- JObj ["access_token" :- JStr "t"]])).
Proof. split; reflexivity. Qed.

(** A request without a token is turned down before any call is made. *)
Example no_token_no_call :
  outcome (exec Script (get_api_cart (B := Sample) (anonymous [])) ([], noon))
  = Done (respond 401 (JObj ["error" :- JStr "No token provided"])) /\
  issued (exec Script (get_api_cart (B := Sample) (anonymous [])) ([], noon)) = [].
Proof. split; reflexivity. Qed.

(** A platform that never answers leaves the request pending. *)
Example pending_when_the_platform_is_silent :
  outcome (exec Script (get_api_posts (B := Sample) (anonymous [])) ([], noon)) = Pending.
Proof. reflexivity. Qed.

(** ** The theorems on sample runs *)

(** Alice tries to update Bob's widget. *)
Lemma my_products_forbidden_witness :
  outcome (exec Script (owner_handler (B := Sample) UpdateMine (from_alice [] "p1"))
             ([ok_user alice; ok widget], noon))
  = Done (respond 403 (owner_refusal UpdateMine)) /\
  issued (exec Script (owner_handler (B := Sample) UpdateMine (from_alice [] "p1"))
            ([ok_user alice; ok widget], noon))
  = [auth_getUser (JStr "token-alice");
     owner_lookup UpdateMine (from_alice [] "p1")].
Proof.
  pose proof (@my_products_forbidden Sample Script UpdateMine
                ([ok_user alice; ok widget], noon) ([ok widget], noon) ([], noon)
                (from_alice [] "p1") alice widget JNull) as H.
  cbv zeta in H.
  destruct H as (Hout & Hissued & _); [holds | holds | holds | holds | holds |].
  split; [exact Hout | exact Hissued].
Defined.

(** Alice tries to delete her gadget while it is in a cart. *)
Lemma delete_product_in_carts_witness :
  status_of (outcome (exec Script (delete_api_my_products (B := Sample) (from_alice [] "p2"))
                        ([ok_user alice; ok gadget; ok (JArr [JObj ["id" :- JStr "c7"]])], noon)))
  = Some 400%Z /\
  read_only (issued (exec Script (delete_api_my_products (B := Sample) (from_alice [] "p2"))
                       ([ok_user alice; ok gadget; ok (JArr [JObj ["id" :- JStr "c7"]])], noon))).
Proof.
  pose proof (@delete_product_in_carts Sample Script
                ([ok_user alice; ok gadget; ok (JArr [JObj ["id" :- JStr "c7"]])], noon)
                ([ok gadget; ok (JArr [JObj ["id" :- JStr "c7"]])], noon)
                ([ok (JArr [JObj ["id" :- JStr "c7"]])], noon)
                ([], noon)
                (from_alice [] "p2") alice gadget JNull JNull
                (JObj ["id" :- JStr "c7"]) []) as H.
  cbv zeta in H.
  destruct H as (Hout & _ & Hread & _);
    [holds | holds | holds | holds | holds | holds | holds | holds |].
  split; [rewrite Hout; reflexivity | exact Hread].
Defined.

(** The scenario of the specification: three widgets asked for, two in
    stock. *)
Lemma cart_add_refusals_witness :
  outcome (exec Script
             (post_api_cart (B := Sample)
                (from_alice ["product_id" :- JStr "p1"; "quantity" :- JNum 3] EmptyString))
             ([ok_user alice; ok widget], noon))
  = Done (respond 400 (JObj ["error" :- JStr "Insufficient stock";
                             "available" :- JNum 2;
                             "requested" :- JNum 3])).
Proof.
  pose proof (@cart_add_refusals Sample Script
                ([ok_user alice; ok widget], noon) ([ok widget], noon) ([], noon)
                (from_alice ["product_id" :- JStr "p1"; "quantity" :- JNum 3] EmptyString)
                alice) as H.
  cbv zeta in H.
  refine (proj1 (H _ _ _ _)); [holds |].
  eapply refuse_insufficient with (product := widget) (productError := JNull); holds.
Defined.

(** C1, as stated, fails at a quantity sent as text (every value of a
    form-encoded body is text): Alice has one item of a product with twenty
    in stock in her cart and asks for ["2"] more; [1 + "2"] is the text
    ["12"], which does not exceed 20, and the handler updates her row to
    the quantity ["12"], not to 3. *)
Theorem cart_add_joins_a_text_quantity :
  js_add (B := Sample) (field cart_row "quantity") (JStr "2") = Some (JStr "12") /\
  issued (exec Script
            (post_api_cart (B := Sample)
               (from_alice ["product_id" :- JStr "p1"; "quantity" :- JStr "2"] EmptyString))
            ([ok_user alice; ok crate; ok cart_row; ok (JArr [cart_row])], noon))
  = [auth_getUser (JStr "token-alice");
     product_lookup (from_alice ["product_id" :- JStr "p1"; "quantity" :- JStr "2"]
                       EmptyString);
     existing_lookup (from_alice ["product_id" :- JStr "p1"; "quantity" :- JStr "2"]
                        EmptyString) alice;
     cart_merge (B := Sample) cart_row (JStr "12") noon].
Proof. split; reflexivity. Qed.

(** Alice removes her cart row: the delete names the row and nothing else. *)
Lemma cart_remove_witness :
  issued (exec Script (delete_api_cart_item (B := Sample) (from_alice [] "c1"))
            ([ok_user alice; ok cart_row; ok JNull], noon))
  = [auth_getUser (JStr "token-alice");
     cart_item_lookup (from_alice [] "c1") alice;
     from Admin "cart_items" [delete; eq "id" (JStr "c1")]].
Proof.
  pose proof (@cart_remove_checks_owner_on_read_only Sample Script
                ([ok_user alice; ok cart_row; ok JNull], noon)
                ([ok cart_row; ok JNull], noon) ([ok JNull], noon)
                (from_alice [] "c1") alice cart_row JNull) as H.
  cbv zeta in H.
  destruct H as (_ & _ & Hdelete); [holds | holds |].
  exact (proj1 (Hdelete eq_refl eq_refl)).
Defined.

(** The body of a product that names Bob as its seller. *)
Lemma created_product_witness :
  exists record,
    newProduct (B := Sample) alice
      (JObj ["title" :- JStr "Widget"; "description" :- JStr "d";
             "price" :- JNum 25; "seller_id" :- JStr "u-bob"]) = Some record /\
    field record "seller_id" = JStr "u-alice" /\
    issued (exec Script
              (post_api_posts (B := Sample)
                 (from_alice ["title" :- JStr "Widget"; "description" :- JStr "d";
                              "price" :- JNum 25; "seller_id" :- JStr "u-bob"] EmptyString))
              ([ok_user alice; ok (JArr [widget])], noon))
    = [auth_getUser (JStr "token-alice");
       product_insert
         (from_alice ["title" :- JStr "Widget"; "description" :- JStr "d";
                      "price" :- JNum 25; "seller_id" :- JStr "u-bob"] EmptyString)
         record].
Proof.
  pose proof (@created_product_belongs_to_caller Sample Script
                ([ok_user alice; ok (JArr [widget])], noon) ([ok (JArr [widget])], noon)
                (from_alice ["title" :- JStr "Widget"; "description" :- JStr "d";
                             "price" :- JNum 25; "seller_id" :- JStr "u-bob"] EmptyString)
                alice) as H.
  cbv zeta in H.
  destruct H as (Hbuilt & _ & _); [holds | holds | holds | holds |].
  eexists. split; [reflexivity |].
  destruct (Hbuilt _ eq_refl) as [Hissued Hseller].
  split; [exact Hseller | exact Hissued].
Defined.

(** A price that cannot be parsed: the error is thrown outside the [try],
    no insert is issued and no response is sent. *)
Example created_product_with_an_unparsable_price :
  exec Script
    (post_api_posts (B := Sample)
       (from_alice ["title" :- JStr "Widget"; "description" :- JStr "d";
                    "price" :- hostile] EmptyString))
    ([ok_user alice; ok (JArr [widget])], noon)
  = @Build_Run Script Response (Uncaught (conversion_error (B := Sample)))
      [(auth_getUser (JStr "token-alice"), Some (ok_user alice))]
      ([ok (JArr [widget])], noon).
Proof. reflexivity. Qed.

(** A product with a price of zero is accepted and created. *)
Lemma create_product_witness :
  outcome (exec Script
             (post_api_posts (B := Sample)
                (from_alice ["title" :- JStr "Widget"; "description" :- JStr "d";
                             "price" :- JNum 0] EmptyString))
             ([ok_user alice; ok (JArr [widget])], noon))
  = Done (respond 201 (JObj ["message" :- JStr "Product created successfully";
                             "product" :- widget])).
Proof.
  pose proof (@create_product_validates_and_defaults Sample Script
                ([ok_user alice; ok (JArr [widget])], noon) ([ok (JArr [widget])], noon)
                (from_alice ["title" :- JStr "Widget"; "description" :- JStr "d";
                             "price" :- JNum 0] EmptyString)
                alice) as H.
  cbv zeta in H.
  destruct H as (_ & _ & _ & Haccepted); [holds |].
  destruct (Haccepted _ eq_refl) as (Hcreated & _).
  refine (proj2 (Hcreated eq_refl eq_refl eq_refl) ([], noon) widget [] JNull _ _ _);
    holds.
Defined.

(** C6, as stated, fails: a body with [is_active: null] is accepted, and the
    record sent to the store has [is_active] [null], which is not [true]
    although the body did not say [false]. *)
Lemma is_active_null_is_stored_as_null :
  outcome (exec Script
             (post_api_posts (B := Sample)
                (from_alice ["title" :- JStr "Widget"; "description" :- JStr "d";
                             "price" :- JNum 25; "is_active" :- JNull] EmptyString))
             ([ok_user alice; ok (JArr [widget])], noon))
  = Done (respond 201 (JObj ["message" :- JStr "Product created successfully";
                             "product" :- widget])) /\
  In (from (WithAuth (JStr "token-alice")) "products"
        [insert (JObj ["seller_id" :- JStr "u-alice"; "title" :- JStr "Widget";
                       "description" :- JStr "d"; "price" :- JNum 25;
                       "image_url" :- JNull; "category" :- JNull;
                       "stock_quantity" :- JNum 0; "is_active" :- JNull]);
         select None])
     (issued (exec Script
                (post_api_posts (B := Sample)
                   (from_alice ["title" :- JStr "Widget"; "description" :- JStr "d";
                                "price" :- JNum 25; "is_active" :- JNull] EmptyString))
                ([ok_user alice; ok (JArr [widget])], noon))) /\
  exists record,
    newProduct (B := Sample) alice
      (JObj ["title" :- JStr "Widget"; "description" :- JStr "d";
             "price" :- JNum 25; "is_active" :- JNull]) = Some record /\
    field record "is_active" <> true_unless_false JNull.
Proof.
  split; [reflexivity | split].
  - right; left; reflexivity.
  - eexists. split; [reflexivity |]. cbn. discriminate.
Defined.

(** The statistics of two rows: one active, in stock and a day old, one
    inactive, out of stock and older than a week. *)
Lemma seller_statistics_witness :
  exists response,
    outcome (exec Script (get_api_seller_stats (B := Sample) (from_alice [] EmptyString))
               ([ok_user alice; ok (JArr (List.map row_json two_rows))], noon))
    = Done response /\
    field (json response) "statistics"
    = JObj ["totalProducts" :- JNum 2;
            "activeProducts" :- JNum 1;
            "inactiveProducts" :- JNum 1;
            "outOfStockProducts" :- JNum 1;
            "recentProducts" :- JNum 1;
            "totalInventoryValue" :- JNum 15].
Proof.
  pose proof (@seller_statistics_computed Sample Script
                ([ok_user alice; ok (JArr (List.map row_json two_rows))], noon)
                ([ok (JArr (List.map row_json two_rows))], noon)
                ([], noon) ([], noon)
                (from_alice [] EmptyString) alice JNull two_rows noon) as H.
  cbv zeta in H.
  destruct H as (response & Hout & _ & Hstats); [holds | holds | holds | holds |].
  exists response. split; [exact Hout | rewrite Hstats; reflexivity].
Defined.

(** Alice has no profile row. *)
Lemma profile_read_witness :
  outcome (exec Script (get_api_auth_profile (B := Sample) (from_alice [] EmptyString))
             ([ok_user alice; no_row], noon))
  = Done (respond 200
            (JObj ["user" :-
               JObj ["id" :- JStr "u-alice";
                     "email" :- JStr "alice@example.com";
                     "name" :- JStr "Alice";
                     "username" :- JStr "Alice";
                     "website" :- JStr EmptyString;
                     "avatar_url" :- JStr "https://img.example/alice.png";
                     "google_id" :- JStr "g-1";
                     "created_at" :- JStr "2024-01-01T00:00:00Z";
                     "last_sign_in_at" :- JStr "2024-01-07T00:00:00Z";
                     "email_confirmed_at" :- JStr "2024-01-01T00:05:00Z"]])).
Proof.
  pose proof (@profile_read_without_profile Sample Script
                ([ok_user alice; no_row], noon) ([no_row], noon) ([], noon)
                (from_alice [] EmptyString) alice no_row) as H.
  cbv zeta in H.
  destruct H as (Hout & _); [holds | holds | right; left; reflexivity |].
  exact Hout.
Defined.

(** C9, as stated, fails: Alice's identity metadata holds a website, and the
    profile built for her without a profile row has the empty string
    there. *)
Lemma website_is_not_filled_from_metadata :
  outcome (exec Script (get_api_auth_profile (B := Sample) (from_alice [] EmptyString))
             ([ok_user alice; no_row], noon))
  = Done (respond 200 (JObj ["user" :- identity_profile alice])) /\
  ~ filled_from_metadata alice (identity_profile alice).
Proof.
  split; [reflexivity |].
  intros (_ & Hwebsite & _). cbn in Hwebsite. discriminate Hwebsite.
Defined.

(** C8, as stated, fails: when the identity provider rejects the
    credentials, the login handler answers 401, not 400. *)
Lemma login_failure_answers_401 :
  ~ answers_400_with_details
      (exec Script
         (post_api_auth_login (B := Sample)
            (anonymous ["email" :- JStr "a@b.com"; "password" :- JStr "longenough"]))
         ([failed "Invalid login credentials"], noon)).
Proof.
  intros H.
  destruct (H (auth_signInWithPassword
                 (JObj ["email" :- JStr "a@b.com"; "password" :- JStr "longenough"]))
              (reply_of JNull (JObj ["message" :- JStr "Invalid login credentials"])))
    as (response & Hout & Hstatus & _).
  - left; reflexivity.
  - repeat split.
  - cbn in Hout. injection Hout as <-. discriminate Hstatus.
Defined.

(** The same login under the policy: 401, with the provider's message. *)
Lemma login_failure_follows_policy :
  exists response,
    outcome (exec Script
               (post_api_auth_login (B := Sample)
                  (anonymous ["email" :- JStr "a@b.com"; "password" :- JStr "longenough"]))
               ([failed "Invalid login credentials"], noon))
    = Done response /\
    status response = 401%Z /\
    field (json response) "details" = JStr "Invalid login credentials".
Proof.
  pose proof (@upstream_errors_follow_policy Sample Script JUndefined Login
                (anonymous ["email" :- JStr "a@b.com"; "password" :- JStr "longenough"])
                ([failed "Invalid login credentials"], noon)
                (auth_signInWithPassword
                   (JObj ["email" :- JStr "a@b.com"; "password" :- JStr "longenough"]))
                (reply_of JNull (JObj ["message" :- JStr "Invalid login credentials"]))) as H.
  destruct H as (response & Hout & Hstatus & Hdetails & _).
  - left; reflexivity.
  - repeat split.
  - exists response. split; [exact Hout | split; [exact Hstatus |]].
    rewrite (Hdetails eq_refl). reflexivity.
Defined.

(** ** The further properties on sample runs *)

(** A cart listing without a token. *)
Lemma no_token_no_request_witness :
  exec Script (handler (B := Sample) JUndefined GetCart (anonymous [])) ([], noon) =
  @Build_Run Script Response (Done no_token_provided) [] ([], noon).
Proof.
  apply (@no_token_no_request Sample Script JUndefined GetCart (anonymous []) ([], noon));
    reflexivity.
Defined.

(** An expired token on the session route and on the cart. *)
Lemma unresolved_token_stops_witness :
  outcome (exec Script (handler (B := Sample) JUndefined Session (from_alice [] EmptyString))
             ([expired], noon))
  = Done (respond 401 (JObj ["error" :- JStr "Invalid token"])) /\
  outcome (exec Script (handler (B := Sample) JUndefined GetCart (from_alice [] EmptyString))
             ([expired], noon))
  = Done (respond 401 (JObj ["error" :- JStr "Invalid or expired token";
                             "details" :- JStr "token is expired"])).
Proof.
  split.
  - rewrite (@unresolved_token_stops Sample Script JUndefined Session
               (from_alice [] EmptyString) ([expired], noon) ([], noon)
               (reply_of (JObj ["user" :- JNull]) (JObj ["message" :- JStr "token is expired"])));
      first [ reflexivity | left; reflexivity ].
  - rewrite (@unresolved_token_stops Sample Script JUndefined GetCart
               (from_alice [] EmptyString) ([expired], noon) ([], noon)
               (reply_of (JObj ["user" :- JNull]) (JObj ["message" :- JStr "token is expired"])));
      first [ reflexivity | left; reflexivity ].
Defined.

(** The scheme word is not looked at. *)
Lemma token_is_the_second_word_witness :
  bearer (with_header (Some "Basic dXNlcg") (anonymous [])) = JStr "dXNlcg" /\
  bearer (with_header (Some "Bearer abc def") (anonymous [])) = JStr "abc".
Proof.
  pose proof (@token_is_the_second_word (anonymous []) "Basic" "dXNlcg" EmptyString
                eq_refl eq_refl) as H1.
  pose proof (@token_is_the_second_word (anonymous []) "Bearer" "abc" "def"
                eq_refl eq_refl) as H2.
  split; [exact (proj1 H1) | exact (proj1 (proj2 H2))].
Defined.

(** A password of seven characters, and the number 12345. *)
Lemma register_checks_the_length_witness :
  issued (exec Script
            (post_api_auth_register (B := Sample)
               (anonymous ["email" :- JStr "a@b.com"; "password" :- JStr "secret1"]))
            ([], noon))
  = [sign_up (anonymous ["email" :- JStr "a@b.com"; "password" :- JStr "secret1"])] /\
  issued (exec Script
            (post_api_auth_register (B := Sample)
               (anonymous ["email" :- JStr "a@b.com"; "password" :- JNum 12345]))
            ([], noon))
  = [sign_up (anonymous ["email" :- JStr "a@b.com"; "password" :- JNum 12345])].
Proof.
  pose proof (@register_checks_the_length Sample Script
                (anonymous ["email" :- JStr "a@b.com"; "password" :- JStr "secret1"])
                ([], noon) eq_refl) as H1.
  pose proof (@register_checks_the_length Sample Script
                (anonymous ["email" :- JStr "a@b.com"; "password" :- JNum 12345])
                ([], noon) eq_refl) as H2.
  cbv zeta in H1, H2. split.
  - refine (proj1 H1 "secret1" eq_refl _ _); [discriminate | reflexivity].
  - exact (proj2 H2 eq_refl eq_refl).
Defined.

(** Without [FRONTEND_URL], and with an empty body for the Google
    sign-in. *)
Lemma redirect_targets_witness :
  issued (exec Script (post_api_auth_google (B := Sample) JUndefined (anonymous []))
            ([], noon))
  = [google_sign_in (JStr "http://localhost:5173/auth/callback")] /\
  issued (exec Script (post_api_auth_magic_link (B := Sample) JUndefined
                         (anonymous ["email" :- JStr "a@b.com"])) ([], noon))
  = [magic_link (anonymous ["email" :- JStr "a@b.com"]) (JStr "undefined/auth/callback")].
Proof.
  pose proof (@redirect_targets Sample Script JUndefined (anonymous []) ([], noon))
    as (Hgoogle & _).
  pose proof (@redirect_targets Sample Script JUndefined
                (anonymous ["email" :- JStr "a@b.com"]) ([], noon))
    as (_ & Hmagic & _).
  split; [exact (Hgoogle _ eq_refl) | exact (Hmagic eq_refl _ eq_refl)].
Defined.

(** Five asked for, two in stock; and a quantity that cannot be compared. *)
Lemma cart_quantity_is_checked_witness :
  outcome (exec Script (put_api_cart (B := Sample) (from_alice ["quantity" :- JNum 5] "c1"))
             ([ok_user alice; ok cart_row_with_stock], noon))
  = Done (respond 400 (JObj ["error" :- JStr "Quantity exceeds available stock";
                             "available" :- JNum 2;
                             "requested" :- JNum 5])) /\
  outcome (exec Script (put_api_cart (B := Sample) (from_alice ["quantity" :- hostile] "c1"))
             ([ok_user alice; ok cart_row_with_stock], noon))
  = Done (respond 500 (JObj ["error" :- JStr "Internal server error";
                             "details" :- JStr "Cannot convert object to primitive value"])).
Proof.
  pose proof (@cart_quantity_is_checked Sample Script
                ([ok_user alice; ok cart_row_with_stock], noon)
                ([ok cart_row_with_stock], noon)
                (from_alice ["quantity" :- JNum 5] "c1") alice) as H.
  pose proof (@cart_quantity_is_checked Sample Script
                ([ok_user alice; ok cart_row_with_stock], noon)
                ([ok cart_row_with_stock], noon)
                (from_alice ["quantity" :- hostile] "c1") alice) as H'.
  cbv zeta in H, H'.
  destruct H as (_ & _ & H); [holds |].
  destruct H' as (_ & H' & _); [holds |].
  split.
  - destruct (H eq_refl eq_refl cart_row_with_stock JNull ([], noon)) as [_ H2]; [holds |].
    destruct (H2 eq_refl eq_refl eq_refl) as [H3 _].
    exact (proj1 (H3 eq_refl)).
  - exact (proj1 (H' eq_refl eq_refl)).
Defined.

(** Two asked for, two in stock. *)
Lemma stock_limits_are_inclusive_witness :
  issued (exec Script (put_api_cart (B := Sample) (from_alice ["quantity" :- JNum 2] "c1"))
            ([ok_user alice; ok cart_row_with_stock; ok (JArr [cart_row_with_stock])], noon))
  = [auth_getUser (JStr "token-alice");
     cart_quantity_lookup (from_alice ["quantity" :- JNum 2] "c1") alice;
     cart_quantity_update (from_alice ["quantity" :- JNum 2] "c1")].
Proof.
  pose proof (@stock_limits_are_inclusive Sample Script 2%float
                ([ok_user alice; ok cart_row_with_stock; ok (JArr [cart_row_with_stock])], noon)
                ([ok cart_row_with_stock; ok (JArr [cart_row_with_stock])], noon)
                ([ok (JArr [cart_row_with_stock])], noon)
                (from_alice ["quantity" :- JNum 2] "c1") alice) as H.
  destruct H as [H _]; [holds | reflexivity |].
  refine (H eq_refl eq_refl cart_row_with_stock JNull _ eq_refl eq_refl eq_refl eq_refl).
  holds.
Defined.

(** Alice has one crate in her cart and asks for two more: the row is
    updated to three. *)
Lemma cart_add_merges_witness :
  issued (exec Script
            (post_api_cart (B := Sample)
               (from_alice ["product_id" :- JStr "p1"; "quantity" :- JNum 2] EmptyString))
            ([ok_user alice; ok crate; ok cart_row; ok (JArr [cart_row])], noon))
  = [auth_getUser (JStr "token-alice");
     product_lookup (from_alice ["product_id" :- JStr "p1"; "quantity" :- JNum 2]
                       EmptyString);
     existing_lookup (from_alice ["product_id" :- JStr "p1"; "quantity" :- JNum 2]
                        EmptyString) alice;
     cart_merge (B := Sample) cart_row (JNum 3) noon].
Proof.
  pose proof (@cart_add_merges Sample Script
                ([ok_user alice; ok crate; ok cart_row; ok (JArr [cart_row])], noon)
                ([ok crate; ok cart_row; ok (JArr [cart_row])], noon)
                ([ok cart_row; ok (JArr [cart_row])], noon)
                ([ok (JArr [cart_row])], noon)
                ([ok (JArr [cart_row])], noon)
                (from_alice ["product_id" :- JStr "p1"; "quantity" :- JNum 2] EmptyString)
                alice crate cart_row JNull (JNum 2) noon) as H.
  cbv zeta in H.
  destruct H as (_ & Hmerge);
    [holds | right; split; reflexivity | holds | holds | holds |].
  destruct (Hmerge eq_refl eq_refl (JNum 3) eq_refl) as (_ & _ & _ & Hupdate).
  exact (proj1 (Hupdate eq_refl)).
Defined.

(** Alice empties her cart. *)
Lemma cart_clear_is_the_callers_witness :
  issued (exec Script (delete_api_cart (B := Sample) (from_alice [] EmptyString))
            ([ok_user alice; ok JNull], noon))
  = [auth_getUser (JStr "token-alice"); cart_clear alice] /\
  status_of (outcome (exec Script (delete_api_cart (B := Sample) (from_alice [] EmptyString))
                        ([ok_user alice; ok JNull], noon)))
  = Some 200%Z.
Proof.
  pose proof (@cart_clear_is_the_callers Sample Script
                ([ok_user alice; ok JNull], noon) ([ok JNull], noon)
                (from_alice [] EmptyString) alice) as H.
  cbv zeta in H.
  destruct H as (Hissued & _ & Hok); [holds |].
  split; [exact Hissued |].
  destruct (Hok (reply_of JNull JNull) ([], noon)) as [Hout _];
    [reflexivity | reflexivity | reflexivity |].
  rewrite Hout. reflexivity.
Defined.

(** Alice renames her gadget, and the store returns no row; and a stock
    that cannot be parsed. *)
Lemma product_update_is_the_owners_witness :
  outcome (exec Script
             (put_api_my_products (B := Sample) (from_alice ["title" :- JStr "Gizmo"] "p2"))
             ([ok_user alice; ok gadget; ok (JArr [])], noon))
  = Done (respond 404 (JObj ["error" :- JStr "Product not found or update failed"])) /\
  issued (exec Script
            (put_api_my_products (B := Sample)
               (from_alice ["stock_quantity" :- hostile] "p2"))
            ([ok_user alice; ok gadget; ok (JArr [gadget])], noon))
  = [auth_getUser (JStr "token-alice");
     owner_lookup UpdateMine (from_alice ["stock_quantity" :- hostile] "p2")].
Proof.
  pose proof (@product_update_is_the_owners Sample Script
                ([ok_user alice; ok gadget; ok (JArr [])], noon)
                ([ok gadget; ok (JArr [])], noon)
                ([ok (JArr [])], noon) ([ok (JArr [])], noon)
                (from_alice ["title" :- JStr "Gizmo"] "p2") alice gadget JNull noon) as H.
  pose proof (@product_update_is_the_owners Sample Script
                ([ok_user alice; ok gadget; ok (JArr [gadget])], noon)
                ([ok gadget; ok (JArr [gadget])], noon)
                ([ok (JArr [gadget])], noon) ([ok (JArr [gadget])], noon)
                (from_alice ["stock_quantity" :- hostile] "p2") alice gadget JNull noon)
    as H'.
  cbv zeta in H, H'.
  destruct H as (Hbuilt & _); [holds | holds | holds | holds | holds | holds |].
  destruct H' as (_ & Hthrows); [holds | holds | holds | holds | holds | holds |].
  split.
  - destruct (Hbuilt _ eq_refl) as (_ & _ & Hnone).
    refine (proj1 (Hnone (JArr []) ([], noon) _ (or_intror eq_refl))). holds.
  - exact (proj1 (proj2 (Hthrows eq_refl))).
Defined.

(** Alice deletes her gadget, which is in nobody's cart. *)
Lemma product_delete_when_unreferenced_witness :
  issued (exec Script (delete_api_my_products (B := Sample) (from_alice [] "p2"))
            ([ok_user alice; ok gadget; ok (JArr []); ok JNull], noon))
  = [auth_getUser (JStr "token-alice"); owner_lookup DeleteMine (from_alice [] "p2");
     cart_references (from_alice [] "p2"); product_delete (from_alice [] "p2") alice] /\
  outcome (exec Script (delete_api_my_products (B := Sample) (from_alice [] "p2"))
             ([ok_user alice; ok gadget; ok (JArr []); ok JNull], noon))
  = Done (respond_ok (JObj ["message" :-
                              JStr ("Product " ++ dquote ++ "Gadget" ++ dquote
                                    ++ " deleted successfully")])).
Proof.
  pose proof (@product_delete_when_unreferenced Sample Script
                ([ok_user alice; ok gadget; ok (JArr []); ok JNull], noon)
                ([ok gadget; ok (JArr []); ok JNull], noon)
                ([ok (JArr []); ok JNull], noon)
                ([ok JNull], noon)
                (from_alice [] "p2") alice gadget JNull (JArr [])) as H.
  cbv zeta in H.
  destruct H as (Hissued & _ & Hok);
    [holds | holds | holds | holds | holds | holds | right; reflexivity |].
  split; [exact Hissued |].
  destruct (Hok (reply_of JNull JNull) ([], noon) _ eq_refl eq_refl eq_refl eq_refl)
    as [Hout _].
  exact Hout.
Defined.

(** The record of the new lamp. *)
Lemma product_insert_without_a_row_witness :
  outcome (exec Script (post_api_posts (B := Sample) (from_alice new_lamp EmptyString))
             ([ok_user alice; ok (JArr [])], noon))
  = Done (respond 400 (JObj ["error" :- JStr "Product creation failed - no data returned"])).
Proof.
  pose proof (@product_insert_without_a_row Sample Script
                ([ok_user alice; ok (JArr [])], noon) ([ok (JArr [])], noon) ([], noon)
                (from_alice new_lamp EmptyString) alice lamp_record (JArr [])) as H.
  cbv zeta in H.
  destruct H as (Hout & _);
    [holds | reflexivity | reflexivity | reflexivity | reflexivity | holds
     | right; reflexivity |].
  exact Hout.
Defined.

(** The identity provider cannot be reached while Alice creates a product. *)
Lemma product_insert_guard_is_not_caught_witness :
  outcome (exec Script (post_api_posts (B := Sample) (from_alice new_lamp EmptyString))
             ([Rejected unreachable], noon))
  = Uncaught unreachable.
Proof.
  pose proof (@product_insert_guard_is_not_caught Sample Script
                ([Rejected unreachable], noon) (from_alice new_lamp EmptyString) eq_refl) as H.
  cbv zeta in H. destruct H as [H _].
  rewrite (H unreachable ([], noon) eq_refl). reflexivity.
Defined.

(** Alice adds a widget, and the store returns no row. *)
Lemma cart_insert_without_a_row_witness :
  outcome (exec Script
             (post_api_cart (B := Sample)
                (from_alice ["product_id" :- JStr "p1"] EmptyString))
             ([ok_user alice; ok widget; no_row; ok (JArr [])], noon))
  = Done (respond 201 (JObj ["message" :- JStr ("Added " ++ dquote ++ "Widget" ++ dquote
                                                ++ " to cart");
                             "cartItem" :- JUndefined])).
Proof.
  pose proof (@cart_insert_without_a_row Sample Script
                ([ok_user alice; ok widget; no_row; ok (JArr [])], noon)
                ([ok widget; no_row; ok (JArr [])], noon)
                ([no_row; ok (JArr [])], noon)
                ([ok (JArr [])], noon)
                ([], noon)
                (from_alice ["product_id" :- JStr "p1"] EmptyString)
                alice widget JNull
                (JObj ["code" :- JStr "PGRST116";
                       "message" :- JStr "JSON object requested, multiple (or no) rows returned"])
                JOne (JArr [])) as H.
  cbv zeta in H.
  destruct H as (_ & Hempty & _);
    [holds | left; split; reflexivity | holds | holds | left; reflexivity | holds |].
  exact (Hempty eq_refl _ eq_refl).
Defined.

(** Alice's cart, with [data] null. *)
Lemma listings_without_data_witness :
  outcome (exec Script (get_api_cart (B := Sample) (from_alice [] EmptyString))
             ([ok_user alice; ok JNull], noon))
  = Done (respond_ok (JArr [])) /\
  status_of (outcome (exec Script (get_api_seller_stats (B := Sample) (from_alice [] EmptyString))
                        ([ok_user alice; ok JNull], noon)))
  = Some 500%Z.
Proof.
  pose proof (@listings_without_data Sample Script
                ([ok_user alice; ok JNull], noon) ([ok JNull], noon) ([], noon)
                (from_alice [] EmptyString) alice) as H.
  destruct H as (_ & Hcart & Hstats); [holds |].
  split.
  - apply Hcart. holds.
  - rewrite Hstats; [reflexivity | holds].
Defined.

(** The profile lookup is rejected. *)
Lemma profile_read_always_answers_witness :
  issued (exec Script (get_api_auth_profile (B := Sample) (from_alice [] EmptyString))
            ([ok_user alice; Rejected unreachable], noon))
  = [auth_getUser (JStr "token-alice"); profile_lookup alice].
Proof.
  pose proof (@profile_read_always_answers Sample Script
                ([ok_user alice; Rejected unreachable], noon) ([Rejected unreachable], noon)
                (from_alice [] EmptyString) alice) as H.
  cbv zeta in H.
  destruct H as (Hissued & _); [holds |].
  exact Hissued.
Defined.

(** A website that is not an [http:] or [https:] URL. *)
Lemma profile_update_validates_witness :
  outcome (exec Script
             (put_api_auth_profile (B := Sample)
                (from_alice ["website" :- JStr "ftp://alice.example"] EmptyString))
             ([ok_user alice], noon))
  = Done (respond 400 (JObj ["error" :- JStr "Invalid website URL"])).
Proof.
  pose proof (@profile_update_validates Sample Script
                ([ok_user alice], noon) ([], noon)
                (from_alice ["website" :- JStr "ftp://alice.example"] EmptyString) alice) as H.
  cbv zeta in H.
  destruct H as (_ & _ & H); [holds |].
  destruct (H (or_introl eq_refl)) as [Hwebsite _].
  exact (proj1 (Hwebsite eq_refl eq_refl)).
Defined.

(** The metadata mirror is rejected. *)
Lemma profile_update_survives_the_mirror_witness :
  outcome (exec Script
             (put_api_auth_profile (B := Sample)
                (from_alice ["username" :- JStr "al"] EmptyString))
             ([ok_user alice; ok (JArr []); Rejected JNull], noon))
  = Done (profile_updated (B := Sample) (from_alice ["username" :- JStr "al"] EmptyString)
            alice noon).
Proof.
  pose proof (@profile_update_survives_the_mirror Sample Script
                ([ok_user alice; ok (JArr []); Rejected JNull], noon)
                ([ok (JArr []); Rejected JNull], noon)
                ([ok (JArr []); Rejected JNull], noon)
                ([Rejected JNull], noon)
                ([], noon)
                (from_alice ["username" :- JStr "al"] EmptyString)
                alice (JArr []) noon (Rejected JNull)) as H.
  cbv zeta in H.
  destruct H as (_ & Hout & _);
    [holds | right; reflexivity | reflexivity | reflexivity | reflexivity | holds
     | reflexivity |].
  exact Hout.
Defined.

(** A failed login. *)
Lemma responses_use_the_statuses_of_the_route_witness :
  In (status (respond 401 (JObj ["error" :- JStr "Login failed";
                                 "details" :- JStr "Invalid login credentials"])))
     (possible_statuses Login).
Proof.
  apply (@responses_use_the_statuses_of_the_route Sample Script JUndefined Login
           (anonymous ["email" :- JStr "a@b.com"; "password" :- JStr "wrong-password"])
           ([failed "Invalid login credentials"], noon)).
  reflexivity.
Defined.

(** Alice creates a lamp: the insert goes through her own client. *)
Lemma store_requests_use_the_expected_client_witness :
  WithAuth (JStr "token-alice") =
  WithAuth (bearer (from_alice new_lamp EmptyString)).
Proof.
  apply (@store_requests_use_the_expected_client Sample Script JUndefined PostPosts
           (from_alice new_lamp EmptyString)
           ([ok_user alice; ok (JArr [gadget])], noon)
           (WithAuth (JStr "token-alice")) "products"
           [insert lamp_record; select None]).
  right; left; reflexivity.
Defined.

(** The store cannot be reached while Alice lists her cart. *)
Lemma rejected_calls_are_answered_500_witness :
  outcome (exec Script (handler (B := Sample) JUndefined GetCart (from_alice [] EmptyString))
             ([ok_user alice; Rejected unreachable], noon))
  = Done (respond 500 (JObj ["error" :- JStr "Internal error";
                             "details" :- JStr "fetch failed"])).
Proof.
  apply (@rejected_calls_are_answered_500 Sample Script JUndefined GetCart
           (from_alice [] EmptyString) ([ok_user alice; Rejected unreachable], noon)
           (cart_query alice) unreachable).
  - right; left; reflexivity.
  - reflexivity.
  - reflexivity.
  - discriminate.
Defined.

(** The public catalogue, answered. *)
Lemma errors_do_not_escape_witness :
  outcome (exec Script (handler (B := Sample) JUndefined GetPosts (anonymous []))
             ([ok (JArr [])], noon)) = Pending \/
  exists response,
    outcome (exec Script (handler (B := Sample) JUndefined GetPosts (anonymous []))
               ([ok (JArr [])], noon)) = Done response.
Proof.
  apply (@errors_do_not_escape Sample Script JUndefined GetPosts (anonymous [])
           ([ok (JArr [])], noon)).
  - discriminate.
  - intros rq reason [Hin | []]. discriminate Hin.
Defined.
